(** * Adaptive Gaming Guide backend: [backend/app/main.py] and the lambda
      handler

    A shallow embedding of the chat orchestrator: the message classifier
    ([is_greeting]), the prompt builders, the refusal detector
    ([looks_like_refusal]), the two provider wrappers ([call_model_simple],
    [call_bedrock]), the HTTP handlers ([chat], [chat_stream]) and the
    event stream ([stream_reply]); and of the lambda copy of the handler
    ([LambdaHandler]).

    Python [str] values are carried as [string], holding their UTF-8
    encoding.  [strip], [split], [lower] and [len] act on the code points
    of the text, with the whitespace set and the case mapping of CPython
    (Unicode 14.0, as in CPython 3.11).

    The generation provider (boto3) is an oracle stored in the [World]:
    every call is appended, with its outcome, to the world's log.  The
    clients themselves are taken as given: [boto3.client] is not modelled,
    what is modelled of a client is what its calls answer. *)

From Stdlib Require Import String Ascii List Bool Arith NArith Lia.
Import ListNotations.
Local Open Scope list_scope.
Local Open Scope string_scope.

(* ===================================================================== *)
(** ** Python string primitives *)
(* ===================================================================== *)

Module PyStr.

(** *** Code points

    A [str] is a sequence of code points; a [string] here holds its
    UTF-8 bytes. *)

Definition byte (c : ascii) : N := N_of_ascii c.

Definition of_byte (b : N) : ascii := ascii_of_N b.

(** [drop n s]: [s] without its first [n] bytes. *)
Fixpoint drop (n : nat) (s : string) : string :=
  match n, s with
  | S k, String _ s' => drop k s'
  | _, _ => s
  end.

(** A continuation byte, 10xxxxxx. *)
Definition continuation (b : N) : bool := ((128 <=? b) && (b <? 192))%N.

(** A byte that is part of no well-formed sequence stands for itself,
    above the code space. *)
Definition stray (b : N) : N := (1114112 + b)%N.

(** The code point that starts with the byte [b1], followed by [s], and
    the number of continuation bytes it takes from [s]: one to four bytes
    in shortest form, up to U+10FFFF. *)
Definition head_cp (b1 : N) (s : string) : N * nat :=
  if (b1 <? 128)%N then (b1, 0)
  else if ((194 <=? b1) && (b1 <? 224))%N then
    match s with
    | String c2 _ =>
        if continuation (byte c2)
        then (((b1 - 192) * 64 + (byte c2 - 128))%N, 1)
        else (stray b1, 0)
    | _ => (stray b1, 0)
    end
  else if ((224 <=? b1) && (b1 <? 240))%N then
    match s with
    | String c2 (String c3 _) =>
        let v := ((b1 - 224) * 4096 + (byte c2 - 128) * 64 + (byte c3 - 128))%N in
        if continuation (byte c2) && continuation (byte c3) && (2048 <=? v)%N
        then (v, 2)
        else (stray b1, 0)
    | _ => (stray b1, 0)
    end
  else if ((240 <=? b1) && (b1 <? 245))%N then
    match s with
    | String c2 (String c3 (String c4 _)) =>
        let v := ((b1 - 240) * 262144 + (byte c2 - 128) * 4096
                  + (byte c3 - 128) * 64 + (byte c4 - 128))%N in
        if continuation (byte c2) && continuation (byte c3)
           && continuation (byte c4) && (65536 <=? v)%N && (v <? 1114112)%N
        then (v, 3)
        else (stray b1, 0)
    | _ => (stray b1, 0)
    end
  else (stray b1, 0).

(** The code points of [s]; [skip] bytes of the code point being read are
    still to be passed over. *)
Fixpoint decode_skip (skip : nat) (s : string) : list N :=
  match s with
  | EmptyString => []
  | String c s' =>
      match skip with
      | S k => decode_skip k s'
      | O => let (v, k) := head_cp (byte c) s' in v :: decode_skip k s'
      end
  end.

Definition decode (s : string) : list N := decode_skip 0 s.

(** The UTF-8 bytes of one code point. *)
Definition encode_cp (c : N) : string :=
  if (c <? 128)%N then String (of_byte c) ""
  else if (c <? 2048)%N then
    String (of_byte (192 + c / 64)) (String (of_byte (128 + c mod 64)) "")
  else if (c <? 65536)%N then
    String (of_byte (224 + c / 4096))
      (String (of_byte (128 + (c / 64) mod 64))
         (String (of_byte (128 + c mod 64)) ""))
  else if (c <? 1114112)%N then
    String (of_byte (240 + c / 262144))
      (String (of_byte (128 + (c / 4096) mod 64))
         (String (of_byte (128 + (c / 64) mod 64))
            (String (of_byte (128 + c mod 64)) "")))
  else String (of_byte (128 + (c - 1114112) mod 128)) "".

Fixpoint encode (l : list N) : string :=
  match l with
  | [] => ""
  | c :: l' => encode_cp c ++ encode l'
  end.

(** [len(s)]: the number of code points. *)
Definition len (s : string) : nat := List.length (decode s).

(** *** Whitespace *)

(** The code points for which [str.isspace] holds; [strip] and [split]
    use the same set. *)
Definition whitespace : list N :=
  [ 9; 10; 11; 12; 13; 28; 29; 30; 31; 32; 133; 160; 5760;
    8192; 8193; 8194; 8195; 8196; 8197; 8198; 8199; 8200; 8201; 8202;
    8232; 8233; 8239; 8287; 12288 ]%N.

Definition isspace (c : N) : bool := existsb (N.eqb c) whitespace.

(** The number of bytes of the whitespace code point [s] starts with;
    0 when it starts with none. *)
Definition ws_len (s : string) : nat :=
  match s with
  | EmptyString => 0
  | String c s' =>
      let (v, k) := head_cp (byte c) s' in
      if isspace v then S k else 0
  end.

(** [s.lstrip()] *)
Fixpoint lstrip_skip (skip : nat) (s : string) : string :=
  match s with
  | EmptyString => EmptyString
  | String c s' =>
      match skip with
      | S k => lstrip_skip k s'
      | O => match ws_len s with
             | S k => lstrip_skip k s'
             | O => s
             end
      end
  end.

Definition lstrip (s : string) : string := lstrip_skip 0 s.

(** [all_space s] : every code point of [s] is whitespace. *)
Definition all_space (s : string) : bool := lstrip s =? "".

(** [s.rstrip()] *)
Fixpoint rstrip (s : string) : string :=
  match s with
  | EmptyString => EmptyString
  | String c s' => if all_space s then EmptyString else String c (rstrip s')
  end.

(** [s.strip()] *)
Definition strip (s : string) : string := rstrip (lstrip s).

(** [s.split()]: the maximal runs of non-whitespace code points, in
    order.  [cur] is the word being read. *)
Fixpoint split_skip (skip : nat) (cur s : string) : list string :=
  match s with
  | EmptyString => if cur =? "" then [] else [cur]
  | String c s' =>
      match skip with
      | S k => split_skip k cur s'
      | O => match ws_len s with
             | S k => if cur =? "" then split_skip k "" s'
                      else cur :: split_skip k "" s'
             | O => split_skip 0 (cur ++ String c "") s'
             end
      end
  end.

Definition split (s : string) : list string := split_skip 0 "" s.

(** *** Letter case *)

(** The lower-case mapping of [str.lower] for the code points that have
    one code point as lower case (Unicode 14.0, the table of CPython 3.11):
    [(first, last, step, image of first)]; the code points [first],
    [first + step], ..., up to [last] are shifted by the same amount.
    Every other code point is its own lower case, but for U+0130, which
    has two. *)
Definition lower_ranges :=
  [ (65, 90, 1, 97); (192, 214, 1, 224); (216, 222, 1, 248); (256, 302, 2, 257);
    (306, 310, 2, 307); (313, 327, 2, 314); (330, 374, 2, 331); (376, 376, 1, 255);
    (377, 381, 2, 378); (385, 385, 1, 595); (386, 388, 2, 387); (390, 390, 1, 596);
    (391, 391, 1, 392); (393, 394, 1, 598); (395, 395, 1, 396); (398, 398, 1, 477);
    (399, 399, 1, 601); (400, 400, 1, 603); (401, 401, 1, 402); (403, 403, 1, 608);
    (404, 404, 1, 611); (406, 406, 1, 617); (407, 407, 1, 616); (408, 408, 1, 409);
    (412, 412, 1, 623); (413, 413, 1, 626); (415, 415, 1, 629); (416, 420, 2, 417);
    (422, 422, 1, 640); (423, 423, 1, 424); (425, 425, 1, 643); (428, 428, 1, 429);
    (430, 430, 1, 648); (431, 431, 1, 432); (433, 434, 1, 650); (435, 437, 2, 436);
    (439, 439, 1, 658); (440, 440, 1, 441); (444, 444, 1, 445); (452, 452, 1, 454);
    (453, 453, 1, 454); (455, 455, 1, 457); (456, 456, 1, 457); (458, 458, 1, 460);
    (459, 475, 2, 460); (478, 494, 2, 479); (497, 497, 1, 499); (498, 500, 2, 499);
    (502, 502, 1, 405); (503, 503, 1, 447); (504, 542, 2, 505); (544, 544, 1, 414);
    (546, 562, 2, 547); (570, 570, 1, 11365); (571, 571, 1, 572); (573, 573, 1, 410);
    (574, 574, 1, 11366); (577, 577, 1, 578); (579, 579, 1, 384); (580, 580, 1, 649);
    (581, 581, 1, 652); (582, 590, 2, 583); (880, 882, 2, 881); (886, 886, 1, 887);
    (895, 895, 1, 1011); (902, 902, 1, 940); (904, 906, 1, 941); (908, 908, 1, 972);
    (910, 911, 1, 973); (913, 929, 1, 945); (931, 939, 1, 963); (975, 975, 1, 983);
    (984, 1006, 2, 985); (1012, 1012, 1, 952); (1015, 1015, 1, 1016); (1017, 1017, 1, 1010);
    (1018, 1018, 1, 1019); (1021, 1023, 1, 891); (1024, 1039, 1, 1104); (1040, 1071, 1, 1072);
    (1120, 1152, 2, 1121); (1162, 1214, 2, 1163); (1216, 1216, 1, 1231); (1217, 1229, 2, 1218);
    (1232, 1326, 2, 1233); (1329, 1366, 1, 1377); (4256, 4293, 1, 11520); (4295, 4295, 1, 11559);
    (4301, 4301, 1, 11565); (5024, 5103, 1, 43888); (5104, 5109, 1, 5112); (7312, 7354, 1, 4304);
    (7357, 7359, 1, 4349); (7680, 7828, 2, 7681); (7838, 7838, 1, 223); (7840, 7934, 2, 7841);
    (7944, 7951, 1, 7936); (7960, 7965, 1, 7952); (7976, 7983, 1, 7968); (7992, 7999, 1, 7984);
    (8008, 8013, 1, 8000); (8025, 8031, 2, 8017); (8040, 8047, 1, 8032); (8072, 8079, 1, 8064);
    (8088, 8095, 1, 8080); (8104, 8111, 1, 8096); (8120, 8121, 1, 8112); (8122, 8123, 1, 8048);
    (8124, 8124, 1, 8115); (8136, 8139, 1, 8050); (8140, 8140, 1, 8131); (8152, 8153, 1, 8144);
    (8154, 8155, 1, 8054); (8168, 8169, 1, 8160); (8170, 8171, 1, 8058); (8172, 8172, 1, 8165);
    (8184, 8185, 1, 8056); (8186, 8187, 1, 8060); (8188, 8188, 1, 8179); (8486, 8486, 1, 969);
    (8490, 8490, 1, 107); (8491, 8491, 1, 229); (8498, 8498, 1, 8526); (8544, 8559, 1, 8560);
    (8579, 8579, 1, 8580); (9398, 9423, 1, 9424); (11264, 11311, 1, 11312); (11360, 11360, 1, 11361);
    (11362, 11362, 1, 619); (11363, 11363, 1, 7549); (11364, 11364, 1, 637); (11367, 11371, 2, 11368);
    (11373, 11373, 1, 593); (11374, 11374, 1, 625); (11375, 11375, 1, 592); (11376, 11376, 1, 594);
    (11378, 11378, 1, 11379); (11381, 11381, 1, 11382); (11390, 11391, 1, 575); (11392, 11490, 2, 11393);
    (11499, 11501, 2, 11500); (11506, 11506, 1, 11507); (42560, 42604, 2, 42561); (42624, 42650, 2, 42625);
    (42786, 42798, 2, 42787); (42802, 42862, 2, 42803); (42873, 42875, 2, 42874); (42877, 42877, 1, 7545);
    (42878, 42886, 2, 42879); (42891, 42891, 1, 42892); (42893, 42893, 1, 613); (42896, 42898, 2, 42897);
    (42902, 42920, 2, 42903); (42922, 42922, 1, 614); (42923, 42923, 1, 604); (42924, 42924, 1, 609);
    (42925, 42925, 1, 620); (42926, 42926, 1, 618); (42928, 42928, 1, 670); (42929, 42929, 1, 647);
    (42930, 42930, 1, 669); (42931, 42931, 1, 43859); (42932, 42946, 2, 42933); (42948, 42948, 1, 42900);
    (42949, 42949, 1, 642); (42950, 42950, 1, 7566); (42951, 42953, 2, 42952); (42960, 42960, 1, 42961);
    (42966, 42968, 2, 42967); (42997, 42997, 1, 42998); (65313, 65338, 1, 65345); (66560, 66599, 1, 66600);
    (66736, 66771, 1, 66776); (66928, 66938, 1, 66967); (66940, 66954, 1, 66979); (66956, 66962, 1, 66995);
    (66964, 66965, 1, 67003); (68736, 68786, 1, 68800); (71840, 71871, 1, 71872); (93760, 93791, 1, 93792);
    (125184, 125217, 1, 125218) ]%N.

(** The ranges of the cased code points that are not case-ignorable
    ([final_sigma] asks whether a code point is cased only when it is not
    case-ignorable). *)
Definition cased_ranges :=
  [ (65, 90); (97, 122); (170, 170); (181, 181); (186, 186); (192, 214);
    (216, 246); (248, 442); (444, 447); (452, 659); (661, 687); (880, 883);
    (886, 887); (891, 893); (895, 895); (902, 902); (904, 906); (908, 908);
    (910, 929); (931, 1013); (1015, 1153); (1162, 1327); (1329, 1366); (1376, 1416);
    (4256, 4293); (4295, 4295); (4301, 4301); (4304, 4346); (4349, 4351); (5024, 5109);
    (5112, 5117); (7296, 7304); (7312, 7354); (7357, 7359); (7424, 7467); (7531, 7543);
    (7545, 7578); (7680, 7957); (7960, 7965); (7968, 8005); (8008, 8013); (8016, 8023);
    (8025, 8025); (8027, 8027); (8029, 8029); (8031, 8061); (8064, 8116); (8118, 8124);
    (8126, 8126); (8130, 8132); (8134, 8140); (8144, 8147); (8150, 8155); (8160, 8172);
    (8178, 8180); (8182, 8188); (8450, 8450); (8455, 8455); (8458, 8467); (8469, 8469);
    (8473, 8477); (8484, 8484); (8486, 8486); (8488, 8488); (8490, 8493); (8495, 8500);
    (8505, 8505); (8508, 8511); (8517, 8521); (8526, 8526); (8544, 8575); (8579, 8580);
    (9398, 9449); (11264, 11387); (11390, 11492); (11499, 11502); (11506, 11507); (11520, 11557);
    (11559, 11559); (11565, 11565); (42560, 42605); (42624, 42651); (42786, 42863); (42865, 42887);
    (42891, 42894); (42896, 42954); (42960, 42961); (42963, 42963); (42965, 42969); (42997, 42998);
    (43002, 43002); (43824, 43866); (43872, 43880); (43888, 43967); (64256, 64262); (64275, 64279);
    (65313, 65338); (65345, 65370); (66560, 66639); (66736, 66771); (66776, 66811); (66928, 66938);
    (66940, 66954); (66956, 66962); (66964, 66965); (66967, 66977); (66979, 66993); (66995, 67001);
    (67003, 67004); (68736, 68786); (68800, 68850); (71840, 71903); (93760, 93823); (119808, 119892);
    (119894, 119964); (119966, 119967); (119970, 119970); (119973, 119974); (119977, 119980); (119982, 119993);
    (119995, 119995); (119997, 120003); (120005, 120069); (120071, 120074); (120077, 120084); (120086, 120092);
    (120094, 120121); (120123, 120126); (120128, 120132); (120134, 120134); (120138, 120144); (120146, 120485);
    (120488, 120512); (120514, 120538); (120540, 120570); (120572, 120596); (120598, 120628); (120630, 120654);
    (120656, 120686); (120688, 120712); (120714, 120744); (120746, 120770); (120772, 120779); (122624, 122633);
    (122635, 122654); (125184, 125251); (127280, 127305); (127312, 127337); (127344, 127369) ]%N.

(** The ranges of case-ignorable code points. *)
Definition case_ignorable_ranges :=
  [ (39, 39); (46, 46); (58, 58); (94, 94); (96, 96); (168, 168);
    (173, 173); (175, 175); (180, 180); (183, 184); (688, 879); (884, 885);
    (890, 890); (900, 901); (903, 903); (1155, 1161); (1369, 1369); (1375, 1375);
    (1425, 1469); (1471, 1471); (1473, 1474); (1476, 1477); (1479, 1479); (1524, 1524);
    (1536, 1541); (1552, 1562); (1564, 1564); (1600, 1600); (1611, 1631); (1648, 1648);
    (1750, 1757); (1759, 1768); (1770, 1773); (1807, 1807); (1809, 1809); (1840, 1866);
    (1958, 1968); (2027, 2037); (2042, 2042); (2045, 2045); (2070, 2093); (2137, 2139);
    (2184, 2184); (2192, 2193); (2200, 2207); (2249, 2306); (2362, 2362); (2364, 2364);
    (2369, 2376); (2381, 2381); (2385, 2391); (2402, 2403); (2417, 2417); (2433, 2433);
    (2492, 2492); (2497, 2500); (2509, 2509); (2530, 2531); (2558, 2558); (2561, 2562);
    (2620, 2620); (2625, 2626); (2631, 2632); (2635, 2637); (2641, 2641); (2672, 2673);
    (2677, 2677); (2689, 2690); (2748, 2748); (2753, 2757); (2759, 2760); (2765, 2765);
    (2786, 2787); (2810, 2815); (2817, 2817); (2876, 2876); (2879, 2879); (2881, 2884);
    (2893, 2893); (2901, 2902); (2914, 2915); (2946, 2946); (3008, 3008); (3021, 3021);
    (3072, 3072); (3076, 3076); (3132, 3132); (3134, 3136); (3142, 3144); (3146, 3149);
    (3157, 3158); (3170, 3171); (3201, 3201); (3260, 3260); (3263, 3263); (3270, 3270);
    (3276, 3277); (3298, 3299); (3328, 3329); (3387, 3388); (3393, 3396); (3405, 3405);
    (3426, 3427); (3457, 3457); (3530, 3530); (3538, 3540); (3542, 3542); (3633, 3633);
    (3636, 3642); (3654, 3662); (3761, 3761); (3764, 3772); (3782, 3782); (3784, 3789);
    (3864, 3865); (3893, 3893); (3895, 3895); (3897, 3897); (3953, 3966); (3968, 3972);
    (3974, 3975); (3981, 3991); (3993, 4028); (4038, 4038); (4141, 4144); (4146, 4151);
    (4153, 4154); (4157, 4158); (4184, 4185); (4190, 4192); (4209, 4212); (4226, 4226);
    (4229, 4230); (4237, 4237); (4253, 4253); (4348, 4348); (4957, 4959); (5906, 5908);
    (5938, 5939); (5970, 5971); (6002, 6003); (6068, 6069); (6071, 6077); (6086, 6086);
    (6089, 6099); (6103, 6103); (6109, 6109); (6155, 6159); (6211, 6211); (6277, 6278);
    (6313, 6313); (6432, 6434); (6439, 6440); (6450, 6450); (6457, 6459); (6679, 6680);
    (6683, 6683); (6742, 6742); (6744, 6750); (6752, 6752); (6754, 6754); (6757, 6764);
    (6771, 6780); (6783, 6783); (6823, 6823); (6832, 6862); (6912, 6915); (6964, 6964);
    (6966, 6970); (6972, 6972); (6978, 6978); (7019, 7027); (7040, 7041); (7074, 7077);
    (7080, 7081); (7083, 7085); (7142, 7142); (7144, 7145); (7149, 7149); (7151, 7153);
    (7212, 7219); (7222, 7223); (7288, 7293); (7376, 7378); (7380, 7392); (7394, 7400);
    (7405, 7405); (7412, 7412); (7416, 7417); (7468, 7530); (7544, 7544); (7579, 7679);
    (8125, 8125); (8127, 8129); (8141, 8143); (8157, 8159); (8173, 8175); (8189, 8190);
    (8203, 8207); (8216, 8217); (8228, 8228); (8231, 8231); (8234, 8238); (8288, 8292);
    (8294, 8303); (8305, 8305); (8319, 8319); (8336, 8348); (8400, 8432); (11388, 11389);
    (11503, 11505); (11631, 11631); (11647, 11647); (11744, 11775); (11823, 11823); (12293, 12293);
    (12330, 12333); (12337, 12341); (12347, 12347); (12441, 12446); (12540, 12542); (40981, 40981);
    (42232, 42237); (42508, 42508); (42607, 42610); (42612, 42621); (42623, 42623); (42652, 42655);
    (42736, 42737); (42752, 42785); (42864, 42864); (42888, 42890); (42994, 42996); (43000, 43001);
    (43010, 43010); (43014, 43014); (43019, 43019); (43045, 43046); (43052, 43052); (43204, 43205);
    (43232, 43249); (43263, 43263); (43302, 43309); (43335, 43345); (43392, 43394); (43443, 43443);
    (43446, 43449); (43452, 43453); (43471, 43471); (43493, 43494); (43561, 43566); (43569, 43570);
    (43573, 43574); (43587, 43587); (43596, 43596); (43632, 43632); (43644, 43644); (43696, 43696);
    (43698, 43700); (43703, 43704); (43710, 43711); (43713, 43713); (43741, 43741); (43756, 43757);
    (43763, 43764); (43766, 43766); (43867, 43871); (43881, 43883); (44005, 44005); (44008, 44008);
    (44013, 44013); (64286, 64286); (64434, 64450); (65024, 65039); (65043, 65043); (65056, 65071);
    (65106, 65106); (65109, 65109); (65279, 65279); (65287, 65287); (65294, 65294); (65306, 65306);
    (65342, 65342); (65344, 65344); (65392, 65392); (65438, 65439); (65507, 65507); (65529, 65531);
    (66045, 66045); (66272, 66272); (66422, 66426); (67456, 67461); (67463, 67504); (67506, 67514);
    (68097, 68099); (68101, 68102); (68108, 68111); (68152, 68154); (68159, 68159); (68325, 68326);
    (68900, 68903); (69291, 69292); (69446, 69456); (69506, 69509); (69633, 69633); (69688, 69702);
    (69744, 69744); (69747, 69748); (69759, 69761); (69811, 69814); (69817, 69818); (69821, 69821);
    (69826, 69826); (69837, 69837); (69888, 69890); (69927, 69931); (69933, 69940); (70003, 70003);
    (70016, 70017); (70070, 70078); (70089, 70092); (70095, 70095); (70191, 70193); (70196, 70196);
    (70198, 70199); (70206, 70206); (70367, 70367); (70371, 70378); (70400, 70401); (70459, 70460);
    (70464, 70464); (70502, 70508); (70512, 70516); (70712, 70719); (70722, 70724); (70726, 70726);
    (70750, 70750); (70835, 70840); (70842, 70842); (70847, 70848); (70850, 70851); (71090, 71093);
    (71100, 71101); (71103, 71104); (71132, 71133); (71219, 71226); (71229, 71229); (71231, 71232);
    (71339, 71339); (71341, 71341); (71344, 71349); (71351, 71351); (71453, 71455); (71458, 71461);
    (71463, 71467); (71727, 71735); (71737, 71738); (71995, 71996); (71998, 71998); (72003, 72003);
    (72148, 72151); (72154, 72155); (72160, 72160); (72193, 72202); (72243, 72248); (72251, 72254);
    (72263, 72263); (72273, 72278); (72281, 72283); (72330, 72342); (72344, 72345); (72752, 72758);
    (72760, 72765); (72767, 72767); (72850, 72871); (72874, 72880); (72882, 72883); (72885, 72886);
    (73009, 73014); (73018, 73018); (73020, 73021); (73023, 73029); (73031, 73031); (73104, 73105);
    (73109, 73109); (73111, 73111); (73459, 73460); (78896, 78904); (92912, 92916); (92976, 92982);
    (92992, 92995); (94031, 94031); (94095, 94111); (94176, 94177); (94179, 94180); (110576, 110579);
    (110581, 110587); (110589, 110590); (113821, 113822); (113824, 113827); (118528, 118573); (118576, 118598);
    (119143, 119145); (119155, 119170); (119173, 119179); (119210, 119213); (119362, 119364); (121344, 121398);
    (121403, 121452); (121461, 121461); (121476, 121476); (121499, 121503); (121505, 121519); (122880, 122886);
    (122888, 122904); (122907, 122913); (122915, 122916); (122918, 122922); (123184, 123197); (123566, 123566);
    (123628, 123631); (125136, 125142); (125252, 125259); (127995, 127999); (917505, 917505); (917536, 917631);
    (917760, 917999) ]%N.

Definition in_ranges (c : N) (ranges : list (N * N)) : bool :=
  existsb (fun r => (fst r <=? c)%N && (c <=? snd r)%N) ranges.

Definition cased (c : N) : bool := in_ranges c cased_ranges.

Definition case_ignorable (c : N) : bool := in_ranges c case_ignorable_ranges.

Definition covers (c : N) (r : N * N * N * N) : bool :=
  let '(first, last, step, _) := r in
  ((first <=? c) && (c <=? last) && ((c - first) mod step =? 0))%N.

(** The lower case of one code point when it is one code point. *)
Definition lower_simple (c : N) : N :=
  match find (covers c) lower_ranges with
  | Some (first, _, _, image) => (image + (c - first))%N
  | None => c
  end.

(** The lower case of one code point out of context: U+0130 gives two. *)
Definition lower_full (c : N) : list N :=
  if (c =? 304)%N then [105; 775]%N else [lower_simple c].

Fixpoint skip_ignorable (l : list N) : list N :=
  match l with
  | c :: l' => if case_ignorable c then skip_ignorable l' else l
  | [] => []
  end.

(** A capital sigma is final when a cased letter precedes it and none
    follows, case-ignorable code points apart.  [before] is read
    backwards from the sigma, [after] forwards. *)
Definition final_sigma (before after : list N) : bool :=
  match skip_ignorable before with
  | c :: _ =>
      cased c && match skip_ignorable after with
                 | c' :: _ => negb (cased c')
                 | [] => true
                 end
  | [] => false
  end.

Fixpoint lower_from (before l : list N) : list N :=
  match l with
  | [] => []
  | c :: l' =>
      ((if (c =? 931)%N
        then [if final_sigma before l' then 962 else 963]%N
        else lower_full c)
       ++ lower_from (c :: before) l')%list
  end.

(** [s.lower()] *)
Definition lower (s : string) : string := encode (lower_from [] (decode s)).

(** *** Searching and joining *)

(** [pat in s] *)
Fixpoint contains (pat s : string) : bool :=
  if prefix pat s then true
  else match s with
       | EmptyString => false
       | String _ s' => contains pat s'
       end.

(** [sep.join(ws)] *)
Fixpoint join (sep : string) (ws : list string) : string :=
  match ws with
  | [] => ""
  | [w] => w
  | w :: ws' => w ++ sep ++ join sep ws'
  end.

(** The truth value of a [str]: non-empty. *)
Definition truthy (s : string) : bool := negb (s =? "").

(** [a or b] on strings. *)
Definition or_str (a b : string) : string := if truthy a then a else b.

Definition nl : string := String (ascii_of_nat 10) "".
Definition dq : string := String (ascii_of_nat 34) "".

End PyStr.
Import PyStr.

(* ===================================================================== *)
(** ** Message classifier and refusal detector *)
(* ===================================================================== *)

Definition greeting_phrases : list string :=
  [ "hi"; "hello"; "hey"; "good morning"; "good afternoon"; "good evening";
    "hola"; "buenas"; "buenos dias"; "buenas tardes"; "buenas noches" ].

(** [is_greeting], main.py lines 29-45. *)
Definition is_greeting (message : string) : bool :=
  let cleaned := lower (strip message) in
  if negb (truthy cleaned) then false
  else existsb (String.eqb cleaned) greeting_phrases.

Definition refusal_patterns : list string :=
  [ "unable to assist"; "cannot assist"; "can't assist"; "cannot help";
    "can't help"; "sorry, i am unable"; "no puedo ayudar"; "no puedo asist";
    "no tengo información" ].

(** [looks_like_refusal], main.py lines 293-306. *)
Definition looks_like_refusal (text : string) : bool :=
  let lowered := lower text in
  existsb (fun pattern => contains pattern lowered) refusal_patterns.

(** The lambda copy of the classifier
    (infrastructure/cdk/lambda/ai-agent/handler.py lines 58-69): substring
    match under a length ceiling. *)
Module Lambda.

Definition greetings : list string :=
  [ "hi"; "hello"; "hey"; "hola"; "buenos dias"; "buenas tardes";
    "good morning"; "good afternoon"; "good evening"; "greetings";
    "howdy"; "what's up"; "whats up"; "sup" ].

Definition is_greeting (message : string) : bool :=
  let msg_lower := strip (lower message) in
  if (len msg_lower <? 20)%nat
  then existsb (fun greeting => contains greeting msg_lower) greetings
  else false.

End Lambda.

(* ===================================================================== *)
(** ** Prompt builders *)
(* ===================================================================== *)

(** The lines of a triple-quoted template, joined by newlines. *)
Definition unlines (ls : list string) : string := join nl ls.

Definition refusal_guard (language : string) : string :=
  if language =? "es"
  then "Si la pregunta es un saludo o es general, responde con un saludo breve, "
    ++ "una frase corta ofreciendo ayuda y una sola pregunta de orientación. "
    ++ "No incluyas información técnica ni detalles de la base de conocimiento."
  else "If the question is a greeting or general, respond with a brief greeting, "
    ++ "one short offer of help, and one guiding question. Do not include technical details "
    ++ "or knowledge-base content.".

Definition force_line (language : string) : string :=
  if language =? "es"
  then "Debes responder de forma útil incluso si la pregunta es vaga. "
    ++ "No uses frases de rechazo."
  else "You must provide a helpful response even if the question is vague. Avoid refusal language.".

Definition extra_policy (language : string) (force_help : bool) : string :=
  nl ++ refusal_guard language ++ nl
     ++ (if force_help then force_line language ++ nl else "").

Definition greeting_only (language : string) : string :=
  if language =? "es"
  then "Este es un saludo. Ignora el contenido de la base de conocimiento y responde "
    ++ "solo con un saludo breve, una frase de ayuda y una pregunta concreta para orientar."
  else "This is a greeting. Ignore knowledge-base content and respond only with a brief "
    ++ "greeting, one helpful line, and one concrete guiding question.".

(** [build_prompt], main.py lines 48-116. *)
Definition build_prompt (message language : string) (force_help : bool)
    (mode : string) : string :=
  if language =? "es" then unlines [
    "IMPORTANTE: Debes responder ÚNICAMENTE en español. Si el contenido de referencia está en inglés, tradúcelo antes de responder. No incluyas texto en inglés.";
    "";
    "Usa la base de conocimiento como fuente principal. Si la base no contiene suficiente información, ofrece orientación general breve y pide un detalle adicional. Nunca te niegues ni digas que no puedes ayudar.";
    "La respuesta debe ser clara, bien redactada y breve (máximo 4–6 líneas).";
    "No incluyas " ++ dq ++ "Action:" ++ dq ++ ", " ++ dq ++ "Response:" ++ dq ++ ", ni texto de sistema. No uses Markdown (sin **, #, ni código). Texto plano.";
    "Si el usuario solo saluda o hace una pregunta muy general, responde solo con un saludo breve, una frase de ayuda y una pregunta concreta para guiar el tema. No incluyas contenido de la base de conocimiento en saludos.";
    "Evita frases como " ++ dq ++ "no puedo ayudar" ++ dq ++ ", " ++ dq ++ "no tengo información" ++ dq ++ " o " ++ dq ++ "no estoy autorizado" ++ dq ++ ".";
    extra_policy language force_help;
    (if mode =? "greeting" then greeting_only language else "");
    "";
    "Formato requerido (usa exactamente estos encabezados):";
    "Resumen:";
    "- 1–2 puntos breves.";
    "Recomendaciones:";
    "- 2–3 viñetas concretas y accionables.";
    "Siguientes preguntas:";
    "- 2 viñetas relacionadas con la pregunta del usuario.";
    "";
    "Pregunta del usuario: " ++ message;
    "";
    "Responde completamente en español." ]
  else unlines [
    "IMPORTANT: You must respond ONLY in English. If any reference content is in another language, translate it before responding.";
    "";
    "Use the knowledge base as your primary source. If the KB lacks enough info, provide brief general guidance and ask one clarifying question. Never refuse or say you cannot help.";
    "The response must be well-written and concise (max 4–6 lines).";
    "Do not include " ++ dq ++ "Action:" ++ dq ++ ", " ++ dq ++ "Response:" ++ dq ++ ", or any system text. Do not use Markdown (no **, #, or code). Plain text only.";
    "If the user only greets or asks a very general question, respond only with a brief friendly greeting, one helpful sentence, and a concrete guiding question. Do not include knowledge-base content in greetings.";
    "Avoid phrases like " ++ dq ++ "unable to assist" ++ dq ++ ", " ++ dq ++ "cannot help" ++ dq ++ ", or " ++ dq ++ "no information available" ++ dq ++ ".";
    extra_policy language force_help;
    (if mode =? "greeting" then greeting_only language else "");
    "";
    "Required format (use these exact headings):";
    "Summary:";
    "- 1–2 brief points.";
    "Recommendations:";
    "- 2–3 concrete, actionable bullets.";
    "Next questions:";
    "- 2 bullets related to the user’s question.";
    "";
    "User question: " ++ message;
    "";
    "Respond completely in English." ].

(** [build_greeting_prompt], main.py lines 136-163. *)
Definition build_greeting_prompt (message language : string) : string :=
  if language =? "es" then unlines [
    "Responde SOLO con un saludo breve, una frase corta explicando que eres la Guía de Juegos Adaptativos y una pregunta concreta para orientar.";
    "Usa exactamente este formato y texto plano, sin Markdown.";
    "";
    "Resumen:";
    "Hola, soy tu Guía de Juegos Adaptativos.";
    "Recomendaciones:";
    "Puedo ayudarte con recomendaciones y configuración de juegos adaptativos.";
    "Siguientes preguntas:";
    "¿Qué tipo de jugador o paciente quieres apoyar?";
    "¿Qué consola o juego estás usando?";
    "";
    "Mensaje del usuario: " ++ message;
    "" ]
  else unlines [
    "Respond ONLY with a brief greeting, one short line explaining this is the Adaptive Gaming Guide, and one concrete guiding question.";
    "Use this exact format and plain text only, no Markdown.";
    "";
    "Summary:";
    "Hello, I’m your Adaptive Gaming Guide.";
    "Recommendations:";
    "I can help with adaptive gaming recommendations and setup guidance.";
    "Next questions:";
    "What type of player or patient are you supporting?";
    "Which console or game are you working with?";
    "";
    "User message: " ++ message;
    "" ].

(** [build_general_fallback_prompt], main.py lines 166-191. *)
Definition build_general_fallback_prompt (message language : string) : string :=
  if language =? "es" then unlines [
    "Responde de forma útil y breve incluso si la base de conocimiento es insuficiente.";
    "Usa el formato requerido y texto plano, sin Markdown.";
    "";
    "Resumen:";
    "- 1–2 puntos claros y breves.";
    "Recomendaciones:";
    "- 2–3 viñetas concretas.";
    "Siguientes preguntas:";
    "- 2 viñetas relacionadas con la pregunta del usuario.";
    "";
    "Pregunta del usuario: " ++ message;
    "" ]
  else unlines [
    "Provide a helpful, concise response even if the knowledge base lacks details.";
    "Use the required format and plain text only, no Markdown.";
    "";
    "Summary:";
    "- 1–2 clear, brief points.";
    "Recommendations:";
    "- 2–3 concrete bullets.";
    "Next questions:";
    "- 2 bullets related to the user’s question.";
    "";
    "User question: " ++ message;
    "" ].

(* ===================================================================== *)
(** ** Data model *)
(* ===================================================================== *)

(** [ChatRequest], main.py lines 19-22. *)
Record ChatRequest := {
  message : string;
  conversationId : option string;
  language : option string
}.

(** The dict returned by [call_model_simple] and [call_bedrock]. *)
Record ChatResult := {
  res_conversationId : option string;
  reply : string
}.

(** Keyword arguments of [client.retrieve_and_generate]. *)
Record RGRequest := {
  input_text : string;
  knowledgeBaseId : string;
  modelArn : string;
  sessionId : option string
}.

(** The fields read from its response: [res["output"]["text"]] and
    [res["sessionId"]], either of which may be missing. *)
Record RGResponse := {
  output_text : option string;
  res_sessionId : option string
}.

Inductive RGOutcome :=
| RGOk (res : RGResponse)
| RGClientError (msg : string)        (* botocore ClientError, [str(exc)] *)
| RGOtherError (msg : string).        (* any other Exception *)

(** Arguments of [client.invoke_model]: the model and the JSON payload. *)
Record IMRequest := {
  modelId : string;
  anthropic_version : string;
  max_tokens : nat;
  user_text : string
}.

(** The decoded body's ["content"] list, each block with its optional
    ["text"]; or an exception raised by the call or the decoding. *)
Inductive IMOutcome :=
| IMOk (content : list (option string))
| IMError (msg : string).

Inductive Interaction :=
| RetrieveAndGenerate (req : RGRequest) (out : RGOutcome)
| InvokeModel (req : IMRequest) (out : IMOutcome).

(** The provider answers a request knowing the calls made so far. *)
Record Provider := {
  retrieve_and_generate_oracle : list Interaction -> RGRequest -> RGOutcome;
  invoke_model_oracle : list Interaction -> IMRequest -> IMOutcome
}.

(** What the handler runs against: the process environment, the provider,
    the log of provider calls (oldest first) and the random source behind
    [uuid.uuid4]. *)
Record World := {
  environ : string -> option string;
  provider : Provider;
  log : list Interaction;
  entropy : nat -> N;
  draws : nat
}.

Definition log_call (i : Interaction) (w : World) : World :=
  {| environ := environ w; provider := provider w;
     log := (log w ++ [i])%list; entropy := entropy w; draws := draws w |}.

Definition draw (w : World) : World :=
  {| environ := environ w; provider := provider w;
     log := log w; entropy := entropy w; draws := S (draws w) |}.

(* ===================================================================== *)
(** ** Exceptions and the handler monad *)
(* ===================================================================== *)

Inductive exn :=
| ClientError (msg : string)
| OtherError (msg : string)
| HTTPException (status_code : nat) (detail : string).

Inductive outcome (A : Type) :=
| Return (a : A)
| Raise (e : exn).
Arguments Return {A} a.
Arguments Raise {A} e.

Definition M (A : Type) : Type := World -> outcome A * World.

Definition ret {A} (a : A) : M A := fun w => (Return a, w).

Definition bind {A B} (c : M A) (k : A -> M B) : M B :=
  fun w => match c w with
           | (Return a, w') => k a w'
           | (Raise e, w') => (Raise e, w')
           end.

Definition raise {A} (e : exn) : M A := fun w => (Raise e, w).

(** [try: c  except Exception as e: h e] *)
Definition catch {A} (c : M A) (h : exn -> M A) : M A :=
  fun w => match c w with
           | (Return a, w') => (Return a, w')
           | (Raise e, w') => h e w'
           end.

Notation "x <- c ;; k" := (bind c (fun x => k))
  (at level 61, c at next level, right associativity).

(** [os.getenv(name, default)] *)
Definition getenv (name default : string) : M string :=
  fun w => (Return (match environ w name with Some v => v | None => default end), w).

(* ===================================================================== *)
(** ** Conversation ids *)
(* ===================================================================== *)

Definition hex_digit (n : N) : ascii :=
  nth (N.to_nat n)
      ["0"; "1"; "2"; "3"; "4"; "5"; "6"; "7"; "8"; "9";
       "a"; "b"; "c"; "d"; "e"; "f"]%char "0"%char.

(** [width] hexadecimal digits of [v], most significant first. *)
Fixpoint hex_of (width : nat) (v : N) : string :=
  match width with
  | O => ""
  | S k => hex_of k (v / 16) ++ String (hex_digit (v mod 16)) ""
  end.

(** [uuid.uuid4()] from 16 random bytes: version and variant bits set. *)
Definition uuid4 (random : N) : N :=
  let i := (random mod 2 ^ 128)%N in
  let i := N.lor (N.ldiff i (N.shiftl 49152 48)) (N.shiftl 32768 48) in
  N.lor (N.ldiff i (N.shiftl 61440 64)) (N.shiftl 4 76).

(** [str(u)]: 8-4-4-4-12 hexadecimal digits. *)
Definition uuid_str (u : N) : string :=
  hex_of 8 (u / 2 ^ 96) ++ "-" ++
  hex_of 4 ((u / 2 ^ 80) mod 2 ^ 16) ++ "-" ++
  hex_of 4 ((u / 2 ^ 64) mod 2 ^ 16) ++ "-" ++
  hex_of 4 ((u / 2 ^ 48) mod 2 ^ 16) ++ "-" ++
  hex_of 12 (u mod 2 ^ 48).

(** The token minted at the next draw of [w]. *)
Definition next_uuid (w : World) : string :=
  uuid_str (uuid4 (entropy w (draws w))).

(** [new_conversation_id], main.py lines 25-26. *)
Definition new_conversation_id : M string :=
  fun w => (Return (next_uuid w), draw w).

(** [conversation_id or new_conversation_id()] *)
Definition or_new (conversation_id : option string) : M string :=
  match conversation_id with
  | Some s => if truthy s then ret s else new_conversation_id
  | None => new_conversation_id
  end.

(* ===================================================================== *)
(** ** Provider calls *)
(* ===================================================================== *)

(** [client.retrieve_and_generate] applied to the request's keywords. *)
Definition retrieve_and_generate (request : RGRequest) : M RGResponse :=
  fun w =>
    let out := retrieve_and_generate_oracle (provider w) (log w) request in
    let w' := log_call (RetrieveAndGenerate request out) w in
    match out with
    | RGOk res => (Return res, w')
    | RGClientError msg => (Raise (ClientError msg), w')
    | RGOtherError msg => (Raise (OtherError msg), w')
    end.

(** [client.invoke_model(modelId=..., body=json.dumps(payload))] followed
    by the decoding of the body, main.py lines 212-214. *)
Definition invoke_model (request : IMRequest) : M (list (option string)) :=
  fun w =>
    let out := invoke_model_oracle (provider w) (log w) request in
    let w' := log_call (InvokeModel request out) w in
    match out with
    | IMOk content => (Return content, w')
    | IMError msg => (Raise (OtherError msg), w')
    end.

(* ===================================================================== *)
(** ** The provider wrappers *)
(* ===================================================================== *)

Definition canned_greeting (language : string) : string :=
  if language =? "es" then "Hola, ¿en qué puedo ayudarte?" else "Hi! How can I help?".

Definition echo_reply (message language : string) : string :=
  if language =? "es" then "Dijiste: " ++ message else "You said: " ++ message.

Definition no_answer (language : string) : string :=
  if language =? "es" then "No tengo respuesta." else "No answer.".

(** [call_model_simple], main.py lines 194-225.  The client of line 210
    is taken as given. *)
Definition call_model_simple (message language mode : string) : M ChatResult :=
  model_arn <- getenv "BEDROCK_MODEL_ARN" "" ;;
  model_id' <- getenv "BEDROCK_MODEL_ID" "" ;;
  let model_id := or_str model_arn model_id' in
  if negb (truthy model_id) then
    ret {| res_conversationId := None; reply := canned_greeting language |}
  else
    let prompt :=
      if mode =? "greeting"
      then build_greeting_prompt message language
      else build_general_fallback_prompt message language in
    let payload :=
      {| modelId := model_id; anthropic_version := "bedrock-2023-05-31";
         max_tokens := 300; user_text := prompt |} in
    catch
      (content <- invoke_model payload ;;
       let text :=
         match content with
         | block :: _ => match block with Some t => t | None => "" end
         | [] => ""
         end in
       let reply := or_str (strip text) (canned_greeting language) in
       ret {| res_conversationId := None; reply := reply |})
      (fun _ =>
         ret {| res_conversationId := None; reply := canned_greeting language |}).

(** The invalid-session signature tested on [str(exc)], main.py line 276. *)
Definition invalid_session (message_text : string) : bool :=
  contains "Session with Id" message_text && contains "is not valid" message_text.

(** [request.pop("sessionId", None)] *)
Definition pop_sessionId (request : RGRequest) : RGRequest :=
  {| input_text := input_text request;
     knowledgeBaseId := knowledgeBaseId request;
     modelArn := modelArn request;
     sessionId := None |}.

(** The truth value of an [Optional[str]]: present and non-empty. *)
Definition opt_truthy (o : option string) : option string :=
  match o with
  | Some s => if truthy s then Some s else None
  | None => None
  end.

(** The request assembled by [call_bedrock], main.py lines 245-270. *)
Definition bedrock_request (kb_id model_id model_arn_override region : string)
    (message : string) (conversation_id : option string) (language : string)
    (force_help : bool) (mode : string) : RGRequest :=
  let prompt := build_prompt message language force_help mode in
  let model_arn :=
    or_str model_arn_override
           ("arn:aws:bedrock:" ++ region ++ "::foundation-model/" ++ model_id) in
  {| input_text := prompt;
     knowledgeBaseId := kb_id;
     modelArn := model_arn;
     sessionId := opt_truthy conversation_id |}.

(** Lines 286-290: the result built from a provider response. *)
Definition bedrock_result (res : RGResponse) (conversation_id : option string)
    (language : string) : M ChatResult :=
  let reply :=
    match opt_truthy (output_text res) with
    | Some t => t
    | None => no_answer language
    end in
  session_id <-
    match opt_truthy (res_sessionId res) with
    | Some s => ret s
    | None => or_new conversation_id
    end ;;
  ret {| res_conversationId := Some session_id; reply := reply |}.

(** [call_bedrock], main.py lines 228-290.  The [try] block either yields
    the provider response ([inl]) or, in the [except Exception] clause,
    returns the echo reply from the function ([inr]).  The client of line
    258 is taken as given. *)
Definition call_bedrock (message : string) (conversation_id : option string)
    (language : string) (force_help : bool) (mode : string) : M ChatResult :=
  kb_id <- getenv "BEDROCK_KB_ID" "" ;;
  model_id <- getenv "BEDROCK_MODEL_ID" "" ;;
  model_arn_override <- getenv "BEDROCK_MODEL_ARN" "" ;;
  region <- getenv "AWS_REGION" "us-east-1" ;;
  if negb (truthy kb_id) || negb (truthy model_id) then
    let reply := echo_reply message language in
    cid <- or_new conversation_id ;;
    ret {| res_conversationId := Some cid; reply := reply |}
  else
    let request :=
      bedrock_request kb_id model_id model_arn_override region
                      message conversation_id language force_help mode in
    r <- catch
           (res <- retrieve_and_generate request ;; ret (inl res))
           (fun exc =>
              match exc with
              | ClientError message_text =>
                  if invalid_session message_text then
                    res <- retrieve_and_generate (pop_sessionId request) ;;
                    ret (inl res)
                  else raise exc
              | _ =>
                  let reply := echo_reply message language in
                  cid <- or_new conversation_id ;;
                  ret (inr {| res_conversationId := Some cid; reply := reply |})
              end) ;;
    match r with
    | inl res => bedrock_result res conversation_id language
    | inr result => ret result
    end.

(* ===================================================================== *)
(** ** The handlers *)
(* ===================================================================== *)

(** Line 330: ["es" if req.language == "es" else "en"]. *)
Definition normalize_language (l : option string) : string :=
  match l with
  | Some s => if s =? "es" then "es" else "en"
  | None => "en"
  end.

(** [chat], main.py lines 325-346. *)
Definition chat (req : ChatRequest) : M ChatResult :=
  let message := strip (message req) in
  if negb (truthy message) then
    raise (HTTPException 400 "`message` is required.")
  else
    let language := normalize_language (language req) in
    let greeting := is_greeting message in
    if greeting then call_model_simple message language "greeting"
    else
      result <- call_bedrock message (conversationId req) language false "default" ;;
      if looks_like_refusal (reply result) then
        result <- call_bedrock message None language true "default" ;;
        if looks_like_refusal (reply result)
        then call_model_simple message language "general"
        else ret result
      else ret result.

(** The events of the SSE stream, by event name and JSON payload field. *)
Inductive Event :=
| meta (conversation_id : option string)   (* event: meta,  {"conversationId": ...} *)
| delta (text : string)                    (* event: delta, {"text": ...} *)
| done.                                    (* event: done,  {} *)

(** [stream_reply], main.py lines 119-125. *)
Definition stream_reply (reply : string) (conversation_id : option string)
    : list Event :=
  (meta conversation_id
   :: map (fun chunk => delta (chunk ++ " ")) (split reply)
   ++ [done])%list.

(** [chat_stream], main.py lines 349-375: the body of [chat] (lines 352-370
    repeat lines 327-345), then the stream of its result. *)
Definition chat_stream (req : ChatRequest) : M (list Event) :=
  result <- chat req ;;
  ret (stream_reply (reply result) (res_conversationId result)).

(* ===================================================================== *)
(** ** Vocabulary of the statements *)
(* ===================================================================== *)

(** [y] does not start with a continuation byte. *)
Definition clean_start (y : string) : bool :=
  match y with
  | EmptyString => true
  | String c _ => negb (continuation (byte c))
  end.

(** [take n s]: the first [n] bytes of [s]. *)
Fixpoint take (n : nat) (s : string) : string :=
  match n, s with
  | S k, String c s' => String c (take k s')
  | _, _ => ""
  end.

(** The five ways [head_cp] reads a code point: an ASCII byte, a byte
    that starts no well-formed sequence, or a sequence of two, three or
    four bytes. *)
Inductive head_shape (b : N) (s : string) : N -> nat -> Prop :=
| head_ascii : (b < 128)%N -> head_shape b s b 0
| head_stray : (128 <= b)%N -> head_shape b s (stray b) 0
| head_two c2 t :
    s = String c2 t -> (194 <= b < 224)%N -> (128 <= byte c2 < 192)%N ->
    head_shape b s ((b - 192) * 64 + (byte c2 - 128))%N 1
| head_three c2 c3 t :
    s = String c2 (String c3 t) -> (224 <= b < 240)%N ->
    (128 <= byte c2 < 192)%N -> (128 <= byte c3 < 192)%N ->
    (2048 <= (b - 224) * 4096 + (byte c2 - 128) * 64 + (byte c3 - 128))%N ->
    head_shape b s ((b - 224) * 4096 + (byte c2 - 128) * 64 + (byte c3 - 128))%N 2
| head_four c2 c3 c4 t :
    s = String c2 (String c3 (String c4 t)) -> (240 <= b < 245)%N ->
    (128 <= byte c2 < 192)%N -> (128 <= byte c3 < 192)%N ->
    (128 <= byte c4 < 192)%N ->
    (65536 <= (b - 240) * 262144 + (byte c2 - 128) * 4096
              + (byte c3 - 128) * 64 + (byte c4 - 128) < 1114112)%N ->
    head_shape b s ((b - 240) * 262144 + (byte c2 - 128) * 4096
                    + (byte c3 - 128) * 64 + (byte c4 - 128))%N 3.

(** A capital letter of ASCII or Latin-1. *)
Definition capital (c : N) : bool :=
  (((65 <=? c) && (c <=? 90)) || ((192 <=? c) && (c <=? 214))
   || ((216 <=? c) && (c <=? 222)))%N.

(** [c] is the letter [d], in lower or in upper case. *)
Definition same_letter (c d : N) : bool :=
  (c =? d)%N || (capital c && (c + 32 =? d)%N).

Fixpoint same_letters_list (l m : list N) : bool :=
  match l, m with
  | [], [] => true
  | c :: l', d :: m' => same_letter c d && same_letters_list l' m'
  | _, _ => false
  end.

(** [t] is the text [p] up to the case of its letters. *)
Definition same_letters (t p : string) : bool :=
  same_letters_list (decode t) (decode p).

(** A code point that is its own lower case wherever it stands. *)
Definition lower_case (d : N) : bool :=
  ((d <? 1114112) && negb (d =? 931) && negb (d =? 304)
   && (lower_simple d =? d))%N.

(** A text in lower case. *)
Definition in_lower_case (p : string) : bool := forallb lower_case (decode p).

(** ASCII text without the letter k, which is also the lower case of the
    Kelvin sign U+212A. *)
Definition plain_ascii (p : string) : bool :=
  forallb (fun a => (byte a <? 128)%N && negb (byte a =? 107)%N)
          (list_ascii_of_string p).

(** An entry of [lower_ranges] maps nothing beyond ASCII into ASCII,
    unless it is the Kelvin sign's. *)
Definition keeps_ascii_apart (r : N * N * N * N) : bool :=
  let '(first, last, _, image) := r in
  ((128 <=? image) || (last <? 128) || ((first =? last) && (image =? 107)))%N.

(** The length of the longest greeting phrase ("good afternoon"). *)
Definition longest_phrase : nat :=
  fold_right Nat.max 0 (map len greeting_phrases).

(** No whitespace code point starts anywhere in [s]. *)
Fixpoint no_space (s : string) : bool :=
  match s with
  | EmptyString => true
  | String c s' => (ws_len s =? 0)%nat && no_space s'
  end.

Definition is_word (w : string) : bool := truthy w && no_space w.

(** The payloads of the delta events of a stream, in order. *)
Fixpoint payloads (evs : list Event) : list string :=
  match evs with
  | [] => []
  | delta t :: evs' => t :: payloads evs'
  | _ :: evs' => payloads evs'
  end.

(** [s] without its last character when that is a space. *)
Fixpoint chop_space (s : string) : string :=
  match s with
  | EmptyString => EmptyString
  | String c s' =>
      if (s' =? "") && Ascii.eqb c " "%char then EmptyString
      else String c (chop_space s')
  end.

(** [os.getenv] read off a world. *)
Definition env_get (w : World) (name default : string) : string :=
  match environ w name with Some v => v | None => default end.

(** Retrieval is configured: knowledge base and model identifiers set. *)
Definition configured (w : World) : bool :=
  truthy (env_get w "BEDROCK_KB_ID" "") && truthy (env_get w "BEDROCK_MODEL_ID" "").

(** The model used by [call_model_simple]. *)
Definition simple_model (w : World) : string :=
  or_str (env_get w "BEDROCK_MODEL_ARN" "") (env_get w "BEDROCK_MODEL_ID" "").

(** The request [call_bedrock] sends first in world [w]. *)
Definition first_request (w : World) (message : string)
    (conversation_id : option string) (language : string)
    (force_help : bool) (mode : string) : RGRequest :=
  bedrock_request (env_get w "BEDROCK_KB_ID" "") (env_get w "BEDROCK_MODEL_ID" "")
                  (env_get w "BEDROCK_MODEL_ARN" "") (env_get w "AWS_REGION" "us-east-1")
                  message conversation_id language force_help mode.

(** The payload [call_model_simple] sends in world [w]. *)
Definition simple_request (w : World) (message language mode : string) : IMRequest :=
  {| modelId := simple_model w; anthropic_version := "bedrock-2023-05-31";
     max_tokens := 300;
     user_text := if mode =? "greeting"
                  then build_greeting_prompt message language
                  else build_general_fallback_prompt message language |}.

(** The text [call_model_simple] reads from a decoded body. *)
Definition first_text (content : list (option string)) : string :=
  match content with
  | Some t :: _ => t
  | _ => ""
  end.

(** The provider raises the invalid-session error only on requests
    satisfying [P]. *)
Definition rejects_only (P : RGRequest -> Prop) (p : Provider) : Prop :=
  forall l r msg,
    retrieve_and_generate_oracle p l r = RGClientError msg ->
    invalid_session msg = true -> P r.

(** The provider calls made between two worlds. *)
Definition calls_between (w w' : World) : list Interaction :=
  skipn (List.length (log w)) (log w').

(** [req] with its language replaced. *)
Definition with_language (req : ChatRequest) (l : option string) : ChatRequest :=
  {| message := message req; conversationId := conversationId req; language := l |}.

(** [conversation_id or new_conversation_id()] run in [w]: the token and
    the world after it. *)
Definition minted (conversation_id : option string) (w : World) : string * World :=
  match opt_truthy conversation_id with
  | Some s => (s, w)
  | None => (next_uuid w, draw w)
  end.

(** The echo result of [call_bedrock] (lines 242-243 and 283-284). *)
Definition echo_result (message : string) (conversation_id : option string)
    (language : string) : M ChatResult :=
  cid <- or_new conversation_id ;;
  ret {| res_conversationId := Some cid; reply := echo_reply message language |}.

(** What [call_bedrock] does with the outcome of the retried call. *)
Definition after_retry (out : RGOutcome) (conversation_id : option string)
    (language : string) : M ChatResult :=
  match out with
  | RGOk res => bedrock_result res conversation_id language
  | RGClientError msg => raise (ClientError msg)
  | RGOtherError msg => raise (OtherError msg)
  end.

(** The session id carried by the last provider call of a trace, when that
    call is a retrieve-and-generate response with a non-empty session id. *)
Definition provider_session (calls : list Interaction) : option string :=
  match last calls (InvokeModel (Build_IMRequest "" "" 0 "") (IMOk [])) with
  | RetrieveAndGenerate _ (RGOk res) => opt_truthy (res_sessionId res)
  | _ => None
  end.

(** Both retrieve-and-generate attempts of [chat] returned a reply that
    looks like a refusal, so [chat] went on to the general fallback. *)
Definition fell_back (req : ChatRequest) (w : World) : Prop :=
  let msg := strip (message req) in
  let lang := normalize_language (language req) in
  exists r1 w1 r2 w2,
    call_bedrock msg (conversationId req) lang false "default" w = (Return r1, w1) /\
    looks_like_refusal (reply r1) = true /\
    call_bedrock msg None lang true "default" w1 = (Return r2, w2) /\
    looks_like_refusal (reply r2) = true.

(** Two worlds of one request: same environment, provider and random
    source. *)
Definition same_setting (w w' : World) : Prop :=
  environ w' = environ w /\ provider w' = provider w /\ entropy w' = entropy w.

(** The world after [bedrock_result] has run in [w]. *)
Definition result_world (res : RGResponse) (conversation_id : option string)
    (w : World) : World :=
  match opt_truthy (res_sessionId res) with
  | Some _ => w
  | None => snd (minted conversation_id w)
  end.

(** A logged call carries the outcome the provider gave to its request. *)
Definition from_provider (p : Provider) (i : Interaction) : Prop :=
  match i with
  | RetrieveAndGenerate r out => exists l, retrieve_and_generate_oracle p l r = out
  | InvokeModel r out => exists l, invoke_model_oracle p l r = out
  end.

(** The conversation id of a result is a non-empty token that is the
    session id of the provider's last response in [calls] or, failing
    that, the token [conversation_id] handed in or a minted UUID. *)
Definition carries_session (calls : list Interaction)
    (conversation_id : option string) (w : World) (r : ChatResult) : Prop :=
  exists tok,
    res_conversationId r = Some tok /\ tok <> "" /\
    match provider_session calls with
    | Some s => tok = s
    | None => opt_truthy conversation_id = Some tok \/
              exists k, tok = uuid_str (uuid4 (entropy w k))
    end.

(** The paths through [chat], by the wrapper whose outcome ends the run. *)
Inductive chat_run (req : ChatRequest) (w : World)
  : outcome ChatResult -> World -> Prop :=
| run_rejected :
    strip (message req) = "" ->
    chat_run req w (Raise (HTTPException 400 "`message` is required.")) w
| run_greeting x w' :
    strip (message req) <> "" ->
    is_greeting (strip (message req)) = true ->
    call_model_simple (strip (message req)) (normalize_language (language req))
                      "greeting" w = (x, w') ->
    chat_run req w x w'
| run_first_raises e w' :
    strip (message req) <> "" ->
    is_greeting (strip (message req)) = false ->
    call_bedrock (strip (message req)) (conversationId req)
                 (normalize_language (language req)) false "default" w
      = (Raise e, w') ->
    chat_run req w (Raise e) w'
| run_first_answer r1 w' :
    strip (message req) <> "" ->
    is_greeting (strip (message req)) = false ->
    call_bedrock (strip (message req)) (conversationId req)
                 (normalize_language (language req)) false "default" w
      = (Return r1, w') ->
    looks_like_refusal (reply r1) = false ->
    chat_run req w (Return r1) w'
| run_second_raises r1 w1 e w' :
    strip (message req) <> "" ->
    is_greeting (strip (message req)) = false ->
    call_bedrock (strip (message req)) (conversationId req)
                 (normalize_language (language req)) false "default" w
      = (Return r1, w1) ->
    looks_like_refusal (reply r1) = true ->
    call_bedrock (strip (message req)) None
                 (normalize_language (language req)) true "default" w1
      = (Raise e, w') ->
    chat_run req w (Raise e) w'
| run_second_answer r1 w1 r2 w' :
    strip (message req) <> "" ->
    is_greeting (strip (message req)) = false ->
    call_bedrock (strip (message req)) (conversationId req)
                 (normalize_language (language req)) false "default" w
      = (Return r1, w1) ->
    looks_like_refusal (reply r1) = true ->
    call_bedrock (strip (message req)) None
                 (normalize_language (language req)) true "default" w1
      = (Return r2, w') ->
    looks_like_refusal (reply r2) = false ->
    chat_run req w (Return r2) w'
| run_general r1 w1 r2 w2 x w' :
    strip (message req) <> "" ->
    is_greeting (strip (message req)) = false ->
    call_bedrock (strip (message req)) (conversationId req)
                 (normalize_language (language req)) false "default" w
      = (Return r1, w1) ->
    looks_like_refusal (reply r1) = true ->
    call_bedrock (strip (message req)) None
                 (normalize_language (language req)) true "default" w1
      = (Return r2, w2) ->
    looks_like_refusal (reply r2) = true ->
    call_model_simple (strip (message req)) (normalize_language (language req))
                      "general" w2 = (x, w') ->
    chat_run req w x w'.

(** [part] occurs in [s]. *)
Definition has_part (part s : string) : Prop :=
  exists pre post, s = pre ++ part ++ post.

(* ===================================================================== *)
(** ** Sample environments, providers and requests *)
(* ===================================================================== *)

Module Samples.

Definition no_env : string -> option string := fun _ => None.

Definition kb_env : string -> option string :=
  fun name =>
    if name =? "BEDROCK_KB_ID" then Some "KB12345678"
    else if name =? "BEDROCK_MODEL_ID" then Some "anthropic.claude-3-haiku-20240307-v1:0"
    else None.

(** The model is set but no knowledge base. *)
Definition model_only_env : string -> option string :=
  fun name =>
    if name =? "BEDROCK_MODEL_ID" then Some "anthropic.claude-3-haiku-20240307-v1:0"
    else None.

(** Answers every question. *)
Definition helpful : Provider :=
  {| retrieve_and_generate_oracle := fun _ _ =>
       RGOk {| output_text := Some "Summary: use a one-handed controller.";
               res_sessionId := Some "session-1" |};
     invoke_model_oracle := fun _ _ => IMOk [Some "Summary: Hello, I am your guide."] |}.

(** Rejects every session token it is sent and declines every question. *)
Definition refusing : Provider :=
  {| retrieve_and_generate_oracle := fun _ r =>
       match sessionId r with
       | Some _ =>
           RGClientError
             ("An error occurred (ValidationException) when calling the "
              ++ "RetrieveAndGenerate operation: Session with Id stale-session "
              ++ "is not valid. Please check and try again.")
       | None =>
           RGOk {| output_text := Some "Sorry, I am unable to assist with that request.";
                   res_sessionId := Some "session-2" |}
       end;
     invoke_model_oracle := fun _ _ => IMOk [Some "Summary: try remapping the buttons."] |}.

(** Throttles every retrieval. *)
Definition throttled : Provider :=
  {| retrieve_and_generate_oracle := fun _ _ =>
       RGClientError
         ("An error occurred (ThrottlingException) when calling the "
          ++ "RetrieveAndGenerate operation: Too many requests");
     invoke_model_oracle := fun _ _ => IMError "ThrottlingException" |}.

(** Cannot be reached. *)
Definition offline : Provider :=
  {| retrieve_and_generate_oracle := fun _ _ =>
       RGOtherError "Could not connect to the endpoint URL";
     invoke_model_oracle := fun _ _ => IMError "Could not connect to the endpoint URL" |}.

Definition world (env : string -> option string) (p : Provider) : World :=
  {| environ := env; provider := p; log := [];
     entropy := fun n => (N.of_nat n * 40503 + 2654435769)%N; draws := 0 |}.

Definition hello : ChatRequest :=
  {| message := "hello"; conversationId := None; language := Some "en" |}.

Definition question : ChatRequest :=
  {| message := "How do I set up an adaptive controller?";
     conversationId := None; language := Some "en" |}.

Definition stale_question : ChatRequest :=
  {| message := "How do I set up an adaptive controller?";
     conversationId := Some "stale-session"; language := Some "en" |}.

Definition french_question : ChatRequest :=
  {| message := "How do I set up an adaptive controller?";
     conversationId := None; language := Some "fr" |}.

Definition cannot_help_question : ChatRequest :=
  {| message := "Why do games say they cannot help me?";
     conversationId := Some "abc"; language := Some "en" |}.

End Samples.

(* ===================================================================== *)
(** ** Vocabulary of the further properties *)
(* ===================================================================== *)

(** [b] is [a] with [part] inserted at one place. *)
Definition inserted (part a b : string) : Prop :=
  exists pre post, a = pre ++ post /\ b = pre ++ part ++ post.

(** U+00A0 NO-BREAK SPACE and U+2003 EM SPACE. *)
Definition nbsp : string := encode_cp 160.
Definition em_space : string := encode_cp 8195.

(** A byte of the encoding of a whitespace code point. *)
Definition ws_byte (a : ascii) : bool :=
  existsb (fun v => existsb (Ascii.eqb a) (list_ascii_of_string (encode_cp v)))
          whitespace.

(** The section headings the prompts demand, by language. *)
Definition headings (language : string) : list string :=
  if language =? "es"
  then ["Resumen:"; "Recomendaciones:"; "Siguientes preguntas:"]
  else ["Summary:"; "Recommendations:"; "Next questions:"].

(** The requests [chat] may send for a request [req] in world [w]. *)
Definition chat_request (req : ChatRequest) (w : World) (i : Interaction) : Prop :=
  let msg := strip (message req) in
  let lang := normalize_language (language req) in
  match i with
  | RetrieveAndGenerate r _ =>
      is_greeting msg = false /\
      (r = first_request w msg (conversationId req) lang false "default" \/
       r = first_request w msg None lang false "default" \/
       r = first_request w msg None lang true "default")
  | InvokeModel r _ =>
      (is_greeting msg = true /\ r = simple_request w msg lang "greeting") \/
      (is_greeting msg = false /\ r = simple_request w msg lang "general")
  end.

Module MoreSamples.

(** Rejects every session token; answers a request without one, but its
    response names no session. *)
Definition forgetful : Provider :=
  {| retrieve_and_generate_oracle := fun _ r =>
       match sessionId r with
       | Some _ =>
           RGClientError
             ("An error occurred (ValidationException) when calling the "
              ++ "RetrieveAndGenerate operation: Session with Id stale-session "
              ++ "is not valid. Please check and try again.")
       | None =>
           RGOk {| output_text := Some "Summary: use a one-handed controller.";
                   res_sessionId := None |}
       end;
     invoke_model_oracle := fun _ _ => IMOk [Some "Summary: Hello."] |}.

(** Answers every retrieval with blanks. *)
Definition blank : Provider :=
  {| retrieve_and_generate_oracle := fun _ _ =>
       RGOk {| output_text := Some ("  " ++ nl); res_sessionId := Some "session-3" |};
     invoke_model_oracle := fun _ _ => IMOk [Some "   "] |}.

(** Declines the plain prompt, naming a session; answers the escalated
    prompt, naming none. *)
Definition reluctant : Provider :=
  {| retrieve_and_generate_oracle := fun _ r =>
       if contains "Avoid refusal language." (input_text r)
       then RGOk {| output_text := Some "Summary: use a one-handed controller.";
                    res_sessionId := None |}
       else RGOk {| output_text := Some "Sorry, I cannot help with that.";
                    res_sessionId := Some "session-1" |};
     invoke_model_oracle := fun _ _ => IMOk [Some "Summary: Hello."] |}.

End MoreSamples.

(* ===================================================================== *)
(** ** The lambda handler
       (backend/infrastructure/cdk/lambda/ai-agent/handler.py) *)
(* ===================================================================== *)

Module LambdaHandler.

(** [s.split(sep)] for a one-character separator: the fields between the
    separators, empty ones included.  [cur] is the field being read. *)
Fixpoint split_on_from (sep : ascii) (cur s : string) : list string :=
  match s with
  | EmptyString => [cur]
  | String c s' =>
      if Ascii.eqb c sep then cur :: split_on_from sep "" s'
      else split_on_from sep (cur ++ String c "") s'
  end.

Definition split_on (sep : ascii) (s : string) : list string :=
  split_on_from sep "" s.

(** The Lambda context object, with its [invoked_function_arn] attribute
    when it has one. *)
Record Context := { invoked_function_arn : option string }.

(** The state of the lambda process: the world of the provider calls, the
    module-level [_account_id_cache], and the account STS reports ([None]
    when the STS call raises). *)
Record State := {
  world : World;
  account_id_cache : option string;
  sts_account : option string
}.

Definition LM (A : Type) : Type := State -> outcome A * State.

Definition lret {A} (a : A) : LM A := fun st => (Return a, st).

Definition lbind {A B} (c : LM A) (k : A -> LM B) : LM B :=
  fun st => match c st with
            | (Return a, st') => k a st'
            | (Raise e, st') => (Raise e, st')
            end.

Definition lraise {A} (e : exn) : LM A := fun st => (Raise e, st).

Definition lcatch {A} (c : LM A) (h : exn -> LM A) : LM A :=
  fun st => match c st with
            | (Return a, st') => (Return a, st')
            | (Raise e, st') => h e st'
            end.

(** Runs a computation of the provider world inside the lambda state. *)
Definition lift {A} (c : M A) : LM A :=
  fun st => match c (world st) with
            | (x, w') =>
                (x, {| world := w'; account_id_cache := account_id_cache st;
                       sts_account := sts_account st |})
            end.

Notation "x <~ c ;; k" := (lbind c (fun x => k))
  (at level 61, c at next level, right associativity).

Definition set_cache (acc : string) (st : State) : State :=
  {| world := world st; account_id_cache := Some acc;
     sts_account := sts_account st |}.

(** [get_account_id], lines 15-31. *)
Definition get_account_id (context : option Context) : LM string :=
  fun st =>
    match opt_truthy (account_id_cache st) with
    | Some cached => (Return cached, st)
    | None =>
        match context with
        | Some {| invoked_function_arn := Some arn |} =>
            match nth_error (split_on ":" arn) 4 with
            | Some acc => (Return acc, set_cache acc st)
            | None => (Raise (OtherError "IndexError: list index out of range"), st)
            end
        | _ =>
            match sts_account st with
            | Some acc => (Return acc, set_cache acc st)
            | None => (Return "", st)
            end
        end
    end.

(** [get_model_arn], lines 34-44. *)
Definition get_model_arn (model_id region account_id model_arn_override : string)
    : string :=
  if truthy model_arn_override then model_arn_override
  else if prefix "us." model_id || prefix "global." model_id
       then "arn:aws:bedrock:" ++ region ++ ":" ++ account_id
            ++ ":inference-profile/" ++ model_id
       else "arn:aws:bedrock:" ++ region ++ "::foundation-model/" ++ model_id.

(** The events of a simulated stream, by event name and payload field. *)
Inductive SseEvent :=
| sse_meta (conversationId : string)
| sse_delta (text : string)
| sse_error (error : string).

Inductive Headers :=
| json_headers            (* content-type: application/json, CORS *)
| sse_headers_keep_alive  (* text/event-stream, no-cache, keep-alive, CORS *)
| sse_headers.            (* text/event-stream, no-cache, CORS *)

(** The JSON document or event stream of a response body. *)
Inductive Body :=
| body_routes
| body_ok
| body_error (error : string) (hint : option string)
| body_chat (conversationId : string) (reply : string)
| body_events (events : list SseEvent).

Record Response := {
  statusCode : nat;
  headers : Headers;
  body : Body
}.

(** [json_response], lines 47-55. *)
Definition json_response (status_code : nat) (b : Body) : Response :=
  {| statusCode := status_code; headers := json_headers; body := b |}.

(** [get_greeting_response], lines 72-95. *)
Definition get_greeting_response (language : string) : string :=
  if language =? "es" then unlines [
    "¡Hola! Soy tu guía de juegos adaptativos. Estoy aquí para ayudarte a hacer que los videojuegos sean accesibles para personas con diferentes habilidades físicas.";
    "";
    "Puedo ayudarte con:";
    "- Seleccionar controladores adaptativos apropiados";
    "- Configurar equipos de juego accesibles";
    "- Encontrar juegos compatibles con tecnologías de asistencia";
    "- Optimizar configuraciones para necesidades específicas de movilidad";
    "- Conectar controladores a diferentes consolas";
    "";
    "¿En qué puedo ayudarte hoy?" ]
  else unlines [
    "Hello! I'm your Adaptive Gaming Guide. I'm here to help you make video games accessible for people with varying physical abilities.";
    "";
    "I can assist you with:";
    "- Selecting appropriate adaptive controllers";
    "- Setting up accessible gaming equipment";
    "- Finding games compatible with assistive technologies";
    "- Optimizing setups for specific mobility needs";
    "- Connecting controllers to different consoles";
    "";
    "What can I help you with today?" ].

(** [build_prompt], lines 98-164. *)
Definition build_prompt (message language : string) : string :=
  if language =? "es" then unlines [
    "IMPORTANTE: Debes responder ÚNICAMENTE en español de manera profesional y amigable. Si el contenido de referencia está en inglés, tradúcelo al español antes de responder.";
    "";
    "Eres un experto en juegos adaptativos y accesibilidad. Tu objetivo es proporcionar orientación clara, práctica y empática para hacer que los videojuegos sean accesibles.";
    "";
    "INSTRUCCIONES:";
    "1. Usa la base de conocimiento como fuente principal de información";
    "2. Proporciona respuestas detalladas pero concisas";
    "3. Sé específico con nombres de productos, técnicas y pasos cuando sea posible";
    "4. Si la información es limitada, ofrece orientación general y haz preguntas de seguimiento relevantes";
    "5. Mantén un tono profesional pero cálido y accesible";
    "6. No uses Markdown. Solo texto plano con viñetas simples usando guiones (-)";
    "";
    "FORMATO OBLIGATORIO - DEBES USAR EXACTAMENTE ESTA ESTRUCTURA:";
    "";
    "Resumen:";
    "- [Punto clave 1 que responde directamente a la pregunta]";
    "- [Punto clave 2 con información específica y práctica]";
    "- [Punto clave 3 si es relevante]";
    "";
    "Recomendaciones:";
    "- [Recomendación concreta y accionable 1]";
    "- [Recomendación concreta y accionable 2]";
    "- [Recomendación concreta y accionable 3]";
    "- [Recomendación concreta y accionable 4 si es relevante]";
    "";
    "Siguientes preguntas:";
    "- [Pregunta de seguimiento relevante 1]";
    "- [Pregunta de seguimiento relevante 2]";
    "";
    "Pregunta del usuario: " ++ message;
    "";
    "RECUERDA: Debes usar EXACTAMENTE los encabezados " ++ dq ++ "Resumen:" ++ dq ++ ", " ++ dq ++ "Recomendaciones:" ++ dq ++ ", y " ++ dq ++ "Siguientes preguntas:" ++ dq ++ " seguidos de viñetas con guiones. No omitas ninguna sección." ]
  else unlines [
    "IMPORTANT: You must respond ONLY in English in a professional and friendly manner. If reference content is in another language, translate it to English before responding.";
    "";
    "You are an expert in adaptive gaming and accessibility. Your goal is to provide clear, practical, and empathetic guidance to make video games accessible.";
    "";
    "INSTRUCTIONS:";
    "1. Use the knowledge base as your primary source of information";
    "2. Provide detailed but concise responses";
    "3. Be specific with product names, techniques, and steps when possible";
    "4. If information is limited, offer general guidance and ask relevant follow-up questions";
    "5. Maintain a professional yet warm and approachable tone";
    "6. Do not use Markdown. Plain text only with simple bullet points using dashes (-)";
    "";
    "MANDATORY FORMAT - YOU MUST USE EXACTLY THIS STRUCTURE:";
    "";
    "Summary:";
    "- [Key point 1 that directly answers the question]";
    "- [Key point 2 with specific and practical information]";
    "- [Key point 3 if relevant]";
    "";
    "Recommendations:";
    "- [Concrete and actionable recommendation 1]";
    "- [Concrete and actionable recommendation 2]";
    "- [Concrete and actionable recommendation 3]";
    "- [Concrete and actionable recommendation 4 if relevant]";
    "";
    "Next questions:";
    "- [Relevant follow-up question 1]";
    "- [Relevant follow-up question 2]";
    "";
    "User question: " ++ message;
    "";
    "REMEMBER: You MUST use EXACTLY the headings " ++ dq ++ "Summary:" ++ dq ++ ", " ++ dq ++ "Recommendations:" ++ dq ++ ", and " ++ dq ++ "Next questions:" ++ dq ++ " followed by bullet points with dashes. Do not omit any section." ].

(** The result of [json.loads(event.get("body") or "{}")] and of the three
    lookups made on it: a field is [Some s] when it is present and a
    [str]. *)
Record Payload := {
  p_message : option string;
  p_conversationId : option string;
  p_language : option string
}.

Inductive ParsedBody :=
| bad_json                  (* json.JSONDecodeError *)
| loads_error (msg : string) (* any other exception of json.loads *)
| not_object                (* valid JSON that is not an object: no [.get] *)
| object (p : Payload).

(** The fields of the API Gateway event the handler reads. *)
Record Event := {
  rawPath : option string;
  http_method : option string;
  parsed_body : ParsedBody
}.

Definition opt_eqb (o : option string) (s : string) : bool :=
  match o with Some t => t =? s | None => false end.

(** A botocore [ClientError] is the client's [ValidationException] when
    its error code is; [str(exc)] starts with
    "An error occurred (<code>)". *)
Definition is_validation_exception (error_msg : string) : bool :=
  prefix "An error occurred (ValidationException)" error_msg.

(** Lines 247-248 (and 269-270 with no conversation id): reply and session
    id read from a provider response. *)
Definition answer (res : RGResponse) (conversation_id : option string)
    (language : string) : M (string * string) :=
  let reply :=
    match opt_truthy (output_text res) with
    | Some t => t
    | None => no_answer language
    end in
  session_id <-
    match opt_truthy (res_sessionId res) with
    | Some s => ret s
    | None => or_new conversation_id
    end ;;
  ret (session_id, reply).

Definition request_params (prompt kb_id model_arn : string)
    (conversation_id : option string) : RGRequest :=
  {| input_text := prompt; knowledgeBaseId := kb_id; modelArn := model_arn;
     sessionId := opt_truthy conversation_id |}.

Definition bedrock_failed : Response :=
  json_response 500 (body_error "Bedrock request failed." None).

(** Lines 228-280 of [handler]: the retrieval, its retry and the error
    responses.  The client of line 229 is taken as given. *)
Definition retrieve (prompt kb_id model_arn : string)
    (conversation_id : option string) (language : string) : M Response :=
  catch
    (res <- retrieve_and_generate
              (request_params prompt kb_id model_arn conversation_id) ;;
     a <- answer res conversation_id language ;;
     ret (json_response 200 (body_chat (fst a) (snd a))))
    (fun exc =>
       match exc with
       | ClientError error_msg =>
           if is_validation_exception error_msg then
             if invalid_session error_msg then
               catch
                 (res <- retrieve_and_generate
                           (request_params prompt kb_id model_arn None) ;;
                  a <- answer res None language ;;
                  ret (json_response 200 (body_chat (fst a) (snd a))))
                 (fun _ => ret bedrock_failed)
             else ret bedrock_failed
           else ret bedrock_failed
       | _ => ret bedrock_failed
       end).

(** The SSE body built from a conversation id and a reply (for instance
    lines 377-383). *)
Definition sse_events (session_id reply : string) : list SseEvent :=
  sse_meta session_id :: map (fun word => sse_delta (word ++ " ")) (split reply).

Definition stream_ok (session_id reply : string) : Response :=
  {| statusCode := 200; headers := sse_headers_keep_alive;
     body := body_events (sse_events session_id reply) |}.

Definition streaming_failed : Response :=
  {| statusCode := 200; headers := sse_headers;
     body := body_events [sse_error "Streaming failed"] |}.

(** Lines 352-471 of [handle_streaming_chat].  The client of line 353 is
    taken as given. *)
Definition retrieve_stream (prompt kb_id model_arn : string)
    (conversation_id : option string) (language : string) : M Response :=
  catch
    (res <- retrieve_and_generate
              (request_params prompt kb_id model_arn conversation_id) ;;
     a <- answer res conversation_id language ;;
     ret (stream_ok (fst a) (snd a)))
    (fun exc =>
       match exc with
       | ClientError error_msg =>
           if is_validation_exception error_msg then
             if invalid_session error_msg then
               catch
                 (res <- retrieve_and_generate
                           (request_params prompt kb_id model_arn None) ;;
                  a <- answer res None language ;;
                  ret (stream_ok (fst a) (snd a)))
                 (fun _ => ret streaming_failed)
             else ret streaming_failed
           else ret streaming_failed
       | _ => ret streaming_failed
       end).

(** [handle_streaming_chat], lines 283-471. *)
Definition handle_streaming_chat (event : Event) : LM Response :=
  match parsed_body event with
  | bad_json => lret (json_response 400 (body_error "Invalid JSON body." None))
  | loads_error msg => lraise (OtherError msg)
  | not_object =>
      lraise (OtherError "AttributeError: object has no attribute 'get'")
  | object payload =>
      let message :=
        strip (match p_message payload with Some s => s | None => "" end) in
      let conversation_id := p_conversationId payload in
      let language := normalize_language (p_language payload) in
      if negb (truthy message) then
        lret (json_response 400 (body_error "`message` is required." None))
      else if Lambda.is_greeting message then
        let greeting_reply := get_greeting_response language in
        session_id <~ lift (or_new conversation_id) ;;
        lret (stream_ok session_id greeting_reply)
      else
        kb_id <~ lift (getenv "BEDROCK_KB_ID" "") ;;
        model_id <~ lift (getenv "BEDROCK_MODEL_ID" "") ;;
        if negb (truthy kb_id) || negb (truthy model_id) then
          let reply := echo_reply message language in
          session_id <~ lift (or_new conversation_id) ;;
          lret (stream_ok session_id reply)
        else
          let prompt := build_prompt message language in
          account_id <~ get_account_id None ;;
          region <~ lift (getenv "AWS_REGION" "us-east-1") ;;
          let model_arn := get_model_arn model_id region account_id "" in
          lift (retrieve_stream prompt kb_id model_arn conversation_id language)
  end.

(** [handler], lines 167-280. *)
Definition handler (event : Event) (context : option Context) : LM Response :=
  if opt_eqb (rawPath event) "/api/chat/stream" then handle_streaming_chat event
  else if opt_eqb (rawPath event) "/" || opt_eqb (rawPath event) "" then
    lret (json_response 200 body_routes)
  else if opt_eqb (rawPath event) "/health" then
    lret (json_response 200 body_ok)
  else if opt_eqb (rawPath event) "/api/chat" && opt_eqb (http_method event) "GET" then
    lret (json_response 405
            (body_error "Method Not Allowed"
                        (Some "Use POST /api/chat with JSON body.")))
  else
    match parsed_body event with
    | bad_json => lret (json_response 400 (body_error "Invalid JSON body." None))
    | loads_error msg => lraise (OtherError msg)
    | not_object =>
        lraise (OtherError "AttributeError: object has no attribute 'get'")
    | object payload =>
        let message :=
          strip (match p_message payload with Some s => s | None => "" end) in
        let conversation_id := p_conversationId payload in
        let language := normalize_language (p_language payload) in
        if negb (truthy message) then
          lret (json_response 400 (body_error "`message` is required." None))
        else if Lambda.is_greeting message then
          let greeting_reply := get_greeting_response language in
          cid <~ lift (or_new conversation_id) ;;
          lret (json_response 200 (body_chat cid greeting_reply))
        else
          kb_id <~ lift (getenv "BEDROCK_KB_ID" "") ;;
          model_id <~ lift (getenv "BEDROCK_MODEL_ID" "") ;;
          model_arn_override <~ lift (getenv "BEDROCK_MODEL_ARN" "") ;;
          if negb (truthy kb_id) || negb (truthy model_id) then
            let reply := echo_reply message language in
            cid <~ lift (or_new conversation_id) ;;
            lret (json_response 200 (body_chat cid reply))
          else
            let prompt := build_prompt message language in
            account_id <~ get_account_id context ;;
            region <~ lift (getenv "AWS_REGION" "us-east-1") ;;
            let model_arn :=
              get_model_arn model_id region account_id model_arn_override in
            lift (retrieve prompt kb_id model_arn conversation_id language)
    end.

End LambdaHandler.

(* ===================================================================== *)
(** ** Vocabulary of the lambda handler's properties *)
(* ===================================================================== *)

(** The model id names an inference profile (handler.py line 39). *)
Definition is_inference_profile (model_id : string) : bool :=
  prefix "us." model_id || prefix "global." model_id.

(** A field free of colons. *)
Fixpoint colon_free (s : string) : bool :=
  match s with
  | EmptyString => true
  | String c s' => negb (Ascii.eqb c ":") && colon_free s'
  end.

(** The event is handled as a chat request by [handler]: none of the
    other routes applies. *)
Definition is_chat_route (e : LambdaHandler.Event) : bool :=
  negb (LambdaHandler.opt_eqb (LambdaHandler.rawPath e) "/api/chat/stream")
  && negb (LambdaHandler.opt_eqb (LambdaHandler.rawPath e) "/"
           || LambdaHandler.opt_eqb (LambdaHandler.rawPath e) "")
  && negb (LambdaHandler.opt_eqb (LambdaHandler.rawPath e) "/health")
  && negb (LambdaHandler.opt_eqb (LambdaHandler.rawPath e) "/api/chat"
           && LambdaHandler.opt_eqb (LambdaHandler.http_method e) "GET").

(** The trimmed message of a payload. *)
Definition payload_message (p : LambdaHandler.Payload) : string :=
  strip (match LambdaHandler.p_message p with Some s => s | None => "" end).

(** The streamed form of a JSON response: a chat answer becomes its event
    stream, the provider failure becomes the error stream. *)
Definition streamed (r : LambdaHandler.Response) : LambdaHandler.Response :=
  match LambdaHandler.body r with
  | LambdaHandler.body_chat cid reply => LambdaHandler.stream_ok cid reply
  | LambdaHandler.body_error _ _ =>
      if Nat.eqb (LambdaHandler.statusCode r) 500
      then LambdaHandler.streaming_failed else r
  | _ => r
  end.

(** The two retrieval blocks of the lambda handler, by the response they
    build from an answer ([ok]) and on failure ([failed]), spelled out on
    the provider's outcomes. *)
Definition retrieve_cases (ok : string -> string -> LambdaHandler.Response)
    (failed : LambdaHandler.Response) (prompt kb_id model_arn : string)
    (conversation_id : option string) (language : string) (w : World)
    : outcome LambdaHandler.Response * World :=
  let reply_of res :=
    match opt_truthy (output_text res) with
    | Some t => t
    | None => no_answer language
    end in
  let req := LambdaHandler.request_params prompt kb_id model_arn conversation_id in
  let out := retrieve_and_generate_oracle (provider w) (log w) req in
  let w1 := log_call (RetrieveAndGenerate req out) w in
  match out with
  | RGOk res =>
      (Return (ok (match opt_truthy (res_sessionId res) with
                   | Some s => s
                   | None => fst (minted conversation_id w1)
                   end) (reply_of res)),
       result_world res conversation_id w1)
  | RGClientError msg =>
      if LambdaHandler.is_validation_exception msg && invalid_session msg then
        let req2 := LambdaHandler.request_params prompt kb_id model_arn None in
        let out2 := retrieve_and_generate_oracle (provider w1) (log w1) req2 in
        let w2 := log_call (RetrieveAndGenerate req2 out2) w1 in
        match out2 with
        | RGOk res =>
            (Return (ok (match opt_truthy (res_sessionId res) with
                         | Some s => s
                         | None => next_uuid w2
                         end) (reply_of res)),
             result_world res None w2)
        | _ => (Return failed, w2)
        end
      else (Return failed, w1)
  | RGOtherError _ => (Return failed, w1)
  end.

Module LambdaSamples.

Definition function_arn : string :=
  "arn:aws:lambda:us-east-1:123456789012:function:ai-agent".

Definition cold (w : World) : LambdaHandler.State :=
  {| LambdaHandler.world := w; LambdaHandler.account_id_cache := None;
     LambdaHandler.sts_account := Some "123456789012" |}.

Definition warm (w : World) : LambdaHandler.State :=
  {| LambdaHandler.world := w;
     LambdaHandler.account_id_cache := Some "123456789012";
     LambdaHandler.sts_account := Some "123456789012" |}.

Definition post (path : string) (p : LambdaHandler.Payload) : LambdaHandler.Event :=
  {| LambdaHandler.rawPath := Some path; LambdaHandler.http_method := Some "POST";
     LambdaHandler.parsed_body := LambdaHandler.object p |}.

Definition ask (msg : string) (cid : option string) : LambdaHandler.Payload :=
  {| LambdaHandler.p_message := Some msg; LambdaHandler.p_conversationId := cid;
     LambdaHandler.p_language := Some "en" |}.

End LambdaSamples.

(** The lambda state with another provider world. *)
Definition with_world (st : LambdaHandler.State) (w : World) : LambdaHandler.State :=
  {| LambdaHandler.world := w;
     LambdaHandler.account_id_cache := LambdaHandler.account_id_cache st;
     LambdaHandler.sts_account := LambdaHandler.sts_account st |}.

(** A run of [handler], seen through the streaming endpoint. *)
Definition streamed_run (r : outcome LambdaHandler.Response * LambdaHandler.State)
    : outcome LambdaHandler.Response * LambdaHandler.State :=
  match r with
  | (Return resp, st) => (Return (streamed resp), st)
  | (Raise e, st) => (Raise e, st)
  end.

Definition json_chat (cid reply : string) : LambdaHandler.Response :=
  LambdaHandler.json_response 200 (LambdaHandler.body_chat cid reply).

(* ===================================================================== *)
(** * Properties *)
(* ===================================================================== *)

(** ** Strings *)

Section StringFacts.

Lemma append_nil_r (s : string) : s ++ "" = s.
Proof. induction s as [|c s IH]; simpl; congruence. Qed.

Lemma append_assoc (a b c : string) : (a ++ b) ++ c = a ++ (b ++ c).
Proof. induction a as [|x a IH]; simpl; congruence. Qed.

Lemma length_append (a b : string) :
  String.length (a ++ b) = String.length a + String.length b.
Proof. induction a as [|x a IH]; simpl; congruence. Qed.

Lemma truthy_true (s : string) : truthy s = true <-> s <> "".
Proof.
  unfold truthy. destruct (String.eqb_spec s ""); simpl; split; congruence.
Qed.

Lemma truthy_false (s : string) : truthy s = false <-> s = "".
Proof.
  unfold truthy. destruct (String.eqb_spec s ""); simpl; split; congruence.
Qed.

Lemma append_not_nil_r (a b : string) : b <> "" -> a ++ b <> "".
Proof. destruct a; simpl; [auto | discriminate]. Qed.

Lemma append_not_nil_l (a b : string) : a <> "" -> a ++ b <> "".
Proof. destruct a; simpl; [congruence | discriminate]. Qed.

Lemma or_str_not_nil (a b : string) : b <> "" -> or_str a b <> "".
Proof.
  unfold or_str. destruct (truthy a) eqn:E; [|auto].
  intros _. now apply truthy_true.
Qed.

Lemma opt_truthy_some (o : option string) (s : string) :
  opt_truthy o = Some s -> o = Some s /\ s <> "".
Proof.
  destruct o as [t|]; simpl; [|discriminate].
  destruct (truthy t) eqn:E; [|discriminate].
  intros [= <-]. split; [reflexivity | now apply truthy_true].
Qed.

Lemma prefix_app (p s : string) :
  prefix p s = true <-> exists post, s = p ++ post.
Proof.
  revert s. induction p as [|a p IH]; intros s.
  - split; [intros _; exists s; reflexivity | intros _; destruct s; reflexivity].
  - destruct s as [|b s]; simpl.
    + split; [discriminate | intros [post H]; discriminate].
    + destruct (ascii_dec a b) as [->|Hab].
      * rewrite IH. split; intros [post H]; exists post; [now rewrite H | now injection H].
      * split; [discriminate | intros [post H]; congruence].
Qed.

Lemma contains_unfold (pat s : string) :
  contains pat s
  = if prefix pat s then true
    else match s with
         | EmptyString => false
         | String _ s' => contains pat s'
         end.
Proof. destruct s; reflexivity. Qed.

(** [pat in s] holds exactly when [s] is [pre ++ pat ++ post]. *)
Lemma contains_has_part (pat s : string) :
  contains pat s = true <-> has_part pat s.
Proof.
  split.
  - induction s as [|c s IH]; rewrite contains_unfold.
    + destruct (prefix pat "") eqn:E; [|discriminate].
      intros _. apply prefix_app in E as [post E]. exists "", post. exact E.
    + destruct (prefix pat (String c s)) eqn:E.
      * intros _. apply prefix_app in E as [post E]. exists "", post. exact E.
      * intros H. destruct (IH H) as (pre & post & ->).
        exists (String c pre), post. reflexivity.
  - intros (pre & post & ->). induction pre as [|c pre IH].
    + rewrite contains_unfold.
      assert (E : prefix pat ("" ++ pat ++ post) = true)
        by (apply prefix_app; exists post; reflexivity).
      now rewrite E.
    + rewrite contains_unfold.
      destruct (prefix pat (String c pre ++ pat ++ post)); [reflexivity|].
      exact IH.
Qed.

End StringFacts.

(** ** UTF-8 *)

Section Utf8.

Lemma byte_lt (c : ascii) : (byte c < 256)%N.
Proof. apply N_ascii_bounded. Qed.

Lemma of_byte_byte (c : ascii) : of_byte (byte c) = c.
Proof. apply ascii_N_embedding. Qed.

Lemma byte_of_byte (b : N) : (b < 256)%N -> byte (of_byte b) = b.
Proof. apply N_ascii_embedding. Qed.

Lemma string_length_ind (P : string -> Prop) :
  (forall s, (forall t, String.length t < String.length s -> P t) -> P s) ->
  forall s, P s.
Proof.
  intros H s. remember (String.length s) as n eqn:E. revert s E.
  induction n as [n IH] using lt_wf_ind. intros s ->.
  apply H. intros t Ht. now apply (IH _ Ht).
Qed.

Lemma drop_nil (n : nat) : drop n "" = "".
Proof. destruct n; reflexivity. Qed.

Lemma length_drop (n : nat) (s : string) :
  String.length (drop n s) = String.length s - n.
Proof.
  revert s. induction n as [|n IH]; intros [|c s]; simpl; auto.
Qed.

Lemma drop_app (n : nat) (s y : string) :
  n <= String.length s -> drop n (s ++ y) = drop n s ++ y.
Proof.
  revert s. induction n as [|n IH]; intros [|c s] H; simpl in *; try reflexivity.
  - lia.
  - apply IH. lia.
Qed.


Ltac head_cases :=
  unfold head_cp;
  repeat match goal with
         | |- context [match ?s with EmptyString => _ | String _ _ => _ end] =>
             is_var s; destruct s
         | |- context [if ?c then _ else _] => destruct c eqn:?
         end.

(** Boolean tests of the hypotheses turned into propositions. *)
Ltac as_props :=
  unfold continuation in *;
  repeat match goal with
         | H : (_ && _)%bool = true |- _ => apply andb_true_iff in H as [? ?]
         | H : (_ <? _)%N = true |- _ => apply N.ltb_lt in H
         | H : (_ <? _)%N = false |- _ => apply N.ltb_ge in H
         | H : (_ <=? _)%N = true |- _ => apply N.leb_le in H
         | H : (_ <=? _)%N = false |- _ => apply N.leb_gt in H
         | H : negb _ = true |- _ => apply negb_true_iff in H
         | H : negb _ = false |- _ => apply negb_false_iff in H
         | H : (_ && _)%bool = false |- _ => apply andb_false_iff in H as [?|?]
         end.

Lemma head_cp_shape (b : N) (s : string) :
  head_shape b s (fst (head_cp b s)) (snd (head_cp b s)).
Proof.
  head_cases; cbn [fst snd]; as_props;
    first [ apply head_ascii; lia
          | apply head_stray; lia
          | eapply head_two; [reflexivity | lia ..]
          | eapply head_three; [reflexivity | lia ..]
          | eapply head_four; [reflexivity | lia ..] ].
Qed.

Lemma head_cp_le (b : N) (s : string) :
  snd (head_cp b s) <= String.length s.
Proof. head_cases; simpl; lia. Qed.

Lemma head_cp_ascii (b : N) (s : string) : (b < 128)%N -> head_cp b s = (b, 0).
Proof. intros H. unfold head_cp. apply N.ltb_lt in H. now rewrite H. Qed.

Lemma head_cp_continuation (b : N) (s : string) :
  continuation b = true -> head_cp b s = (stray b, 0).
Proof.
  intros H. head_cases; as_props; try reflexivity; lia.
Qed.

Lemma head_shape_sound (b : N) (s : string) (v : N) (k : nat) :
  head_shape b s v k -> (v < 1114112)%N -> head_cp b s = (v, k).
Proof.
  intros H Hv. destruct H; subst; unfold head_cp, continuation, stray in *.
  - replace (b <? 128)%N with true by (symmetry; apply N.ltb_lt; lia). reflexivity.
  - lia.
  - replace (b <? 128)%N with false by (symmetry; apply N.ltb_ge; lia).
    replace (194 <=? b)%N with true by (symmetry; apply N.leb_le; lia).
    replace (b <? 224)%N with true by (symmetry; apply N.ltb_lt; lia).
    replace (128 <=? byte c2)%N with true by (symmetry; apply N.leb_le; lia).
    replace (byte c2 <? 192)%N with true by (symmetry; apply N.ltb_lt; lia).
    reflexivity.
  - replace (b <? 128)%N with false by (symmetry; apply N.ltb_ge; lia).
    replace (194 <=? b)%N with true by (symmetry; apply N.leb_le; lia).
    replace (b <? 224)%N with false by (symmetry; apply N.ltb_ge; lia).
    replace (224 <=? b)%N with true by (symmetry; apply N.leb_le; lia).
    replace (b <? 240)%N with true by (symmetry; apply N.ltb_lt; lia).
    cbn [andb]. cbv zeta.
    replace (128 <=? byte c2)%N with true by (symmetry; apply N.leb_le; lia).
    replace (byte c2 <? 192)%N with true by (symmetry; apply N.ltb_lt; lia).
    replace (128 <=? byte c3)%N with true by (symmetry; apply N.leb_le; lia).
    replace (byte c3 <? 192)%N with true by (symmetry; apply N.ltb_lt; lia).
    cbn [andb].
    match goal with
    | |- (if (2048 <=? ?x)%N then _ else _) = _ =>
        replace (2048 <=? x)%N with true by (symmetry; apply N.leb_le; lia)
    end.
    reflexivity.
  - replace (b <? 128)%N with false by (symmetry; apply N.ltb_ge; lia).
    replace (194 <=? b)%N with true by (symmetry; apply N.leb_le; lia).
    replace (b <? 224)%N with false by (symmetry; apply N.ltb_ge; lia).
    replace (224 <=? b)%N with true by (symmetry; apply N.leb_le; lia).
    replace (b <? 240)%N with false by (symmetry; apply N.ltb_ge; lia).
    replace (240 <=? b)%N with true by (symmetry; apply N.leb_le; lia).
    replace (b <? 245)%N with true by (symmetry; apply N.ltb_lt; lia).
    cbn [andb]. cbv zeta.
    replace (128 <=? byte c2)%N with true by (symmetry; apply N.leb_le; lia).
    replace (byte c2 <? 192)%N with true by (symmetry; apply N.ltb_lt; lia).
    replace (128 <=? byte c3)%N with true by (symmetry; apply N.leb_le; lia).
    replace (byte c3 <? 192)%N with true by (symmetry; apply N.ltb_lt; lia).
    replace (128 <=? byte c4)%N with true by (symmetry; apply N.leb_le; lia).
    replace (byte c4 <? 192)%N with true by (symmetry; apply N.ltb_lt; lia).
    cbn [andb].
    match goal with
    | |- (if ((65536 <=? ?x) && (?x <? 1114112))%N then _ else _) = _ =>
        replace (65536 <=? x)%N with true by (symmetry; apply N.leb_le; lia);
        replace (x <? 1114112)%N with true by (symmetry; apply N.ltb_lt; lia)
    end.
    reflexivity.
Qed.


Lemma head_cp_pair (b : N) (s : string) :
  head_cp b s = (fst (head_cp b s), snd (head_cp b s)).
Proof. now destruct (head_cp b s). Qed.

Lemma head_shape_app (b : N) (s y : string) (v : N) (k : nat) :
  head_shape b s v k -> head_shape b (s ++ y) v k.
Proof.
  intros H. destruct H; subst;
    [ now apply head_ascii | now apply head_stray
    | eapply head_two | eapply head_three | eapply head_four ];
    first [reflexivity | assumption].
Qed.

(** A code point that is read whole is read the same whatever follows. *)
Lemma head_cp_app_valid (b : N) (s y : string) (v : N) (k : nat) :
  head_cp b s = (v, k) -> (v < 1114112)%N -> head_cp b (s ++ y) = (v, k).
Proof.
  intros H Hv. apply head_shape_sound; [|exact Hv].
  apply head_shape_app. pose proof (head_cp_shape b s) as Hs.
  now rewrite H in Hs.
Qed.

Lemma head_cp_stray (b : N) (s : string) :
  (1114112 <= fst (head_cp b s))%N -> head_cp b s = (stray b, 0).
Proof.
  intros H. rewrite (head_cp_pair b s).
  destruct (head_cp_shape b s); first [reflexivity | lia].
Qed.

(** Nor does it change when what follows does not start with a
    continuation byte. *)
Lemma head_cp_app_stop (b : N) (s y : string) :
  clean_start y = true -> head_cp b (s ++ y) = head_cp b s.
Proof.
  intros Hy.
  assert (Hclean : forall c t, y = String c t -> (128 <= byte c < 192)%N -> False).
  { intros c t -> Hc. simpl in Hy. apply negb_true_iff in Hy.
    unfold continuation in Hy. apply andb_false_iff in Hy as [Hy|Hy];
      [apply N.leb_gt in Hy | apply N.ltb_ge in Hy]; lia. }
  destruct (N.lt_ge_cases (fst (head_cp b s)) 1114112) as [Hv|Hv].
  - rewrite (head_cp_pair b s). apply head_cp_app_valid; [apply head_cp_pair | exact Hv].
  - rewrite (head_cp_stray b s Hv).
    pose proof (head_cp_shape b (s ++ y)) as Hs.
    rewrite (head_cp_pair b (s ++ y)).
    assert (Hs' := head_cp_shape b s). rewrite (head_cp_stray b s Hv) in Hs'.
    cbn [fst snd] in Hs'.
    inversion Hs as [Hb E1 E2 | Hb E1 E2 | c2 t E Hb H2 E1 E2
                    | c2 c3 t E Hb H2 H3 Hmin E1 E2
                    | c2 c3 c4 t E Hb H2 H3 H4 Hrange E1 E2].
    + exfalso. rewrite <- E1 in *.
      assert (Hh := head_cp_ascii b s Hb). rewrite Hh in Hv. simpl in Hv. lia.
    + reflexivity.
    + exfalso. destruct s as [|d2 s]; simpl in E.
      * eapply Hclean; eassumption.
      * injection E as Ed _. subst d2.
        assert (Hh : head_cp b (String c2 s) = (((b - 192) * 64 + (byte c2 - 128))%N, 1)).
        { apply head_shape_sound; [eapply head_two; [reflexivity | lia ..] | lia]. }
        rewrite Hh in Hv. simpl in Hv. lia.
    + exfalso. destruct s as [|d2 [|d3 s]]; simpl in E.
      * eapply Hclean; eassumption.
      * injection E as _ E. eapply Hclean; eassumption.
      * injection E as Ed2 Ed3 _. subst d2 d3.
        assert (Hh : head_cp b (String c2 (String c3 s))
                     = (((b - 224) * 4096 + (byte c2 - 128) * 64 + (byte c3 - 128))%N, 2)).
        { apply head_shape_sound; [eapply head_three; [reflexivity | lia ..] | lia]. }
        rewrite Hh in Hv. simpl in Hv. lia.
    + exfalso. destruct s as [|d2 [|d3 [|d4 s]]]; simpl in E.
      * eapply Hclean; eassumption.
      * injection E as _ E. eapply Hclean; eassumption.
      * injection E as _ _ E. eapply Hclean; eassumption.
      * injection E as Ed2 Ed3 Ed4 _. subst d2 d3 d4.
        assert (Hh : head_cp b (String c2 (String c3 (String c4 s)))
                     = (((b - 240) * 262144 + (byte c2 - 128) * 4096
                         + (byte c3 - 128) * 64 + (byte c4 - 128))%N, 3)).
        { apply head_shape_sound; [eapply head_four; [reflexivity | lia ..] | lia]. }
        rewrite Hh in Hv. simpl in Hv. lia.
Qed.

(** Only an ASCII byte starts an ASCII code point. *)
Lemma head_cp_ge (b : N) (s : string) :
  (128 <= b)%N -> (128 <= fst (head_cp b s))%N.
Proof.
  intros Hb. destruct (head_cp_shape b s); unfold stray; lia.
Qed.

(** The bytes that were read are the encoding of the code point. *)
Lemma head_cp_encode (c : ascii) (s : string) :
  encode_cp (fst (head_cp (byte c) s)) ++ drop (snd (head_cp (byte c) s)) s
  = String c s.
Proof.
  pose proof (byte_lt c) as Hc.
  destruct (head_cp_shape (byte c) s)
    as [Hb | Hb | c2 t E Hb H2 | c2 c3 t E Hb H2 H3 Hmin
       | c2 c3 c4 t E Hb H2 H3 H4 Hrange]; unfold encode_cp, stray.
  - replace (byte c <? 128)%N with true by (symmetry; apply N.ltb_lt; lia).
    now rewrite of_byte_byte.
  - replace (1114112 + byte c <? 128)%N with false by (symmetry; apply N.ltb_ge; lia).
    replace (1114112 + byte c <? 2048)%N with false by (symmetry; apply N.ltb_ge; lia).
    replace (1114112 + byte c <? 65536)%N with false by (symmetry; apply N.ltb_ge; lia).
    replace (1114112 + byte c <? 1114112)%N with false by (symmetry; apply N.ltb_ge; lia).
    replace (128 + (1114112 + byte c - 1114112) mod 128)%N with (byte c).
    + now rewrite of_byte_byte.
    + replace (1114112 + byte c - 1114112)%N with (byte c) by lia.
      assert (E : (byte c mod 128 = byte c - 128)%N)
        by (symmetry; apply N.mod_unique with (q := 1%N); lia).
      rewrite E. lia.
  - subst s. set (v := ((byte c - 192) * 64 + (byte c2 - 128))%N).
    assert (E1 : (v / 64 = byte c - 192)%N)
      by (symmetry; apply N.div_unique with (r := (byte c2 - 128)%N); subst v; lia).
    assert (E2 : (v mod 64 = byte c2 - 128)%N)
      by (symmetry; apply N.mod_unique with (q := (byte c - 192)%N); subst v; lia).
    replace (v <? 128)%N with false by (symmetry; apply N.ltb_ge; subst v; lia).
    replace (v <? 2048)%N with true by (symmetry; apply N.ltb_lt; subst v; lia).
    rewrite E1, E2.
    replace (192 + (byte c - 192))%N with (byte c) by lia.
    replace (128 + (byte c2 - 128))%N with (byte c2) by lia.
    now rewrite !of_byte_byte.
  - subst s.
    set (v := ((byte c - 224) * 4096 + (byte c2 - 128) * 64 + (byte c3 - 128))%N) in *.
    assert (E1 : (v / 4096 = byte c - 224)%N)
      by (symmetry;
          apply N.div_unique with (r := ((byte c2 - 128) * 64 + (byte c3 - 128))%N);
          subst v; lia).
    assert (E2 : (v / 64 = (byte c - 224) * 64 + (byte c2 - 128))%N)
      by (symmetry; apply N.div_unique with (r := (byte c3 - 128)%N); subst v; lia).
    assert (E3 : (v mod 64 = byte c3 - 128)%N)
      by (symmetry;
          apply N.mod_unique with (q := ((byte c - 224) * 64 + (byte c2 - 128))%N);
          subst v; lia).
    assert (E4 : (((byte c - 224) * 64 + (byte c2 - 128)) mod 64 = byte c2 - 128)%N)
      by (symmetry; apply N.mod_unique with (q := (byte c - 224)%N); lia).
    replace (v <? 128)%N with false by (symmetry; apply N.ltb_ge; lia).
    replace (v <? 2048)%N with false by (symmetry; apply N.ltb_ge; lia).
    replace (v <? 65536)%N with true by (symmetry; apply N.ltb_lt; subst v; lia).
    rewrite E1, E2, E3, E4.
    replace (224 + (byte c - 224))%N with (byte c) by lia.
    replace (128 + (byte c2 - 128))%N with (byte c2) by lia.
    replace (128 + (byte c3 - 128))%N with (byte c3) by lia.
    now rewrite !of_byte_byte.
  - subst s.
    set (v := ((byte c - 240) * 262144 + (byte c2 - 128) * 4096
               + (byte c3 - 128) * 64 + (byte c4 - 128))%N) in *.
    assert (E1 : (v / 262144 = byte c - 240)%N)
      by (symmetry;
          apply N.div_unique
            with (r := ((byte c2 - 128) * 4096 + (byte c3 - 128) * 64
                        + (byte c4 - 128))%N);
          subst v; lia).
    assert (E2 : (v / 4096 = (byte c - 240) * 64 + (byte c2 - 128))%N)
      by (symmetry;
          apply N.div_unique with (r := ((byte c3 - 128) * 64 + (byte c4 - 128))%N);
          subst v; lia).
    assert (E3 : (v / 64 = (byte c - 240) * 4096 + (byte c2 - 128) * 64
                           + (byte c3 - 128))%N)
      by (symmetry; apply N.div_unique with (r := (byte c4 - 128)%N); subst v; lia).
    assert (E4 : (v mod 64 = byte c4 - 128)%N)
      by (symmetry;
          apply N.mod_unique
            with (q := ((byte c - 240) * 4096 + (byte c2 - 128) * 64
                        + (byte c3 - 128))%N);
          subst v; lia).
    assert (E5 : (((byte c - 240) * 64 + (byte c2 - 128)) mod 64 = byte c2 - 128)%N)
      by (symmetry; apply N.mod_unique with (q := (byte c - 240)%N); lia).
    assert (E6 : (((byte c - 240) * 4096 + (byte c2 - 128) * 64 + (byte c3 - 128))
                  mod 64 = byte c3 - 128)%N)
      by (symmetry;
          apply N.mod_unique with (q := ((byte c - 240) * 64 + (byte c2 - 128))%N);
          lia).
    replace (v <? 128)%N with false by (symmetry; apply N.ltb_ge; lia).
    replace (v <? 2048)%N with false by (symmetry; apply N.ltb_ge; lia).
    replace (v <? 65536)%N with false by (symmetry; apply N.ltb_ge; lia).
    replace (v <? 1114112)%N with true by (symmetry; apply N.ltb_lt; lia).
    rewrite E1, E2, E3, E4, E5, E6.
    replace (240 + (byte c - 240))%N with (byte c) by lia.
    replace (128 + (byte c2 - 128))%N with (byte c2) by lia.
    replace (128 + (byte c3 - 128))%N with (byte c3) by lia.
    replace (128 + (byte c4 - 128))%N with (byte c4) by lia.
    now rewrite !of_byte_byte.
Qed.


Lemma decode_skip_drop (k : nat) (s : string) :
  decode_skip k s = decode (drop k s).
Proof.
  revert k. induction s as [|c s IH]; intros [|k]; try reflexivity.
  simpl. apply IH.
Qed.

Lemma decode_cons (c : ascii) (s : string) :
  decode (String c s)
  = fst (head_cp (byte c) s) :: decode (drop (snd (head_cp (byte c) s)) s).
Proof.
  unfold decode at 1. cbn [decode_skip].
  destruct (head_cp (byte c) s) as [v k]. cbn [fst snd].
  now rewrite decode_skip_drop.
Qed.

Lemma drop_shorter (c : ascii) (s : string) :
  String.length (drop (snd (head_cp (byte c) s)) s) < String.length (String c s).
Proof. rewrite length_drop. simpl. lia. Qed.

Lemma encode_app (a b : list N) : encode (a ++ b)%list = encode a ++ encode b.
Proof.
  induction a as [|c a IH]; [reflexivity|].
  simpl. now rewrite IH, append_assoc.
Qed.

(** Decoding loses nothing. *)
Lemma encode_decode (s : string) : encode (decode s) = s.
Proof.
  induction s as [s IH] using string_length_ind.
  destruct s as [|c s]; [reflexivity|].
  rewrite decode_cons. cbn [encode].
  rewrite IH by apply drop_shorter. apply head_cp_encode.
Qed.

Lemma clean_start_app (x y : string) :
  x <> "" -> clean_start (x ++ y) = clean_start x.
Proof. destruct x; [congruence | reflexivity]. Qed.

(** Text that follows at a code point boundary is decoded on its own. *)
Lemma decode_app_stop (x y : string) :
  clean_start y = true -> decode (x ++ y) = (decode x ++ decode y)%list.
Proof.
  intros Hy. induction x as [x IH] using string_length_ind.
  destruct x as [|c x]; [reflexivity|].
  change (String c x ++ y) with (String c (x ++ y)).
  rewrite !decode_cons, (head_cp_app_stop _ _ _ Hy).
  rewrite drop_app by apply head_cp_le.
  rewrite IH by apply drop_shorter. reflexivity.
Qed.

(** So is text that follows well-formed text. *)
Lemma decode_app_valid (x y : string) :
  Forall (fun v => (v < 1114112)%N) (decode x) ->
  decode (x ++ y) = (decode x ++ decode y)%list.
Proof.
  induction x as [x IH] using string_length_ind.
  destruct x as [|c x]; [reflexivity|].
  change (String c x ++ y) with (String c (x ++ y)).
  rewrite !decode_cons. intros H. inversion H as [|v l Hv Hl]; subst.
  rewrite (head_cp_app_valid _ _ y _ _ (head_cp_pair _ _) Hv). cbn [fst snd].
  rewrite drop_app by apply head_cp_le.
  rewrite IH by (apply drop_shorter || assumption). reflexivity.
Qed.

(** ASCII text is its own list of code points. *)
Lemma decode_ascii (c : ascii) (s : string) :
  (byte c < 128)%N -> decode (String c s) = byte c :: decode s.
Proof. intros H. rewrite decode_cons, (head_cp_ascii _ _ H). reflexivity. Qed.

End Utf8.

(** ** Whitespace: [strip] and [split] *)

Section Whitespace.

Lemma take_drop (n : nat) (s : string) : take n s ++ drop n s = s.
Proof.
  revert s. induction n as [|n IH]; intros [|c s]; simpl; try reflexivity.
  now rewrite IH.
Qed.

Lemma isspace_valid (v : N) : isspace v = true -> (v < 1114112)%N.
Proof.
  unfold isspace. rewrite existsb_exists. intros (x & Hin & Heq).
  apply N.eqb_eq in Heq. subst x. unfold whitespace in Hin. simpl in Hin.
  repeat (destruct Hin as [<- | Hin]; [lia|]). contradiction.
Qed.

Lemma ws_len_cons (c : ascii) (s : string) :
  ws_len (String c s)
  = if isspace (fst (head_cp (byte c) s)) then S (snd (head_cp (byte c) s)) else 0.
Proof. unfold ws_len. now destruct (head_cp (byte c) s). Qed.

Lemma ws_len_pos (s : string) (k : nat) :
  ws_len s = S k ->
  exists c s', s = String c s' /\ snd (head_cp (byte c) s') = k /\
               isspace (fst (head_cp (byte c) s')) = true.
Proof.
  destruct s as [|c s]; [discriminate|]. rewrite ws_len_cons.
  destruct (isspace _) eqn:E; [|discriminate].
  intros [= <-]. exists c, s. auto.
Qed.

Lemma ws_len_le (s : string) : ws_len s <= String.length s.
Proof.
  destruct s as [|c s]; [simpl; lia|]. rewrite ws_len_cons.
  destruct (isspace _); simpl; [|lia].
  pose proof (head_cp_le (byte c) s). lia.
Qed.

Lemma ws_len_clean (s : string) (k : nat) : ws_len s = S k -> clean_start s = true.
Proof.
  intros H. apply ws_len_pos in H as (c & s' & -> & _ & Hsp).
  simpl. destruct (continuation (byte c)) eqn:E; [|reflexivity].
  rewrite (head_cp_continuation _ s' E) in Hsp. apply isspace_valid in Hsp.
  simpl in Hsp. unfold stray in Hsp. lia.
Qed.

(** A whitespace code point at the start stays one whatever follows. *)
Lemma ws_len_app_valid (s y : string) (k : nat) :
  ws_len s = S k -> ws_len (s ++ y) = S k.
Proof.
  intros H. apply ws_len_pos in H as (c & s' & -> & Hk & Hsp).
  change (String c s' ++ y) with (String c (s' ++ y)). rewrite ws_len_cons.
  rewrite (head_cp_app_valid _ _ y _ _ (head_cp_pair _ _) (isspace_valid _ Hsp)).
  cbn [fst snd]. now rewrite Hsp, Hk.
Qed.

Lemma ws_len_app_stop (s y : string) :
  s <> "" -> clean_start y = true -> ws_len (s ++ y) = ws_len s.
Proof.
  intros Hs Hy. destruct s as [|c s]; [congruence|].
  change (String c s ++ y) with (String c (s ++ y)).
  now rewrite !ws_len_cons, (head_cp_app_stop _ _ _ Hy).
Qed.

Lemma ws_len_app_zero (s y : string) :
  s <> "" -> ws_len (s ++ y) = 0 -> ws_len s = 0.
Proof.
  intros Hs H. destruct (ws_len s) as [|k] eqn:E; [reflexivity|].
  rewrite (ws_len_app_valid _ y _ E) in H. discriminate.
Qed.

(** The bytes of the whitespace code point at the start are one on their
    own. *)
Lemma ws_len_take (s : string) (k : nat) :
  ws_len s = S k -> ws_len (take (S k) s) = S k.
Proof.
  intros H. apply ws_len_pos in H as (c & s' & -> & Hk & Hsp).
  cbn [take]. rewrite ws_len_cons.
  assert (Hh : head_cp (byte c) (take k s')
               = (fst (head_cp (byte c) s'), k)).
  { apply head_shape_sound; [|now apply isspace_valid].
    pose proof (head_cp_shape (byte c) s') as Hs. rewrite Hk in Hs.
    destruct Hs; subst;
      [ now apply head_ascii | now apply head_stray
      | eapply head_two | eapply head_three | eapply head_four ];
      first [reflexivity | assumption]. }
  rewrite Hh. cbn [fst snd]. now rewrite Hsp.
Qed.

Lemma ws_ind (P : string -> Prop) :
  (forall s, ws_len s = 0 -> P s) ->
  (forall s k, ws_len s = S k -> P (drop (S k) s) -> P s) ->
  forall s, P s.
Proof.
  intros H0 HS s. induction s as [s IH] using string_length_ind.
  destruct (ws_len s) as [|k] eqn:E; [now apply H0|].
  apply (HS s k E). apply IH. rewrite length_drop.
  pose proof (ws_len_le s). lia.
Qed.

(** *** [lstrip] *)

Lemma lstrip_skip_drop (k : nat) (s : string) :
  lstrip_skip k s = lstrip (drop k s).
Proof.
  revert k. induction s as [|c s IH]; intros [|k]; try reflexivity.
  simpl. apply IH.
Qed.

Lemma lstrip_eq (s : string) :
  lstrip s = match ws_len s with
             | O => s
             | S k => lstrip (drop (S k) s)
             end.
Proof.
  destruct s as [|c s]; [reflexivity|].
  unfold lstrip at 1. cbn [lstrip_skip].
  destruct (ws_len (String c s)); [reflexivity|].
  cbn [drop]. apply lstrip_skip_drop.
Qed.

Lemma lstrip_zero (s : string) : ws_len s = 0 -> lstrip s = s.
Proof. intros H. now rewrite lstrip_eq, H. Qed.

Lemma lstrip_pos (s : string) (k : nat) :
  ws_len s = S k -> lstrip s = lstrip (drop (S k) s).
Proof. intros H. now rewrite lstrip_eq, H. Qed.

Lemma ws_len_lstrip (s : string) : ws_len (lstrip s) = 0.
Proof.
  induction s as [s H | s k H IH] using ws_ind.
  - now rewrite lstrip_zero.
  - now rewrite (lstrip_pos _ _ H).
Qed.

Lemma lstrip_idem (s : string) : lstrip (lstrip s) = lstrip s.
Proof. apply lstrip_zero, ws_len_lstrip. Qed.

Lemma all_space_true (s : string) : all_space s = true <-> lstrip s = "".
Proof. unfold all_space. apply String.eqb_eq. Qed.

Lemma all_space_false (s : string) : all_space s = false <-> lstrip s <> "".
Proof. unfold all_space. apply String.eqb_neq. Qed.

Lemma all_space_lstrip (s : string) : all_space (lstrip s) = all_space s.
Proof. unfold all_space. now rewrite lstrip_idem. Qed.

Lemma all_space_pos (s : string) (k : nat) :
  ws_len s = S k -> all_space s = all_space (drop (S k) s).
Proof. intros H. unfold all_space. now rewrite (lstrip_pos _ _ H). Qed.

Lemma all_space_zero (s : string) :
  ws_len s = 0 -> all_space s = true -> s = "".
Proof. intros H Hs. apply all_space_true in Hs. now rewrite lstrip_zero in Hs. Qed.

Lemma all_space_clean (s : string) : all_space s = true -> clean_start s = true.
Proof.
  intros H. destruct (ws_len s) as [|k] eqn:E.
  - now rewrite (all_space_zero _ E H).
  - now apply ws_len_clean in E.
Qed.

Lemma drop_app_pos (s y : string) (k : nat) :
  ws_len s = S k -> drop (S k) (s ++ y) = drop (S k) s ++ y.
Proof.
  intros H. apply drop_app. rewrite <- H. apply ws_len_le.
Qed.

Lemma lstrip_app_all_space (a s : string) :
  all_space a = true -> lstrip (a ++ s) = lstrip s.
Proof.
  induction a as [a H | a k H IH] using ws_ind; intros Ha.
  - now rewrite (all_space_zero _ H Ha).
  - rewrite (lstrip_pos _ _ (ws_len_app_valid _ s _ H)), (drop_app_pos _ _ _ H).
    apply IH. now rewrite <- (all_space_pos _ _ H).
Qed.

Lemma lstrip_app_stop (s b : string) :
  clean_start b = true ->
  lstrip (s ++ b) = if all_space s then lstrip b else lstrip s ++ b.
Proof.
  intros Hb. induction s as [s H | s k H IH] using ws_ind.
  - destruct s as [|c s]; [reflexivity|].
    assert (Hne : String c s <> "") by discriminate.
    rewrite lstrip_zero by (now rewrite ws_len_app_stop).
    rewrite (proj2 (all_space_false _)) by (now rewrite lstrip_zero).
    now rewrite lstrip_zero.
  - rewrite (lstrip_pos _ _ (ws_len_app_valid _ b _ H)), (drop_app_pos _ _ _ H).
    now rewrite IH, <- (all_space_pos _ _ H), <- (lstrip_pos _ _ H).
Qed.

Lemma all_space_app (a b : string) :
  clean_start b = true -> all_space (a ++ b) = all_space a && all_space b.
Proof.
  intros Hb. unfold all_space at 1. rewrite (lstrip_app_stop _ _ Hb).
  destruct (all_space a) eqn:E; [reflexivity|].
  apply all_space_false in E. apply String.eqb_neq. now apply append_not_nil_l.
Qed.

Lemma lstrip_decompose (s : string) :
  exists a, s = a ++ lstrip s /\ all_space a = true.
Proof.
  induction s as [s H | s k H IH] using ws_ind.
  - exists "". now rewrite lstrip_zero.
  - destruct IH as (a & Ha & Hsp). exists (take (S k) s ++ a). split.
    + rewrite append_assoc, (lstrip_pos _ _ H), <- Ha. symmetry. apply take_drop.
    + rewrite all_space_app by now apply all_space_clean.
      rewrite Hsp, andb_true_r. apply all_space_true.
      rewrite (lstrip_pos _ _ (ws_len_take _ _ H)).
      assert (E : drop (S k) (take (S k) s) = "").
      { clear. revert s. induction (S k) as [|n IH]; intros [|c s]; simpl; auto. }
      now rewrite E.
Qed.

(** *** [rstrip] and [strip] *)

Lemma rstrip_all_space (s : string) : all_space s = true -> rstrip s = "".
Proof. destruct s; [reflexivity|]. intros H. cbn [rstrip]. now rewrite H. Qed.

Lemma rstrip_nil (s : string) : rstrip s = "" -> all_space s = true.
Proof.
  destruct s as [|c s]; [reflexivity|]. cbn [rstrip].
  destruct (all_space (String c s)); [reflexivity | discriminate].
Qed.

Lemma rstrip_app_space (s b : string) :
  all_space b = true -> rstrip (s ++ b) = rstrip s.
Proof.
  intros Hb. induction s as [|c s IH].
  - now apply rstrip_all_space.
  - change (String c s ++ b) with (String c (s ++ b)). cbn [rstrip].
    change (String c (s ++ b)) with (String c s ++ b).
    rewrite all_space_app by now apply all_space_clean.
    rewrite Hb, andb_true_r. now rewrite IH.
Qed.

Lemma rstrip_decompose (s : string) :
  exists b, s = rstrip s ++ b /\ all_space b = true.
Proof.
  induction s as [|c s IH]; [now exists ""|].
  cbn [rstrip]. destruct (all_space (String c s)) eqn:E.
  - now exists (String c s).
  - destruct IH as (b & Hb & Hsp). exists b. split; [|exact Hsp].
    simpl. now rewrite <- Hb.
Qed.

Lemma rstrip_idem (s : string) : rstrip (rstrip s) = rstrip s.
Proof.
  induction s as [|c s IH]; [reflexivity|].
  cbn [rstrip]. destruct (all_space (String c s)) eqn:E; [reflexivity|].
  cbn [rstrip].
  assert (E' : all_space (String c (rstrip s)) = false).
  { destruct (rstrip_decompose s) as (b & Hb & Hsp).
    rewrite Hb in E. change (String c (rstrip s ++ b)) with (String c (rstrip s) ++ b) in E.
    rewrite all_space_app in E by now apply all_space_clean.
    now rewrite Hsp, andb_true_r in E. }
  now rewrite E', IH.
Qed.

Lemma lstrip_rstrip_lstrip (s : string) :
  lstrip (rstrip (lstrip s)) = rstrip (lstrip s).
Proof.
  pose proof (ws_len_lstrip s) as H.
  destruct (rstrip_decompose (lstrip s)) as (b & Hb & _).
  destruct (rstrip (lstrip s)) as [|c t] eqn:E; [reflexivity|].
  apply lstrip_zero. apply ws_len_app_zero with (y := b); [discriminate|].
  now rewrite <- Hb.
Qed.

Lemma strip_idem (s : string) : strip (strip s) = strip s.
Proof.
  unfold strip. now rewrite lstrip_rstrip_lstrip, rstrip_idem.
Qed.

(** A text is its trimmed text between two runs of whitespace. *)
Lemma strip_decompose (s : string) :
  exists a b, s = a ++ strip s ++ b /\ all_space a = true /\ all_space b = true.
Proof.
  destruct (lstrip_decompose s) as (a & Ha & Hsa).
  destruct (rstrip_decompose (lstrip s)) as (b & Hb & Hsb).
  exists a, b. unfold strip. now rewrite <- Hb, <- Ha.
Qed.

(** Surrounding whitespace does not change [strip]. *)
Lemma strip_padding (a s b : string) :
  all_space a = true -> all_space b = true -> strip (a ++ s ++ b) = strip s.
Proof.
  intros Ha Hb. unfold strip. rewrite (lstrip_app_all_space _ _ Ha).
  rewrite lstrip_app_stop by now apply all_space_clean.
  destruct (all_space s) eqn:Hs.
  - apply all_space_true in Hs, Hb. now rewrite Hs, Hb.
  - now apply rstrip_app_space.
Qed.

Lemma strip_nil_iff (s : string) : strip s = "" <-> all_space s = true.
Proof.
  unfold strip. split.
  - intros H. apply rstrip_nil in H. now rewrite all_space_lstrip in H.
  - intros H. apply rstrip_all_space. now rewrite all_space_lstrip.
Qed.

(** *** [split] *)

Lemma split_skip_drop (k : nat) (s : string) :
  split_skip k "" s = split (drop k s).
Proof.
  revert k. induction s as [|c s IH]; intros [|k]; try reflexivity.
  simpl. apply IH.
Qed.

Lemma split_cons (cur : string) (c : ascii) (s : string) :
  split_skip 0 cur (String c s)
  = match ws_len (String c s) with
    | S k => if cur =? "" then split (drop k s) else cur :: split (drop k s)
    | O => split_skip 0 (cur ++ String c "") s
    end.
Proof.
  cbn [split_skip]. destruct (ws_len (String c s)); [reflexivity|].
  now rewrite split_skip_drop.
Qed.

Lemma ws_len_space (s : string) : ws_len (String " " s) = 1.
Proof.
  rewrite ws_len_cons, head_cp_ascii by (vm_compute; reflexivity). reflexivity.
Qed.

Lemma split_skip_word (w cur rest : string) :
  no_space w = true -> clean_start rest = true ->
  split_skip 0 cur (w ++ rest) = split_skip 0 (cur ++ w) rest.
Proof.
  intros Hw Hr. revert cur. induction w as [|c w IH]; intros cur.
  - now rewrite append_nil_r.
  - cbn [no_space] in Hw. apply andb_true_iff in Hw as [Hc Hw].
    apply Nat.eqb_eq in Hc.
    change (String c w ++ rest) with (String c (w ++ rest)).
    rewrite split_cons.
    change (String c (w ++ rest)) with (String c w ++ rest).
    rewrite ws_len_app_stop by (discriminate || assumption).
    rewrite Hc, (IH Hw). now rewrite append_assoc.
Qed.

Lemma split_join (ws : list string) :
  forallb is_word ws = true -> split (join " " ws) = ws.
Proof.
  unfold split. induction ws as [|w ws IH]; [reflexivity|].
  intros H. simpl in H. apply andb_true_iff in H as [Hw Hws].
  unfold is_word in Hw. apply andb_true_iff in Hw as [Hne Hns].
  unfold truthy in Hne. apply negb_true_iff in Hne.
  specialize (IH Hws).
  destruct ws as [|w' ws'].
  - cbn [join]. rewrite <- (append_nil_r w) at 1.
    rewrite split_skip_word by (assumption || reflexivity).
    simpl. now rewrite Hne.
  - change (join " " (w :: w' :: ws')) with (w ++ " " ++ join " " (w' :: ws')).
    rewrite split_skip_word by (assumption || reflexivity).
    change ("" ++ w) with w.
    change (" " ++ join " " (w' :: ws'))
      with (String " "%char (join " " (w' :: ws'))).
    rewrite split_cons, ws_len_space, Hne. cbn [drop].
    unfold split. now rewrite IH.
Qed.

Lemma no_space_suffixes (w : string) :
  (forall a t, w = a ++ t -> t <> "" -> ws_len t = 0) -> no_space w = true.
Proof.
  induction w as [|c w IH]; intros H; [reflexivity|].
  cbn [no_space]. apply andb_true_iff. split.
  - apply Nat.eqb_eq. apply (H "" (String c w)); [reflexivity | discriminate].
  - apply IH. intros a t -> Ht. apply (H (String c a) t); [reflexivity | exact Ht].
Qed.

Lemma app_snoc_cases (cur a t : string) (c : ascii) :
  cur ++ String c "" = a ++ t -> t <> "" ->
  exists t0, t = t0 ++ String c "" /\ cur = a ++ t0.
Proof.
  revert a. induction cur as [|d cur IH]; intros a H Ht.
  - destruct a as [|x a]; simpl in H.
    + exists "". now subst t.
    + injection H as _ H. destruct a; [simpl in H; now subst t | discriminate].
  - destruct a as [|x a]; simpl in H.
    + exists (String d cur). now subst t.
    + injection H as -> H. destruct (IH a H Ht) as (t0 & Et & Ec).
      exists t0. split; [exact Et|]. simpl. now rewrite Ec.
Qed.

(** The words of [split] are non-empty and free of whitespace. *)
Lemma split_skip_words (s cur : string) :
  (forall a t, cur = a ++ t -> t <> "" -> ws_len (t ++ s) = 0) ->
  Forall (fun w => is_word w = true) (split_skip 0 cur s).
Proof.
  revert cur. induction s as [s IH] using string_length_ind. intros cur Hinv.
  assert (Hcur : cur <> "" -> is_word cur = true).
  { intros Hne. unfold is_word. apply andb_true_iff. split.
    - now apply truthy_true.
    - apply no_space_suffixes. intros a t E Ht.
      apply ws_len_app_zero with (y := s); [exact Ht | now apply (Hinv a)]. }
  destruct s as [|c s].
  - simpl. destruct (String.eqb_spec cur ""); constructor; auto.
  - rewrite split_cons. destruct (ws_len (String c s)) as [|k] eqn:E.
    + apply IH; [simpl; lia|]. intros a t Hat Ht.
      destruct (app_snoc_cases _ _ _ _ Hat Ht) as (t0 & -> & ->).
      rewrite append_assoc. change (String c "" ++ s) with (String c s).
      destruct t0 as [|d t0]; [exact E|].
      apply (Hinv a); [reflexivity | discriminate].
    + assert (Hrest : Forall (fun w => is_word w = true) (split (drop k s))).
      { apply IH.
        - rewrite length_drop. simpl. lia.
        - intros a t Hat Ht. destruct a; [simpl in Hat; congruence | discriminate]. }
      destruct (String.eqb_spec cur ""); [exact Hrest|].
      constructor; auto.
Qed.

Lemma split_words (s : string) : forallb is_word (split s) = true.
Proof.
  apply forallb_forall. apply Forall_forall. apply split_skip_words.
  intros a t Hat Ht. destruct a; [simpl in Hat; congruence | discriminate].
Qed.

Lemma split_all_space (s : string) : all_space s = true -> split s = [].
Proof.
  induction s as [s H | s k H IH] using ws_ind; intros Hs.
  - now rewrite (all_space_zero _ H Hs).
  - rewrite (all_space_pos _ _ H) in Hs.
    destruct s as [|c s]; [discriminate|].
    unfold split. rewrite split_cons, H. cbn [String.eqb]. now apply IH.
Qed.

End Whitespace.

(** ** Letter case: [lower] *)

Section LetterCase.

Lemma lower_from_plain (before l : list N) :
  Forall (fun c => c <> 931%N) l ->
  lower_from before l = flat_map lower_full l.
Proof.
  revert before. induction l as [|c l IH]; intros before H; [reflexivity|].
  inversion H as [|? ? Hc Hl]; subst. cbn [lower_from flat_map].
  apply N.eqb_neq in Hc. now rewrite Hc, IH.
Qed.

Lemma encode_flat_map (f : N -> list N) (l : list N) :
  (forall c, In c l -> exists d, f c = [d]) ->
  encode (flat_map f l) = encode (map (fun c => hd 0%N (f c)) l).
Proof.
  induction l as [|c l IH]; intros H; [reflexivity|].
  cbn [flat_map map]. rewrite encode_app.
  destruct (H c (or_introl eq_refl)) as [d Hd]. rewrite Hd. cbn [hd encode].
  rewrite append_nil_r, IH; [reflexivity|]. intros x Hx. apply H. now right.
Qed.

(** [lower] on Latin-1: the capitals move 32 up, nothing else moves. *)
Lemma lower_full_latin (a : ascii) :
  lower_full (byte a) = [if capital (byte a) then (byte a + 32)%N else byte a].
Proof.
  destruct a as [[] [] [] [] [] [] [] []]; vm_compute; reflexivity.
Qed.

Lemma capital_byte (c : N) : capital c = true -> c = byte (of_byte c).
Proof.
  intros H. symmetry. apply byte_of_byte. unfold capital in H.
  repeat match goal with
         | H : (_ || _)%bool = true |- _ => apply orb_true_iff in H as [H|H]
         | H : (_ && _)%bool = true |- _ => apply andb_true_iff in H as [? ?]
         | H : (_ <=? _)%N = true |- _ => apply N.leb_le in H
         end; lia.
Qed.

Lemma same_letter_lower (c d : N) :
  same_letter c d = true -> lower_case d = true ->
  lower_full c = [d] /\ c <> 931%N /\ (c < 1114112)%N.
Proof.
  unfold same_letter, lower_case. intros H Hd.
  repeat (apply andb_true_iff in Hd as [Hd ?]).
  repeat match goal with
         | H : negb _ = true |- _ => apply negb_true_iff in H
         | H : (_ =? _)%N = true |- _ => apply N.eqb_eq in H
         | H : (_ =? _)%N = false |- _ => apply N.eqb_neq in H
         | H : (_ <? _)%N = true |- _ => apply N.ltb_lt in H
         end.
  apply orb_true_iff in H as [H|H].
  - apply N.eqb_eq in H. subst d. repeat split; try assumption.
    unfold lower_full.
    replace (c =? 304)%N with false by (symmetry; now apply N.eqb_neq).
    congruence.
  - apply andb_true_iff in H as [Hc H]. apply N.eqb_eq in H. subst d.
    pose proof (capital_byte c Hc) as E.
    pose proof (byte_lt (of_byte c)) as Hlt. rewrite <- E in Hlt.
    repeat split; try lia.
    rewrite E, lower_full_latin, <- E. now rewrite Hc.
Qed.

Lemma same_letters_list_lower (l m : list N) (before : list N) :
  same_letters_list l m = true -> forallb lower_case m = true ->
  lower_from before l = m /\ Forall (fun v => (v < 1114112)%N) l /\
  Forall (fun c => c <> 931%N) l /\ flat_map lower_full l = m /\
  List.length l = List.length m.
Proof.
  revert m before. induction l as [|c l IH]; intros [|d m] before H Hm;
    try discriminate.
  - repeat split; constructor.
  - cbn [same_letters_list] in H. apply andb_true_iff in H as [Hcd H].
    cbn [forallb] in Hm. apply andb_true_iff in Hm as [Hd Hm].
    destruct (same_letter_lower _ _ Hcd Hd) as (Hl & Hne & Hv).
    destruct (IH m (c :: before) H Hm) as (E & HF & HG & Efm & Elen).
    cbn [lower_from flat_map List.length]. rewrite E, Efm, Hl.
    replace (c =? 931)%N with false by (symmetry; now apply N.eqb_neq).
    repeat split; try (constructor; assumption); try reflexivity.
    now rewrite Elen.
Qed.

(** A text that is a lower-case text up to letter case is lowered to
    it. *)
Lemma lower_same_letters (t p : string) :
  same_letters t p = true -> in_lower_case p = true -> lower t = p.
Proof.
  intros H Hp. unfold lower.
  destruct (same_letters_list_lower _ _ [] H Hp) as (E & _).
  rewrite E. apply encode_decode.
Qed.

Lemma len_same_letters (t p : string) :
  same_letters t p = true -> len t = len p.
Proof.
  unfold same_letters, len. generalize (decode t) (decode p).
  induction l as [|c l IH]; intros [|d m] H; try discriminate; [reflexivity|].
  cbn [same_letters_list] in H. apply andb_true_iff in H as [_ H].
  simpl. now rewrite (IH m H).
Qed.

Lemma isspace_cases (v : N) : isspace v = true -> In v whitespace.
Proof.
  unfold isspace. rewrite existsb_exists. intros (x & Hin & Heq).
  apply N.eqb_eq in Heq. now subst x.
Qed.

Lemma isspace_lower (v : N) :
  isspace v = true -> lower_full v = [v] /\ v <> 931%N.
Proof.
  intros H. apply isspace_cases in H. unfold whitespace in H. simpl in H.
  repeat (destruct H as [<- | H]; [split; [vm_compute; reflexivity | discriminate]|]).
  contradiction.
Qed.

Lemma decode_pos (s : string) (k : nat) :
  ws_len s = S k ->
  exists v, isspace v = true /\ decode s = v :: decode (drop (S k) s).
Proof.
  intros H. apply ws_len_pos in H as (c & s' & -> & Hk & Hsp).
  exists (fst (head_cp (byte c) s')). split; [exact Hsp|].
  rewrite decode_cons, Hk. reflexivity.
Qed.

Lemma decode_all_space (t : string) :
  all_space t = true -> Forall (fun v => isspace v = true) (decode t).
Proof.
  induction t as [t H | t k H IH] using ws_ind; intros Ht.
  - rewrite (all_space_zero _ H Ht). constructor.
  - destruct (decode_pos _ _ H) as (v & Hv & ->).
    constructor; [exact Hv|]. apply IH. now rewrite <- (all_space_pos _ _ H).
Qed.

Lemma lower_from_space (before l : list N) :
  Forall (fun v => isspace v = true) l -> lower_from before l = l.
Proof.
  revert before. induction l as [|v l IH]; intros before H; [reflexivity|].
  inversion H as [|? ? Hv Hl]; subst. cbn [lower_from].
  destruct (isspace_lower _ Hv) as [E Hne].
  replace (v =? 931)%N with false by (symmetry; now apply N.eqb_neq).
  now rewrite E, IH.
Qed.

(** Whitespace is its own lower case. *)
Lemma lower_all_space (t : string) : all_space t = true -> lower t = t.
Proof.
  intros H. unfold lower. rewrite lower_from_space by now apply decode_all_space.
  apply encode_decode.
Qed.

Lemma Forall_space_valid (l : list N) :
  Forall (fun v => isspace v = true) l -> Forall (fun v => (v < 1114112)%N) l.
Proof. apply Forall_impl. intros v. apply isspace_valid. Qed.

Lemma Forall_space_plain (l : list N) :
  Forall (fun v => isspace v = true) l -> Forall (fun c => c <> 931%N) l.
Proof. apply Forall_impl. intros v H. now apply isspace_lower in H. Qed.

Lemma flat_map_space (l : list N) :
  Forall (fun v => isspace v = true) l -> flat_map lower_full l = l.
Proof.
  induction 1 as [|v l Hv Hl IH]; [reflexivity|].
  cbn [flat_map]. destruct (isspace_lower _ Hv) as [E _]. now rewrite E, IH.
Qed.

(** Lower-casing a padded text lowers the text and keeps the padding. *)
Lemma lower_padded (a t b p : string) :
  all_space a = true -> all_space b = true ->
  same_letters t p = true -> in_lower_case p = true ->
  lower (a ++ t ++ b) = a ++ p ++ b.
Proof.
  intros Ha Hb Ht Hp.
  pose proof (decode_all_space _ Ha) as Hda.
  pose proof (decode_all_space _ Hb) as Hdb.
  destruct (same_letters_list_lower _ _ [] Ht Hp) as (_ & Hv & Hplain & Efm & _).
  unfold lower.
  rewrite decode_app_valid by now apply Forall_space_valid.
  rewrite decode_app_stop by now apply all_space_clean.
  rewrite lower_from_plain.
  - rewrite !flat_map_app, !encode_app, Efm, !flat_map_space by assumption.
    now rewrite !encode_decode.
  - apply Forall_app. split; [now apply Forall_space_plain|].
    apply Forall_app. split; [assumption | now apply Forall_space_plain].
Qed.

(** *** What is lowered to ASCII text *)

Lemma encode_cp_first (c : N) :
  (128 <= c)%N -> exists a rest, encode_cp c = String a rest /\ (128 <= byte a)%N.
Proof.
  intros Hc. unfold encode_cp.
  replace (c <? 128)%N with false by (symmetry; apply N.ltb_ge; lia).
  destruct (c <? 2048)%N eqn:E1; [|destruct (c <? 65536)%N eqn:E2;
                                   [|destruct (c <? 1114112)%N eqn:E3]];
    eexists; eexists; (split; [reflexivity|]).
  - apply N.ltb_lt in E1.
    assert (c / 64 < 32)%N by (apply N.Div0.div_lt_upper_bound; lia).
    generalize dependent (c / 64)%N. intros x Hx. rewrite byte_of_byte; lia.
  - apply N.ltb_lt in E2.
    assert (c / 4096 < 16)%N by (apply N.Div0.div_lt_upper_bound; lia).
    generalize dependent (c / 4096)%N. intros x Hx. rewrite byte_of_byte; lia.
  - apply N.ltb_lt in E3.
    assert (c / 262144 < 5)%N by (apply N.Div0.div_lt_upper_bound; lia).
    generalize dependent (c / 262144)%N. intros x Hx. rewrite byte_of_byte; lia.
  - assert ((c - 1114112) mod 128 < 128)%N by (apply N.mod_lt; lia).
    generalize dependent ((c - 1114112) mod 128)%N. intros x Hx.
    rewrite byte_of_byte; lia.
Qed.

Lemma encode_plain (l : list N) (p : string) :
  encode l = p -> plain_ascii p = true ->
  Forall (fun c => (c < 128)%N /\ c <> 107%N) l /\ decode p = l.
Proof.
  revert p. induction l as [|c l IH]; intros p E Hp.
  - subst p. split; [constructor | reflexivity].
  - cbn [encode] in E. destruct (N.lt_ge_cases c 128) as [Hc|Hc].
    + unfold encode_cp in E.
      replace (c <? 128)%N with true in E by (symmetry; now apply N.ltb_lt).
      simpl in E. subst p. unfold plain_ascii in Hp. cbn [list_ascii_of_string forallb] in Hp.
      apply andb_true_iff in Hp as [Hc' Hp].
      rewrite byte_of_byte in Hc' by lia.
      apply andb_true_iff in Hc' as [_ Hk]. apply negb_true_iff, N.eqb_neq in Hk.
      destruct (IH _ eq_refl Hp) as [HF Hd].
      split; [constructor; auto|].
      rewrite decode_ascii by (rewrite byte_of_byte; lia).
      rewrite byte_of_byte by lia. now rewrite Hd.
    + exfalso. destruct (encode_cp_first c Hc) as (a & rest & Ea & Hb).
      rewrite Ea in E. simpl in E. subst p.
      unfold plain_ascii in Hp. cbn [list_ascii_of_string forallb] in Hp.
      apply andb_true_iff in Hp as [Hc' _]. apply andb_true_iff in Hc' as [Hlt _].
      apply N.ltb_lt in Hlt. lia.
Qed.

Lemma lower_ranges_keep_ascii_apart :
  forallb keeps_ascii_apart lower_ranges = true.
Proof. vm_compute. reflexivity. Qed.

(** Beyond ASCII only the Kelvin sign has an ASCII lower case. *)
Lemma lower_simple_small (c : N) :
  (lower_simple c < 128)%N -> lower_simple c <> 107%N -> (c < 128)%N.
Proof.
  unfold lower_simple.
  destruct (find (covers c) lower_ranges) as [[[[first last] step] image]|] eqn:E;
    [|auto].
  apply find_some in E as [Hin Hcov].
  pose proof lower_ranges_keep_ascii_apart as Hok.
  rewrite forallb_forall in Hok. specialize (Hok _ Hin).
  unfold keeps_ascii_apart in Hok. unfold covers in Hcov.
  apply andb_true_iff in Hcov as [Hcov _]. apply andb_true_iff in Hcov as [H1 H2].
  apply N.leb_le in H1, H2.
  apply orb_true_iff in Hok as [Hok|Hok];
    [apply orb_true_iff in Hok as [Hok|Hok]|].
  - apply N.leb_le in Hok. lia.
  - apply N.ltb_lt in Hok. lia.
  - apply andb_true_iff in Hok as [Ha Hb]. apply N.eqb_eq in Ha, Hb. lia.
Qed.

Lemma lower_from_small (before l : list N) :
  Forall (fun x => (x < 128)%N /\ x <> 107%N) (lower_from before l) ->
  Forall (fun c => (c < 128)%N) l.
Proof.
  revert before. induction l as [|c l IH]; intros before H; [constructor|].
  cbn [lower_from] in H. apply Forall_app in H as [Hc Hl].
  constructor; [|now apply (IH (c :: before))].
  destruct (c =? 931)%N eqn:E1.
  - inversion Hc as [|? ? [Hx _] _]; subst.
    destruct (final_sigma before l); lia.
  - unfold lower_full in Hc. destruct (c =? 304)%N eqn:E2.
    + inversion Hc as [|? ? _ Hc']; subst. inversion Hc' as [|? ? [Hx _] _]; subst. lia.
    + inversion Hc as [|? ? [Hx Hk] _]; subst. now apply lower_simple_small.
Qed.

Lemma lower_from_ascii (before l : list N) :
  Forall (fun c => (c < 128)%N) l ->
  same_letters_list l (lower_from before l) = true.
Proof.
  revert before. induction l as [|c l IH]; intros before H; [reflexivity|].
  inversion H as [|? ? Hc Hl]; subst. cbn [lower_from].
  replace (c =? 931)%N with false by (symmetry; apply N.eqb_neq; lia).
  assert (E : c = byte (of_byte c)) by (symmetry; apply byte_of_byte; lia).
  rewrite E at 2. rewrite lower_full_latin, <- E.
  cbn [app same_letters_list]. rewrite (IH _ Hl), andb_true_r.
  unfold same_letter. destruct (capital c).
  - rewrite N.eqb_refl. apply orb_true_r.
  - now rewrite N.eqb_refl.
Qed.

(** A text lowered to ASCII text without k is that text up to letter
    case. *)
Lemma lower_ascii_inv (t p : string) :
  lower t = p -> plain_ascii p = true -> same_letters t p = true.
Proof.
  unfold lower. intros E Hp.
  destruct (encode_plain _ _ E Hp) as [Hsmall Hd].
  unfold same_letters. rewrite Hd.
  apply lower_from_ascii. now apply lower_from_small in Hsmall.
Qed.

(** *** Lower-casing inside a longer text *)

Lemma lower_from_app_plain (before l y : list N) :
  Forall (fun c => c <> 931%N) l ->
  lower_from before (l ++ y)
  = (flat_map lower_full l ++ lower_from (rev l ++ before) y)%list.
Proof.
  revert before. induction l as [|c l IH]; intros before H; [reflexivity|].
  inversion H as [|? ? Hc Hl]; subst. cbn [app lower_from flat_map rev].
  apply N.eqb_neq in Hc. rewrite Hc, (IH _ Hl), <- !app_assoc. reflexivity.
Qed.

Lemma lower_from_app (before x y : list N) :
  exists lowered,
    lower_from before (x ++ y) = (lowered ++ lower_from (rev x ++ before) y)%list.
Proof.
  revert before. induction x as [|c x IH]; intros before.
  - now exists [].
  - cbn [app lower_from rev]. destruct (IH (c :: before)) as [lowered E].
    rewrite E, <- !app_assoc. eexists. rewrite app_assoc. reflexivity.
Qed.

Lemma decode_valid_clean (q : string) :
  Forall (fun v => (v < 1114112)%N) (decode q) -> clean_start q = true.
Proof.
  destruct q as [|c q]; [reflexivity|]. rewrite decode_cons.
  intros H. inversion H as [|? ? Hv _]; subst. simpl.
  destruct (continuation (byte c)) eqn:E; [|reflexivity].
  rewrite (head_cp_continuation _ q E) in Hv. simpl in Hv. unfold stray in Hv. lia.
Qed.

(** A lower-case text written in any letter case inside a longer text is
    found in the lowered text. *)
Lemma lower_has_part (pre q post p : string) :
  same_letters q p = true -> in_lower_case p = true ->
  has_part p (lower (pre ++ q ++ post)).
Proof.
  intros Hq Hp.
  destruct (same_letters_list_lower _ _ [] Hq Hp) as (_ & Hv & Hplain & Efm & _).
  destruct q as [|c q].
  - assert (Ep : p = "").
    { unfold same_letters in Hq. change (decode "") with (@nil N) in Hq.
      rewrite <- (encode_decode p). destruct (decode p); [reflexivity | discriminate]. }
    subst p. exists "", (lower (pre ++ "" ++ post)). reflexivity.
  - unfold lower.
    rewrite decode_app_stop
      by (rewrite clean_start_app by discriminate; now apply decode_valid_clean).
    rewrite decode_app_valid by assumption.
    destruct (lower_from_app [] (decode pre)
                (decode (String c q) ++ decode post)) as [lowered E].
    rewrite E, lower_from_app_plain by assumption.
    rewrite !encode_app, Efm, encode_decode.
    eexists. eexists. reflexivity.
Qed.

End LetterCase.

(** ** Classifier *)

Lemma phrases_in_lower_case : forallb in_lower_case greeting_phrases = true.
Proof. vm_compute. reflexivity. Qed.

Lemma phrases_plain_ascii : forallb plain_ascii greeting_phrases = true.
Proof. vm_compute. reflexivity. Qed.

Lemma phrase_length (p : string) :
  In p greeting_phrases -> len p <= longest_phrase.
Proof.
  unfold greeting_phrases. simpl.
  intros H. repeat (destruct H as [<- | H]; [vm_compute; lia |]). contradiction.
Qed.

Lemma phrase_not_empty : ~ In "" greeting_phrases.
Proof. simpl. intuition discriminate. Qed.

Lemma is_greeting_iff (m : string) :
  is_greeting m = true <-> In (lower (strip m)) greeting_phrases.
Proof.
  unfold is_greeting.
  destruct (truthy (lower (strip m))) eqn:E; cbn [negb].
  - rewrite existsb_exists. split.
    + intros [p [Hin Heq]]. apply String.eqb_eq in Heq. now subst.
    + intros Hin. exists (lower (strip m)). split; [assumption | apply String.eqb_refl].
  - apply truthy_false in E. rewrite E. split; [discriminate |].
    intros H. now apply phrase_not_empty in H.
Qed.

(** A greeting is a listed phrase written in any letter case, once
    trimmed; nothing else is. *)
Lemma is_greeting_letters (m : string) :
  is_greeting m = true <->
  exists p, In p greeting_phrases /\ same_letters (strip m) p = true.
Proof.
  rewrite is_greeting_iff. split.
  - intros Hin. exists (lower (strip m)). split; [exact Hin|].
    apply lower_ascii_inv; [reflexivity|].
    pose proof phrases_plain_ascii as H. rewrite forallb_forall in H. now apply H.
  - intros (p & Hin & Hp).
    pose proof phrases_in_lower_case as H. rewrite forallb_forall in H.
    now rewrite (lower_same_letters _ _ Hp (H _ Hin)).
Qed.

Lemma lambda_is_greeting_iff (m : string) :
  Lambda.is_greeting m = true <->
  len (strip (lower m)) < 20 /\
  exists g, In g Lambda.greetings /\ has_part g (strip (lower m)).
Proof.
  unfold Lambda.is_greeting. cbv zeta.
  destruct (Nat.ltb_spec (len (strip (lower m))) 20) as [Hlt|Hge].
  - rewrite existsb_exists. split.
    + intros (g & Hin & Hc). split; [exact Hlt|]. exists g. split; [exact Hin|].
      now apply contains_has_part.
    + intros (_ & g & Hin & Hc). exists g. split; [exact Hin|].
      now apply contains_has_part.
  - split; [discriminate | intros [Hlt _]; lia].
Qed.

(** C6, as stated, fails for the lambda's classifier: a question longer
    than every listed phrase that merely starts with a greeting word is
    classified as a greeting, although it is none of the phrases of either
    list. *)
Lemma lambda_is_greeting_substring :
  let m := "hello, which pad?" in
  Lambda.is_greeting m = true /\
  longest_phrase < len m /\
  ~ In (lower (strip m)) Lambda.greetings /\
  ~ In (lower (strip m)) greeting_phrases /\
  is_greeting m = false.
Proof.
  cbv zeta. split; [vm_compute; reflexivity|].
  split; [vm_compute; lia|].
  split; [|split; [|vm_compute; reflexivity]].
  - replace (lower (strip "hello, which pad?")) with "hello, which pad?"
      by (vm_compute; reflexivity).
    simpl. intuition discriminate.
  - replace (lower (strip "hello, which pad?")) with "hello, which pad?"
      by (vm_compute; reflexivity).
    simpl. intuition discriminate.
Qed.

(** C6, amended.  The classifier of main.py answers true exactly when the
    trimmed message is one of the eleven listed phrases written in any
    letter case, which is when the trimmed, lower-cased message is in the
    list; so no message of more code points than the longest phrase is a
    greeting unless it is a phrase between whitespace, and none whose
    trimmed text is that long.  The lambda's classifier answers true
    exactly when the lower-cased, trimmed message has fewer than twenty
    code points and contains one of its fourteen phrases. *)
Theorem is_greeting_exact (m : string) :
  (is_greeting m = true <->
   exists p, In p greeting_phrases /\ same_letters (strip m) p = true) /\
  (is_greeting m = true <-> In (lower (strip m)) greeting_phrases) /\
  (longest_phrase < len m ->
   (forall p, In p greeting_phrases -> same_letters (strip m) p = false) ->
   is_greeting m = false) /\
  (longest_phrase < len (strip m) -> is_greeting m = false) /\
  (Lambda.is_greeting m = true <->
   len (strip (lower m)) < 20 /\
   exists g, In g Lambda.greetings /\ has_part g (strip (lower m))).
Proof.
  pose proof (is_greeting_letters m) as Hiff.
  split; [exact Hiff | split; [apply is_greeting_iff | split; [|split]]].
  - intros _ Hnot. destruct (is_greeting m); [|reflexivity].
    destruct (proj1 Hiff eq_refl) as (p & Hin & Hp).
    rewrite (Hnot p Hin) in Hp. discriminate.
  - intros Hlen. destruct (is_greeting m); [|reflexivity].
    destruct (proj1 Hiff eq_refl) as (p & Hin & Hp).
    apply len_same_letters in Hp. apply phrase_length in Hin. lia.
  - apply lambda_is_greeting_iff.
Qed.

Lemma is_greeting_exact_witness :
  is_greeting "  Good Morning " = true /\
  is_greeting "hello there, can you hear me?" = false.
Proof.
  split.
  - apply (proj2 (proj1 (is_greeting_exact "  Good Morning "))).
    exists "good morning". split; [simpl; tauto | vm_compute; reflexivity].
  - apply (proj1 (proj2 (proj2 (proj2
             (is_greeting_exact "hello there, can you hear me?"))))).
    vm_compute. lia.
Defined.

(** The lambda copy classifies by substring: it accepts a question that
    merely starts with a greeting word, which [is_greeting] rejects. *)
Lemma lambda_is_greeting_differs :
  Lambda.is_greeting "hi, which pad?" = true /\ is_greeting "hi, which pad?" = false.
Proof. split; vm_compute; reflexivity. Qed.

(** ** Language *)

Lemma normalize_language_cases (l : option string) :
  normalize_language l = "es" \/ normalize_language l = "en".
Proof.
  destruct l as [s|]; simpl; [destruct (s =? "es")|]; auto.
Qed.

Lemma normalize_language_en (l : option string) :
  l <> Some "es" -> normalize_language l = "en".
Proof.
  destruct l as [s|]; simpl; [|reflexivity].
  destruct (String.eqb_spec s "es"); [subst; congruence | reflexivity].
Qed.

(** ** The event stream *)

Section Stream.

Lemma chop_space_app_space (s : string) : chop_space (s ++ " ") = s.
Proof.
  induction s as [|c s IH]; [reflexivity|].
  simpl. destruct (String.eqb_spec (s ++ " ") "") as [E|_].
  - exfalso. revert E. apply append_not_nil_r. discriminate.
  - simpl. now rewrite IH.
Qed.

Lemma chop_space_app (s t : string) :
  t <> "" -> chop_space (s ++ t) = s ++ chop_space t.
Proof.
  intros Ht. induction s as [|c s IH]; [reflexivity|].
  simpl. destruct (String.eqb_spec (s ++ t) "") as [E|_].
  - exfalso. revert E. now apply append_not_nil_r.
  - simpl. now rewrite IH.
Qed.

Lemma join_payloads_not_nil (w : string) (ws : list string) :
  join "" (map (fun x => x ++ " ") (w :: ws)) <> "".
Proof.
  simpl. destruct (map (fun x => x ++ " ") ws).
  - apply append_not_nil_r. discriminate.
  - apply append_not_nil_l, append_not_nil_r. discriminate.
Qed.

Lemma chop_space_join (ws : list string) :
  chop_space (join "" (map (fun w => w ++ " ") ws)) = join " " ws.
Proof.
  induction ws as [|w ws IH]; [reflexivity|].
  destruct ws as [|w' ws'].
  - simpl. apply chop_space_app_space.
  - change (join "" (map (fun x => x ++ " ") (w :: w' :: ws')))
      with ((w ++ " ") ++ join "" (map (fun x => x ++ " ") (w' :: ws'))).
    rewrite chop_space_app by apply join_payloads_not_nil.
    rewrite IH. change (join " " (w :: w' :: ws')) with (w ++ " " ++ join " " (w' :: ws')).
    apply append_assoc.
Qed.

Lemma payloads_deltas (ws : list string) (tl : list Event) :
  payloads (map (fun w => delta (w ++ " ")) ws ++ tl)%list
  = (map (fun w => (w ++ " ")%string) ws ++ payloads tl)%list.
Proof. induction ws as [|w ws IH]; simpl; congruence. Qed.

End Stream.

(** C8, as stated, fails: a reply with a line break is not recovered from
    the delta payloads, whichever way the trailing spaces are removed
    (the last one, all trailing whitespace, or one per payload). *)
Lemma stream_reply_loses_whitespace :
  let reply := "Summary:" ++ nl ++ "- ok" in
  let ps := payloads (stream_reply reply None) in
  chop_space (join "" ps) <> reply /\
  rstrip (join "" ps) <> reply /\
  join "" (map chop_space ps) <> reply.
Proof. vm_compute. repeat split; discriminate. Qed.

(** C8, amended.  The stream is one meta event carrying the conversation
    id, then one delta event per whitespace-delimited word with that word
    and a space as payload, then the done event; the concatenated payloads
    without the last space are the words joined by single spaces, which is
    the reply itself when the reply consists of words separated by single
    spaces. *)
Theorem stream_reply_words (reply : string) (conversation_id : option string) :
  stream_reply reply conversation_id
  = (meta conversation_id
     :: map (fun w => delta (w ++ " ")) (split reply) ++ [done])%list /\
  payloads (stream_reply reply conversation_id)
  = map (fun w => w ++ " ") (split reply) /\
  chop_space (join "" (payloads (stream_reply reply conversation_id)))
  = join " " (split reply) /\
  (forall ws, forallb is_word ws = true -> reply = join " " ws ->
     chop_space (join "" (payloads (stream_reply reply conversation_id))) = reply).
Proof.
  assert (Hp : payloads (stream_reply reply conversation_id)
               = map (fun w => w ++ " ") (split reply)).
  { unfold stream_reply. cbn [payloads]. rewrite payloads_deltas.
    simpl. apply app_nil_r. }
  split; [reflexivity | split; [exact Hp | split]].
  - rewrite Hp. apply chop_space_join.
  - intros ws Hws ->. rewrite Hp, chop_space_join.
    now rewrite split_join.
Qed.

Lemma stream_reply_words_witness :
  chop_space (join "" (payloads (stream_reply "use one hand" (Some "s-1"))))
  = "use one hand".
Proof.
  apply (proj2 (proj2 (proj2 (stream_reply_words "use one hand" (Some "s-1"))))
           ["use"; "one"; "hand"]); reflexivity.
Defined.

(** ** The handler monad and the provider wrappers *)

Section Wrappers.

Lemma hex_of_not_nil (k : nat) (v : N) : hex_of (S k) v <> "".
Proof. cbn [hex_of]. apply append_not_nil_r. discriminate. Qed.

Lemma uuid_str_not_nil (u : N) : uuid_str u <> "".
Proof. unfold uuid_str. apply append_not_nil_l, hex_of_not_nil. Qed.

Lemma length_hex_of (k : nat) (v : N) : String.length (hex_of k v) = k.
Proof.
  revert v. induction k as [|k IH]; intros v; [reflexivity|].
  cbn [hex_of]. rewrite length_append, IH. simpl. lia.
Qed.

Lemma length_uuid_str (u : N) : String.length (uuid_str u) = 36.
Proof.
  unfold uuid_str. repeat rewrite length_append. repeat rewrite length_hex_of.
  reflexivity.
Qed.

Lemma or_new_run (cid : option string) (w : World) :
  or_new cid w = (Return (fst (minted cid w)), snd (minted cid w)).
Proof.
  unfold or_new, minted, opt_truthy.
  destruct cid as [s|]; [destruct (truthy s)|]; reflexivity.
Qed.

Lemma minted_not_nil (cid : option string) (w : World) : fst (minted cid w) <> "".
Proof.
  unfold minted. destruct (opt_truthy cid) as [s|] eqn:E; simpl.
  - now apply opt_truthy_some in E.
  - apply uuid_str_not_nil.
Qed.

Lemma minted_setting (cid : option string) (w : World) :
  same_setting w (snd (minted cid w)) /\ log (snd (minted cid w)) = log w.
Proof.
  unfold minted, same_setting. destruct (opt_truthy cid); simpl; auto.
Qed.

Lemma echo_result_run (m : string) (cid : option string) (l : string) (w : World) :
  echo_result m cid l w
  = (Return {| res_conversationId := Some (fst (minted cid w));
               reply := echo_reply m l |}, snd (minted cid w)).
Proof. unfold echo_result, bind. now rewrite or_new_run. Qed.

Lemma bedrock_result_run (res : RGResponse) (cid : option string) (l : string)
    (w : World) :
  bedrock_result res cid l w
  = (Return {| res_conversationId :=
                 Some (match opt_truthy (res_sessionId res) with
                       | Some s => s
                       | None => fst (minted cid w)
                       end);
               reply := match opt_truthy (output_text res) with
                        | Some t => t
                        | None => no_answer l
                        end |},
     result_world res cid w).
Proof.
  unfold bedrock_result, result_world, bind.
  destruct (opt_truthy (res_sessionId res)); [reflexivity|].
  now rewrite or_new_run.
Qed.

(** [call_model_simple] in closed form. *)
Lemma call_model_simple_run (m l mode : string) (w : World) :
  call_model_simple m l mode w =
  if negb (truthy (simple_model w))
  then (Return {| res_conversationId := None; reply := canned_greeting l |}, w)
  else
    let req := simple_request w m l mode in
    let out := invoke_model_oracle (provider w) (log w) req in
    (Return {| res_conversationId := None;
               reply := match out with
                        | IMOk content =>
                            or_str (strip (first_text content)) (canned_greeting l)
                        | IMError _ => canned_greeting l
                        end |},
     log_call (InvokeModel req out) w).
Proof.
  unfold call_model_simple, bind, getenv, catch, invoke_model, ret.
  fold (env_get w "BEDROCK_MODEL_ARN" "") (env_get w "BEDROCK_MODEL_ID" "").
  fold (simple_model w).
  destruct (negb (truthy (simple_model w))); [reflexivity|].
  fold (simple_request w m l mode). cbv zeta.
  destruct (invoke_model_oracle (provider w) (log w) (simple_request w m l mode))
    as [[|[t|] content]|msg]; reflexivity.
Qed.

(** [call_bedrock] without retrieval configuration: the echo fallback. *)
Lemma call_bedrock_unconfigured (m : string) (cid : option string) (l : string)
    (fh : bool) (mode : string) (w : World) :
  configured w = false ->
  call_bedrock m cid l fh mode w = echo_result m cid l w.
Proof.
  intros Hc. unfold call_bedrock, bind, getenv.
  fold (env_get w "BEDROCK_KB_ID" "") (env_get w "BEDROCK_MODEL_ID" "").
  unfold configured in Hc.
  rewrite <- negb_andb, Hc. reflexivity.
Qed.

(** [call_bedrock] with retrieval configured, in closed form. *)
Lemma call_bedrock_configured (m : string) (cid : option string) (l : string)
    (fh : bool) (mode : string) (w : World) :
  configured w = true ->
  call_bedrock m cid l fh mode w =
  let req := first_request w m cid l fh mode in
  let out := retrieve_and_generate_oracle (provider w) (log w) req in
  let w1 := log_call (RetrieveAndGenerate req out) w in
  match out with
  | RGOk res => bedrock_result res cid l w1
  | RGOtherError _ => echo_result m cid l w1
  | RGClientError msg =>
      if invalid_session msg then
        let out2 := retrieve_and_generate_oracle (provider w1) (log w1)
                                                 (pop_sessionId req) in
        after_retry out2 cid l
                    (log_call (RetrieveAndGenerate (pop_sessionId req) out2) w1)
      else (Raise (ClientError msg), w1)
  end.
Proof.
  intros Hc. unfold call_bedrock, bind, getenv.
  fold (env_get w "BEDROCK_KB_ID" "") (env_get w "BEDROCK_MODEL_ID" "")
       (env_get w "BEDROCK_MODEL_ARN" "") (env_get w "AWS_REGION" "us-east-1").
  unfold configured in Hc. rewrite <- negb_andb, Hc. cbn [negb].
  fold (first_request w m cid l fh mode). cbv zeta.
  unfold catch, bind, retrieve_and_generate, ret, raise. cbv zeta.
  destruct (retrieve_and_generate_oracle (provider w) (log w)
              (first_request w m cid l fh mode)) as [res|msg|msg].
  - reflexivity.
  - destruct (invalid_session msg); [|reflexivity].
    destruct (retrieve_and_generate_oracle _ _ (pop_sessionId _)); reflexivity.
  - unfold echo_result, bind, ret.
    destruct (or_new cid _) as [[c|e] w2]; reflexivity.
Qed.

End Wrappers.

(** ** Traces of the provider wrappers *)

Lemma result_world_setting (res : RGResponse) (cid : option string) (w : World) :
  same_setting w (result_world res cid w) /\ log (result_world res cid w) = log w.
Proof.
  unfold result_world. destruct (opt_truthy (res_sessionId res)).
  - unfold same_setting. auto.
  - apply minted_setting.
Qed.

Lemma echo_reply_not_nil (m l : string) : echo_reply m l <> "".
Proof. unfold echo_reply. destruct (l =? "es"); discriminate. Qed.

Lemma canned_greeting_not_nil (l : string) : canned_greeting l <> "".
Proof. unfold canned_greeting. destruct (l =? "es"); discriminate. Qed.

Lemma no_answer_not_nil (l : string) : no_answer l <> "".
Proof. unfold no_answer. destruct (l =? "es"); discriminate. Qed.

Lemma bedrock_reply_not_nil (res : RGResponse) (l : string) :
  match opt_truthy (output_text res) with
  | Some t => t
  | None => no_answer l
  end <> "".
Proof.
  destruct (opt_truthy (output_text res)) as [t|] eqn:E.
  - now apply opt_truthy_some in E.
  - apply no_answer_not_nil.
Qed.

Lemma minted_token (cid : option string) (w : World) :
  opt_truthy cid = Some (fst (minted cid w)) \/
  fst (minted cid w) = uuid_str (uuid4 (entropy w (draws w))).
Proof.
  unfold minted. destruct (opt_truthy cid); simpl; auto.
Qed.

Lemma response_token_not_nil (res : RGResponse) (cid : option string) (w : World) :
  match opt_truthy (res_sessionId res) with
  | Some s => s
  | None => fst (minted cid w)
  end <> "".
Proof.
  destruct (opt_truthy (res_sessionId res)) as [s|] eqn:E.
  - now apply opt_truthy_some in E.
  - apply minted_not_nil.
Qed.

(** Case analysis of a run of [call_bedrock]. *)
Ltac run_bedrock H :=
  match type of H with
  | call_bedrock ?m ?cid ?l ?fh ?mode ?w = _ =>
      let Hc := fresh "Hconf" in
      let Hout := fresh "Hout" in
      let Hinv := fresh "Hinv" in
      let Hout2 := fresh "Hretry" in
      destruct (configured w) eqn:Hc;
      [ rewrite (call_bedrock_configured m cid l fh mode w Hc) in H;
        cbv zeta in H;
        destruct (retrieve_and_generate_oracle (provider w) (log w)
                    (first_request w m cid l fh mode)) as [?res|?msg|?msg] eqn:Hout;
        [ rewrite bedrock_result_run in H
        | destruct (invalid_session msg) eqn:Hinv;
          [ destruct (retrieve_and_generate_oracle _ _ (pop_sessionId _))
              as [?res|?msg|?msg] eqn:Hout2;
            cbn [after_retry] in H;
            [ rewrite bedrock_result_run in H
            | unfold raise in H
            | unfold raise in H ]
          | ]
        | rewrite echo_result_run in H ]
      | rewrite (call_bedrock_unconfigured m cid l fh mode w Hc) in H;
        rewrite echo_result_run in H ];
      inversion H; subst; clear H
  end.

Lemma call_bedrock_setting m cid l fh mode w x w' :
  call_bedrock m cid l fh mode w = (x, w') -> same_setting w w'.
Proof.
  intros H. run_bedrock H;
    repeat match goal with
    | |- context [result_world ?r ?c ?v] =>
        destruct (result_world_setting r c v) as [[? [? ?]] ?];
        generalize dependent (result_world r c v); intros
    | |- context [snd (minted ?c ?v)] =>
        destruct (minted_setting c v) as [[? [? ?]] ?];
        generalize dependent (snd (minted c v)); intros
    end; unfold same_setting in *; simpl in *; repeat split; congruence.
Qed.

Lemma log_log_call (i : Interaction) (w : World) : log (log_call i w) = (log w ++ [i])%list.
Proof. reflexivity. Qed.

(** Rewrites the log of the world reached by a wrapper down to the
    starting log and the calls appended to it. *)
Ltac settle_logs :=
  repeat match goal with
  | |- context [log (result_world ?r ?c ?v)] =>
      rewrite (proj2 (result_world_setting r c v))
  | |- context [log (snd (minted ?c ?v))] =>
      rewrite (proj2 (minted_setting c v))
  | |- context [log (log_call ?i ?v)] => rewrite (log_log_call i v)
  end.

Lemma carries_session_response calls res cid w w1 rep :
  entropy w1 = entropy w ->
  provider_session calls = opt_truthy (res_sessionId res) ->
  carries_session calls cid w
    {| res_conversationId :=
         Some (match opt_truthy (res_sessionId res) with
               | Some s => s
               | None => fst (minted cid w1)
               end);
       reply := rep |}.
Proof.
  intros He Hp. eexists. split; [reflexivity|].
  split; [apply response_token_not_nil|].
  rewrite Hp. destruct (opt_truthy (res_sessionId res)); [reflexivity|].
  destruct (minted_token cid w1) as [H|H]; [now left|].
  right. exists (draws w1). now rewrite <- He.
Qed.

Lemma carries_session_echo calls cid w w1 rep :
  entropy w1 = entropy w ->
  provider_session calls = None ->
  carries_session calls cid w
    {| res_conversationId := Some (fst (minted cid w1)); reply := rep |}.
Proof.
  intros He Hp. eexists. split; [reflexivity|].
  split; [apply minted_not_nil|].
  rewrite Hp. destruct (minted_token cid w1) as [H|H]; [now left|].
  right. exists (draws w1). now rewrite <- He.
Qed.

(** Everything later proofs need to know about one run of [call_bedrock]:
    the calls it appends to the log and what it returns or raises. *)
Lemma call_bedrock_log m cid l fh mode w x w' :
  call_bedrock m cid l fh mode w = (x, w') ->
  exists new,
    log w' = (log w ++ new)%list /\
    List.length new <= 2 /\
    (configured w = false -> new = []) /\
    (configured w = true ->
       exists out rest,
         new = RetrieveAndGenerate (first_request w m cid l fh mode) out :: rest) /\
    (forall P, rejects_only P (provider w) ->
       ~ P (first_request w m cid l fh mode) -> List.length new <= 1) /\
    Forall (from_provider (provider w)) new /\
    (forall e, x = Raise e ->
       exists r msg, In (RetrieveAndGenerate r (RGClientError msg)) new) /\
    (forall r, x = Return r -> reply r <> "" /\ carries_session new cid w r).
Proof.
  intros H. run_bedrock H.
  all: eexists; split;
    [settle_logs; rewrite <- ?app_assoc;
     first [reflexivity | symmetry; apply app_nil_r]|].
  all: split; [simpl; lia|].
  all: split; [intros; first [discriminate | reflexivity]|].
  all: split; [intros; first [discriminate | eexists; eexists; reflexivity]|].
  all: split;
    [intros P HP HnP; simpl; try lia; exfalso; apply HnP; eapply HP; eassumption|].
  all: split; [repeat constructor; simpl; eexists; eassumption|].
  all: split;
    [intros e; first [discriminate | intros _; eexists; eexists; simpl; eauto]|].
  all: intros r; first [discriminate | intros [= <-]].
  all: split;
    [first [apply bedrock_reply_not_nil | apply echo_reply_not_nil]|].
  all: first [apply carries_session_response; reflexivity
             | apply carries_session_echo; reflexivity].
Qed.

Lemma call_bedrock_raises m cid l fh mode w e w' :
  call_bedrock m cid l fh mode w = (Raise e, w') ->
  exists msg, e = ClientError msg \/ e = OtherError msg.
Proof. intros H. run_bedrock H; eauto. Qed.

Lemma call_model_simple_log (m l mode : string) (w : World) :
  exists r w' new,
    call_model_simple m l mode w = (Return r, w') /\
    same_setting w w' /\
    log w' = (log w ++ new)%list /\
    List.length new <= 1 /\
    res_conversationId r = None /\
    reply r <> "" /\
    (truthy (simple_model w) = true ->
       exists out, new = [InvokeModel (simple_request w m l mode) out]) /\
    (truthy (simple_model w) = false -> new = [] /\ reply r = canned_greeting l) /\
    Forall (from_provider (provider w)) new.
Proof.
  rewrite call_model_simple_run.
  destruct (truthy (simple_model w)) eqn:E; cbn [negb]; cbv zeta.
  - eexists. eexists. eexists. split; [reflexivity|].
    split; [unfold same_setting; simpl; auto|].
    split; [reflexivity|]. split; [simpl; lia|]. split; [reflexivity|].
    split.
    { simpl. destruct (invoke_model_oracle _ _ _).
      - apply or_str_not_nil, canned_greeting_not_nil.
      - apply canned_greeting_not_nil. }
    split; [intros _; eexists; reflexivity|].
    split; [discriminate|].
    repeat constructor. simpl. eexists. reflexivity.
  - exists {| res_conversationId := None; reply := canned_greeting l |}, w, [].
    split; [reflexivity|].
    split; [unfold same_setting; auto|].
    split; [symmetry; apply app_nil_r|]. split; [simpl; lia|].
    split; [reflexivity|]. split; [apply canned_greeting_not_nil|].
    split; [discriminate|]. split; [auto|]. constructor.
Qed.

(** ** Paths through [chat] *)

Lemma chat_run_complete (req : ChatRequest) (w : World) x w' :
  chat req w = (x, w') -> chat_run req w x w'.
Proof.
  unfold chat.
  destruct (truthy (strip (message req))) eqn:Hne; cbn [negb].
  - apply truthy_true in Hne.
    destruct (is_greeting (strip (message req))) eqn:Hg.
    + intros H. now apply run_greeting.
    + unfold bind.
      destruct (call_bedrock _ (conversationId req) _ false _ w) as [[r1|e1] w1] eqn:H1.
      * destruct (looks_like_refusal (reply r1)) eqn:Hr1.
        -- destruct (call_bedrock _ None _ true _ w1) as [[r2|e2] w2] eqn:H2.
           ++ destruct (looks_like_refusal (reply r2)) eqn:Hr2.
              ** intros H. eapply run_general; eassumption.
              ** unfold ret. intros [= <- <-]. eapply run_second_answer; eassumption.
           ++ intros [= <- <-]. eapply run_second_raises; eassumption.
        -- unfold ret. intros [= <- <-]. now apply run_first_answer.
      * intros [= <- <-]. now apply run_first_raises.
  - apply truthy_false in Hne. unfold raise. intros [= <- <-].
    now apply run_rejected.
Qed.

Lemma chat_run_sound (req : ChatRequest) (w : World) x w' :
  chat_run req w x w' -> chat req w = (x, w').
Proof.
  intros H. unfold chat.
  destruct H as [Hne | x w' Hne Hg H | e w' Hne Hg H1 | r1 w' Hne Hg H1 Hr1
                | r1 w1 e w' Hne Hg H1 Hr1 H2 | r1 w1 r2 w' Hne Hg H1 Hr1 H2 Hr2
                | r1 w1 r2 w2 x w' Hne Hg H1 Hr1 H2 Hr2 H3];
    try (apply truthy_true in Hne; rewrite Hne; cbn [negb]; rewrite Hg).
  - apply truthy_false in Hne. now rewrite Hne.
  - exact H.
  - unfold bind. now rewrite H1.
  - unfold bind. now rewrite H1, Hr1.
  - unfold bind. now rewrite H1, Hr1, H2.
  - unfold bind. now rewrite H1, Hr1, H2, Hr2.
  - unfold bind. now rewrite H1, Hr1, H2, Hr2.
Qed.

(** ** Settings are kept along a request *)

Lemma same_setting_configured w w' : same_setting w w' -> configured w' = configured w.
Proof. intros [He _]. unfold configured, env_get. now rewrite He. Qed.

Lemma same_setting_simple_model w w' :
  same_setting w w' -> simple_model w' = simple_model w.
Proof. intros [He _]. unfold simple_model, env_get. now rewrite He. Qed.

Lemma same_setting_first_request w w' m cid l fh mode :
  same_setting w w' ->
  first_request w' m cid l fh mode = first_request w m cid l fh mode.
Proof. intros [He _]. unfold first_request, env_get. now rewrite He. Qed.

Lemma same_setting_simple_request w w' m l mode :
  same_setting w w' -> simple_request w' m l mode = simple_request w m l mode.
Proof.
  intros Hs. unfold simple_request. now rewrite (same_setting_simple_model _ _ Hs).
Qed.

Lemma same_setting_trans w1 w2 w3 :
  same_setting w1 w2 -> same_setting w2 w3 -> same_setting w1 w3.
Proof. unfold same_setting. intros [? [? ?]] [? [? ?]]. repeat split; congruence. Qed.

Lemma calls_between_app w w' new :
  log w' = (log w ++ new)%list -> calls_between w w' = new.
Proof.
  intros H. unfold calls_between. rewrite H, skipn_app, skipn_all, Nat.sub_diag.
  reflexivity.
Qed.

(* ===================================================================== *)
(** * The orchestrator *)
(* ===================================================================== *)

(** ** Language *)

Lemma chat_never_raises_http_on_message req w c d w' :
  chat req w = (Raise (HTTPException c d), w') -> strip (message req) = "".
Proof.
  intros H. apply chat_run_complete in H. inversion H; subst; try assumption;
    match goal with
    | Hc : call_model_simple ?m ?l ?mode ?v = (Raise _, _) |- _ =>
        destruct (call_model_simple_log m l mode v) as (r & w0 & new & Hrun & _);
        congruence
    | Hc : call_bedrock _ _ _ _ _ _ = (Raise (HTTPException _ _), _) |- _ =>
        apply call_bedrock_raises in Hc as [msg [E|E]]; discriminate
    end.
Qed.

(** C10.  A language other than exactly "es" (another string, the empty
    string, or none) is normalized to "en": the request is handled exactly
    as the same request in English, and the only rejection of a request is
    the one for an empty message. *)
Theorem language_normalized (req : ChatRequest) (w : World)
    (Hlang : language req <> Some "es") :
  normalize_language (language req) = "en" /\
  chat req w = chat (with_language req (Some "en")) w /\
  (forall c d w', chat req w = (Raise (HTTPException c d), w') ->
                  strip (message req) = "").
Proof.
  split; [now apply normalize_language_en|].
  split.
  - unfold chat, with_language. cbn [message conversationId language].
    now rewrite (normalize_language_en _ Hlang).
  - intros c d w'. apply chat_never_raises_http_on_message.
Qed.

Lemma language_normalized_witness :
  normalize_language (Some "fr") = "en" /\
  chat Samples.french_question (Samples.world Samples.kb_env Samples.helpful)
  = chat (with_language Samples.french_question (Some "en"))
         (Samples.world Samples.kb_env Samples.helpful).
Proof.
  destruct (language_normalized Samples.french_question
              (Samples.world Samples.kb_env Samples.helpful)) as [H1 [H2 _]].
  - simpl. discriminate.
  - split; [exact H1 | exact H2].
Defined.

(** ** Replies are never empty *)



(** ** The echo fallback *)

(** Without retrieval configuration a substantive message whose echo does
    not look like a refusal is answered by the echo, with the caller's
    token or a minted one, and no provider call. *)
Lemma echo_fallback_plain (req : ChatRequest) (w : World) :
  strip (message req) <> "" ->
  is_greeting (strip (message req)) = false ->
  configured w = false ->
  looks_like_refusal
    (echo_reply (strip (message req)) (normalize_language (language req))) = false ->
  chat req w
  = (Return {| res_conversationId := Some (fst (minted (conversationId req) w));
               reply := echo_reply (strip (message req))
                                   (normalize_language (language req)) |},
     snd (minted (conversationId req) w)) /\
  log (snd (minted (conversationId req) w)) = log w.
Proof.
  intros Hne Hg Hc Hr. split; [|apply minted_setting].
  apply chat_run_sound. apply run_first_answer; try assumption.
  now rewrite call_bedrock_unconfigured, echo_result_run.
Qed.

(** C9, at a message that quotes a refusal phrase.  With no configuration
    the echo "You said: ..." itself looks like a refusal, so [chat]
    escalates: the caller's token is dropped and the reply is the canned
    greeting; with only the model configured the general fallback even
    calls the provider. *)
Theorem echo_fallback_escalates :
  let req := Samples.cannot_help_question in
  let w := Samples.world Samples.no_env Samples.helpful in
  let w2 := Samples.world Samples.model_only_env Samples.helpful in
  configured w = false /\ configured w2 = false /\
  is_greeting (strip (message req)) = false /\
  fst (chat req w)
  = Return {| res_conversationId := None; reply := "Hi! How can I help?" |} /\
  fst (chat req w2)
  = Return {| res_conversationId := None;
              reply := "Summary: Hello, I am your guide." |} /\
  List.length (calls_between w2 (snd (chat req w2))) = 1.
Proof. vm_compute. repeat split; reflexivity. Qed.

(** ** Provider errors *)

(** C4, as stated, fails: a throttling error of the retrieval service
    reaches the caller. *)
Lemma throttling_error_propagates :
  configured (Samples.world Samples.kb_env Samples.throttled) = true /\
  is_greeting (strip (message Samples.question)) = false /\
  fst (chat Samples.question (Samples.world Samples.kb_env Samples.throttled))
  = Raise (ClientError
             ("An error occurred (ThrottlingException) when calling the "
              ++ "RetrieveAndGenerate operation: Too many requests")).
Proof. vm_compute. repeat split; reflexivity. Qed.

(** C4, amended.  What becomes of an exception raised by a provider call
    made for a request with a message.  An exception of the direct-model
    call, in the greeting path as in the general fallback, is replaced by
    the canned greeting.  In a retrieval attempt, the first as the
    escalated one, an exception of the first call that is not a botocore
    [ClientError] is replaced by the echo reply, with the token handed to
    the attempt or a minted one; a [ClientError] without the
    invalid-session signature is raised by the attempt, and so is any
    exception of the call retried after an invalid-session rejection.
    What an attempt raises, [chat] raises. *)
Theorem provider_errors_recovered (req : ChatRequest) (w : World)
    (Hne : strip (message req) <> "") :
  let msg := strip (message req) in
  let lang := normalize_language (language req) in
  (* the direct model *)
  (is_greeting msg = true -> chat req w = call_model_simple msg lang "greeting" w) /\
  (forall mode w0 e,
     truthy (simple_model w0) = true ->
     invoke_model_oracle (provider w0) (log w0) (simple_request w0 msg lang mode)
     = IMError e ->
     call_model_simple msg lang mode w0
     = (Return {| res_conversationId := None; reply := canned_greeting lang |},
        log_call (InvokeModel (simple_request w0 msg lang mode) (IMError e)) w0)) /\
  (* a retrieval attempt *)
  (forall cid fh w0 e,
     configured w0 = true ->
     let first := first_request w0 msg cid lang fh "default" in
     let w1 := log_call (RetrieveAndGenerate first (RGOtherError e)) w0 in
     retrieve_and_generate_oracle (provider w0) (log w0) first = RGOtherError e ->
     call_bedrock msg cid lang fh "default" w0
     = (Return {| res_conversationId := Some (fst (minted cid w1));
                  reply := echo_reply msg lang |},
        snd (minted cid w1))) /\
  (forall cid fh w0 e,
     configured w0 = true ->
     let first := first_request w0 msg cid lang fh "default" in
     retrieve_and_generate_oracle (provider w0) (log w0) first = RGClientError e ->
     invalid_session e = false ->
     call_bedrock msg cid lang fh "default" w0
     = (Raise (ClientError e),
        log_call (RetrieveAndGenerate first (RGClientError e)) w0)) /\
  (forall cid fh w0 e e',
     configured w0 = true ->
     let first := first_request w0 msg cid lang fh "default" in
     let w1 := log_call (RetrieveAndGenerate first (RGClientError e)) w0 in
     retrieve_and_generate_oracle (provider w0) (log w0) first = RGClientError e ->
     invalid_session e = true ->
     (retrieve_and_generate_oracle (provider w1) (log w1) (pop_sessionId first)
      = RGClientError e' ->
      fst (call_bedrock msg cid lang fh "default" w0) = Raise (ClientError e')) /\
     (retrieve_and_generate_oracle (provider w1) (log w1) (pop_sessionId first)
      = RGOtherError e' ->
      fst (call_bedrock msg cid lang fh "default" w0) = Raise (OtherError e'))) /\
  (* the handler *)
  (forall e w',
     is_greeting msg = false ->
     call_bedrock msg (conversationId req) lang false "default" w = (Raise e, w') ->
     chat req w = (Raise e, w')) /\
  (forall r1 w1 e w',
     is_greeting msg = false ->
     call_bedrock msg (conversationId req) lang false "default" w = (Return r1, w1) ->
     looks_like_refusal (reply r1) = true ->
     call_bedrock msg None lang true "default" w1 = (Raise e, w') ->
     chat req w = (Raise e, w')).
Proof.
  cbv zeta. split; [|split; [|split; [|split; [|split; [|split]]]]].
  - intros Hg. unfold chat. apply truthy_true in Hne. now rewrite Hne, Hg.
  - intros mode w0 e Hm Hout. rewrite call_model_simple_run, Hm. cbn [negb].
    cbv zeta. now rewrite Hout.
  - intros cid fh w0 e Hc Hout.
    rewrite (call_bedrock_configured _ _ _ _ _ _ Hc). cbv zeta.
    now rewrite Hout, echo_result_run.
  - intros cid fh w0 e Hc Hout Hinv.
    rewrite (call_bedrock_configured _ _ _ _ _ _ Hc). cbv zeta.
    now rewrite Hout, Hinv.
  - intros cid fh w0 e e' Hc Hout Hinv.
    rewrite (call_bedrock_configured _ _ _ _ _ _ Hc). cbv zeta.
    rewrite Hout, Hinv. split; intros Hretry; now rewrite Hretry.
  - intros e w' Hg H1. apply chat_run_sound. now apply run_first_raises.
  - intros r1 w1 e w' Hg H1 Hr1 H2. apply chat_run_sound.
    eapply run_second_raises; eassumption.
Qed.

Lemma provider_errors_recovered_witness :
  let w := Samples.world Samples.kb_env Samples.offline in
  strip (message Samples.question) <> "" /\
  fst (call_bedrock (strip (message Samples.question)) (Some "abc")
         (normalize_language (language Samples.question)) false "default" w)
  = Return {| res_conversationId := Some "abc";
              reply := "You said: How do I set up an adaptive controller?" |}.
Proof.
  cbv zeta.
  assert (Hne : strip (message Samples.question) <> "")
    by (vm_compute; discriminate).
  split; [exact Hne|].
  rewrite (proj1 (proj2 (proj2
             (provider_errors_recovered Samples.question
                (Samples.world Samples.kb_env Samples.offline) Hne)))
             (Some "abc") false (Samples.world Samples.kb_env Samples.offline)
             "Could not connect to the endpoint URL");
    vm_compute; reflexivity.
Defined.

(** ** Number of provider calls *)

(** The calls of a run of [chat], split by wrapper: first attempt,
    escalated attempt, direct model. *)
Lemma chat_run_calls (req : ChatRequest) (w : World) x w' :
  chat_run req w x w' ->
  let msg := strip (message req) in
  let lang := normalize_language (language req) in
  exists n1 n2 n3,
    log w' = (log w ++ n1 ++ n2 ++ n3)%list /\
    List.length n1 <= 2 /\ List.length n2 <= 2 /\ List.length n3 <= 1 /\
    (is_greeting msg = true -> n1 = [] /\ n2 = []) /\
    (forall P, rejects_only P (provider w) ->
       ~ P (first_request w msg (conversationId req) lang false "default") ->
       List.length n1 <= 1) /\
    (forall P, rejects_only P (provider w) ->
       ~ P (first_request w msg None lang true "default") ->
       List.length n2 <= 1).
Proof.
  intros Hrun msg lang. subst msg lang.
  destruct Hrun as [Hne | x w' Hne Hg H | e w' Hne Hg H1 | r1 w' Hne Hg H1 Hr1
                   | r1 w1 e w' Hne Hg H1 Hr1 H2 | r1 w1 r2 w' Hne Hg H1 Hr1 H2 Hr2
                   | r1 w1 r2 w2 x w' Hne Hg H1 Hr1 H2 Hr2 H3].
  - exists [], [], []. simpl. rewrite app_nil_r.
    repeat split; auto; lia.
  - destruct (call_model_simple_log (strip (message req))
                (normalize_language (language req)) "greeting" w)
      as (r & w0 & new & Hrun & _ & Hlog & Hlen & _).
    rewrite Hrun in H. injection H as <- <-.
    exists [], [], new. simpl.
    repeat split; auto; lia.
  - apply call_bedrock_log in H1.
    destruct H1 as (new & Hlog & Hlen & _ & _ & Hrej & _).
    exists new, [], []. simpl. rewrite app_nil_r.
    repeat split; auto; try lia; congruence.
  - apply call_bedrock_log in H1.
    destruct H1 as (new & Hlog & Hlen & _ & _ & Hrej & _).
    exists new, [], []. simpl. rewrite app_nil_r.
    repeat split; auto; try lia; congruence.
  - pose proof (call_bedrock_setting _ _ _ _ _ _ _ _ H1) as Hs.
    apply call_bedrock_log in H1, H2.
    destruct H1 as (n1 & Hlog1 & Hlen1 & _ & _ & Hrej1 & _).
    destruct H2 as (n2 & Hlog2 & Hlen2 & _ & _ & Hrej2 & _).
    rewrite (same_setting_first_request _ _ _ _ _ _ _ Hs) in Hrej2.
    destruct Hs as [_ [Hp _]]. rewrite Hp in Hrej2.
    exists n1, n2, []. rewrite app_nil_r, Hlog2, Hlog1, <- app_assoc. simpl.
    repeat split; auto; try lia; congruence.
  - pose proof (call_bedrock_setting _ _ _ _ _ _ _ _ H1) as Hs.
    apply call_bedrock_log in H1, H2.
    destruct H1 as (n1 & Hlog1 & Hlen1 & _ & _ & Hrej1 & _).
    destruct H2 as (n2 & Hlog2 & Hlen2 & _ & _ & Hrej2 & _).
    rewrite (same_setting_first_request _ _ _ _ _ _ _ Hs) in Hrej2.
    destruct Hs as [_ [Hp _]]. rewrite Hp in Hrej2.
    exists n1, n2, []. rewrite app_nil_r, Hlog2, Hlog1, <- app_assoc. simpl.
    repeat split; auto; try lia; congruence.
  - pose proof (call_bedrock_setting _ _ _ _ _ _ _ _ H1) as Hs.
    apply call_bedrock_log in H1, H2.
    destruct H1 as (n1 & Hlog1 & Hlen1 & _ & _ & Hrej1 & _).
    destruct H2 as (n2 & Hlog2 & Hlen2 & _ & _ & Hrej2 & _).
    rewrite (same_setting_first_request _ _ _ _ _ _ _ Hs) in Hrej2.
    destruct Hs as [_ [Hp _]]. rewrite Hp in Hrej2.
    destruct (call_model_simple_log (strip (message req))
                (normalize_language (language req)) "general" w2)
      as (r & w0 & n3 & Hrun & _ & Hlog3 & Hlen3 & _).
    rewrite Hrun in H3. injection H3 as <- <-.
    exists n1, n2, n3. rewrite Hlog3, Hlog2, Hlog1, <- !app_assoc. simpl.
    repeat split; auto; try lia; congruence.
Qed.

(** C5, as stated, fails: when the provider rejects the caller's session
    token and then declines twice, a substantive request costs four
    provider calls. *)
Lemma stale_session_costs_four_calls :
  let w := Samples.world Samples.kb_env Samples.refusing in
  is_greeting (strip (message Samples.stale_question)) = false /\
  List.length (calls_between w (snd (chat Samples.stale_question w))) = 4 /\
  ~ List.length (calls_between w (snd (chat Samples.stale_question w))) <= 3.
Proof.
  cbv zeta. split; [|split]; [vm_compute; reflexivity ..|].
  intros H. vm_compute in H. lia.
Qed.

(** C5, amended.  [chat] makes at most one provider call for a greeting
    and at most five for any request; at most four when the provider
    raises the invalid-session error only on requests that carry a session
    token, and at most three when it never raises it. *)
Theorem chat_provider_calls (req : ChatRequest) (w : World) x w'
    (Hrun : chat req w = (x, w')) :
  let calls := calls_between w w' in
  log w' = (log w ++ calls)%list /\
  (is_greeting (strip (message req)) = true -> List.length calls <= 1) /\
  List.length calls <= 5 /\
  (rejects_only (fun r => sessionId r <> None) (provider w) ->
     List.length calls <= 4) /\
  (rejects_only (fun _ => False) (provider w) -> List.length calls <= 3).
Proof.
  apply chat_run_complete, chat_run_calls in Hrun. cbv zeta in Hrun.
  destruct Hrun as (n1 & n2 & n3 & Hlog & H1 & H2 & H3 & Hg & Hr1 & Hr2).
  cbv zeta. rewrite (calls_between_app _ _ _ Hlog).
  rewrite !length_app.
  split; [exact Hlog|]. split; [|split; [|split]].
  - intros G. destruct (Hg G) as [-> ->]. simpl. lia.
  - lia.
  - intros Hrej.
    assert (List.length n2 <= 1).
    { apply (Hr2 _ Hrej). intros Hs. apply Hs. reflexivity. }
    lia.
  - intros Hrej.
    assert (List.length n1 <= 1) by (apply (Hr1 _ Hrej); auto).
    assert (List.length n2 <= 1) by (apply (Hr2 _ Hrej); auto).
    lia.
Qed.

Lemma helpful_never_rejects : rejects_only (fun _ => False) Samples.helpful.
Proof. intros l r msg H. discriminate H. Qed.

Lemma chat_provider_calls_witness :
  let w := Samples.world Samples.kb_env Samples.helpful in
  rejects_only (fun _ => False) (provider w) /\
  List.length (calls_between w (snd (chat Samples.question w))) <= 3.
Proof.
  cbv zeta. split; [exact helpful_never_rejects|].
  refine (proj2 (proj2 (proj2 (proj2
            (chat_provider_calls Samples.question
               (Samples.world Samples.kb_env Samples.helpful)
               (fst (chat Samples.question
                       (Samples.world Samples.kb_env Samples.helpful)))
               (snd (chat Samples.question
                       (Samples.world Samples.kb_env Samples.helpful))) _))))
            helpful_never_rejects).
  vm_compute. reflexivity.
Defined.

(** ** Invalid sessions *)

(** C3.  When retrieval is configured, the caller's token is non-empty and
    the provider rejects the first call with the invalid-session
    signature, [call_bedrock] makes exactly one more call, the same
    request without the session id, and its outcome is the outcome of that
    retry: the rejection itself is not raised. *)
Theorem invalid_session_retried (m tok l : string) (fh : bool) (mode : string)
    (w : World) (msg : string)
    (Hconf : configured w = true)
    (Htok : tok <> "")
    (Hrej : retrieve_and_generate_oracle (provider w) (log w)
              (first_request w m (Some tok) l fh mode) = RGClientError msg)
    (Hsig : invalid_session msg = true) :
  let req := first_request w m (Some tok) l fh mode in
  let w1 := log_call (RetrieveAndGenerate req (RGClientError msg)) w in
  let retry := pop_sessionId req in
  let out := retrieve_and_generate_oracle (provider w) (log w1) retry in
  sessionId req = Some tok /\
  sessionId retry = None /\
  retry = first_request w m None l fh mode /\
  exists x w',
    call_bedrock m (Some tok) l fh mode w = (x, w') /\
    calls_between w w'
    = [RetrieveAndGenerate req (RGClientError msg); RetrieveAndGenerate retry out] /\
    match out with
    | RGOk res =>
        exists r, x = Return r /\
                  reply r = match opt_truthy (output_text res) with
                            | Some t => t
                            | None => no_answer l
                            end
    | RGClientError e => x = Raise (ClientError e)
    | RGOtherError e => x = Raise (OtherError e)
    end /\
    (rejects_only (fun r => sessionId r <> None) (provider w) ->
     forall e, x = Raise (ClientError e) -> invalid_session e = false).
Proof.
  cbv zeta. split; [|split; [reflexivity | split; [reflexivity|]]].
  { unfold first_request, bedrock_request. cbn [sessionId opt_truthy].
    apply truthy_true in Htok. now rewrite Htok. }
  rewrite (call_bedrock_configured _ _ _ _ _ _ Hconf). cbv zeta.
  rewrite Hrej, Hsig. cbn [provider log_call].
  destruct (retrieve_and_generate_oracle (provider w) _ (pop_sessionId _))
    as [res|e|e] eqn:Hout; cbn [after_retry].
  - rewrite bedrock_result_run. eexists. eexists. split; [reflexivity|].
    split; [|split].
    + apply calls_between_app. settle_logs. now rewrite <- app_assoc.
    + eexists. split; reflexivity.
    + discriminate.
  - eexists. eexists. split; [reflexivity|]. split; [|split; [reflexivity|]].
    + apply calls_between_app. settle_logs. now rewrite <- app_assoc.
    + intros Honly e' [= <-].
      destruct (invalid_session e) eqn:He; [|reflexivity].
      exfalso. apply (Honly _ _ _ Hout He). reflexivity.
  - eexists. eexists. split; [reflexivity|]. split; [|split; [reflexivity|]].
    + apply calls_between_app. settle_logs. now rewrite <- app_assoc.
    + discriminate.
Qed.

Lemma invalid_session_retried_witness :
  let w := Samples.world Samples.kb_env Samples.refusing in
  exists x w',
    call_bedrock "How do I set up an adaptive controller?" (Some "stale-session")
                 "en" false "default" w = (x, w') /\
    List.length (calls_between w w') = 2.
Proof.
  cbv zeta.
  destruct (invalid_session_retried
              "How do I set up an adaptive controller?" "stale-session" "en"
              false "default" (Samples.world Samples.kb_env Samples.refusing)
              ("An error occurred (ValidationException) when calling the "
               ++ "RetrieveAndGenerate operation: Session with Id stale-session "
               ++ "is not valid. Please check and try again."))
    as (_ & _ & _ & x & w' & Hrun & Hcalls & _ & _).
  - vm_compute. reflexivity.
  - discriminate.
  - vm_compute. reflexivity.
  - vm_compute. reflexivity.
  - exists x, w'. split; [exact Hrun|]. rewrite Hcalls. reflexivity.
Defined.

(** ** Escalation *)

Section Escalation.

Lemma has_part_here (p post : string) : has_part p (p ++ post).
Proof. exists "", post. reflexivity. Qed.

Lemma has_part_app_r (p a t : string) : has_part p t -> has_part p (a ++ t).
Proof.
  intros (pre & post & ->). exists (a ++ pre), post. now rewrite append_assoc.
Qed.

Lemma has_part_app_l (p t b : string) : has_part p t -> has_part p (t ++ b).
Proof.
  intros (pre & post & ->). exists pre, (post ++ b).
  now rewrite !append_assoc.
Qed.

Lemma extra_policy_forces (l : string) : has_part (force_line l) (extra_policy l true).
Proof.
  unfold extra_policy. do 3 apply has_part_app_r. apply has_part_here.
Qed.

(** The escalated prompt carries the stronger directive. *)
Lemma build_prompt_forces (m l mode : string) :
  has_part (force_line l) (build_prompt m l true mode).
Proof.
  unfold build_prompt, unlines.
  destruct (l =? "es"); cbn [join];
    do 14 apply has_part_app_r; apply has_part_app_l, extra_policy_forces.
Qed.

Lemma configured_simple_model (w : World) :
  configured w = true -> truthy (simple_model w) = true.
Proof.
  unfold configured, simple_model, or_str. intros H.
  apply andb_true_iff in H as [_ H].
  destruct (truthy (env_get w "BEDROCK_MODEL_ARN" "")) eqn:E; assumption.
Qed.

End Escalation.

Lemma chat_after_first_refusal (req : ChatRequest) (w : World) r1 w1 :
  strip (message req) <> "" ->
  is_greeting (strip (message req)) = false ->
  call_bedrock (strip (message req)) (conversationId req)
               (normalize_language (language req)) false "default" w
    = (Return r1, w1) ->
  looks_like_refusal (reply r1) = true ->
  chat req w
  = match call_bedrock (strip (message req)) None
            (normalize_language (language req)) true "default" w1 with
    | (Return r2, w2) =>
        if looks_like_refusal (reply r2)
        then call_model_simple (strip (message req))
               (normalize_language (language req)) "general" w2
        else (Return r2, w2)
    | (Raise e, w2) => (Raise e, w2)
    end.
Proof.
  intros Hne Hg H1 Href. unfold chat.
  apply truthy_true in Hne. rewrite Hne. cbn [negb]. rewrite Hg.
  unfold bind at 1. rewrite H1, Href. unfold bind, ret.
  destruct (call_bedrock _ None _ true _ w1) as [[r2|e] w2]; [|reflexivity].
  destruct (looks_like_refusal (reply r2)); reflexivity.
Qed.

(** C2.  When retrieval is configured and the first attempt of a
    substantive request returns a reply that looks like a refusal, the next
    provider call is a retrieve-and-generate request without session id
    whose prompt is the escalated one (it carries the stronger directive);
    when the reply of that second attempt looks like a refusal too, [chat]
    makes exactly one direct-model call with the general-fallback prompt
    and returns its result as it is. *)
Theorem refusal_escalates (req : ChatRequest) (w : World)
    (r1 : ChatResult) (w1 : World)
    (Hne : strip (message req) <> "")
    (Hg : is_greeting (strip (message req)) = false)
    (Hconf : configured w = true)
    (H1 : call_bedrock (strip (message req)) (conversationId req)
            (normalize_language (language req)) false "default" w
          = (Return r1, w1))
    (Href : looks_like_refusal (reply r1) = true) :
  let msg := strip (message req) in
  let lang := normalize_language (language req) in
  let second := first_request w msg None lang true "default" in
  let fallback := simple_request w msg lang "general" in
  sessionId second = None /\
  input_text second = build_prompt msg lang true "default" /\
  has_part (force_line lang) (input_text second) /\
  (exists out rest,
     calls_between w1 (snd (chat req w)) = RetrieveAndGenerate second out :: rest) /\
  (forall r2 w2,
     call_bedrock msg None lang true "default" w1 = (Return r2, w2) ->
     looks_like_refusal (reply r2) = true ->
     chat req w = call_model_simple msg lang "general" w2 /\
     user_text fallback = build_general_fallback_prompt msg lang /\
     exists out3, calls_between w2 (snd (chat req w)) = [InvokeModel fallback out3]).
Proof.
  cbv zeta.
  pose proof (call_bedrock_setting _ _ _ _ _ _ _ _ H1) as Hs1.
  pose proof (chat_after_first_refusal req w r1 w1 Hne Hg H1 Href) as Hchat.
  split; [reflexivity|]. split; [reflexivity|].
  split; [apply build_prompt_forces|]. split.
  - destruct (call_bedrock _ None _ true _ w1) as [x2 w2] eqn:H2.
    pose proof (call_bedrock_setting _ _ _ _ _ _ _ _ H2) as Hs2.
    apply call_bedrock_log in H2.
    destruct H2 as (n2 & Hlog2 & _ & _ & Hfirst & _).
    rewrite (same_setting_configured _ _ Hs1) in Hfirst.
    destruct (Hfirst Hconf) as (out & rest & ->).
    rewrite (same_setting_first_request _ _ _ _ _ _ _ Hs1) in Hlog2.
    destruct x2 as [r2|e].
    + destruct (looks_like_refusal (reply r2)).
      * destruct (call_model_simple_log (strip (message req))
                    (normalize_language (language req)) "general" w2)
          as (r & w3 & n3 & Hrun & _ & Hlog3 & _).
        rewrite Hchat, Hrun. cbn [snd].
        exists out, (rest ++ n3)%list. apply calls_between_app.
        rewrite Hlog3, Hlog2, <- app_assoc. reflexivity.
      * rewrite Hchat. cbn [snd]. exists out, rest. now apply calls_between_app.
    + rewrite Hchat. cbn [snd]. exists out, rest. now apply calls_between_app.
  - intros r2 w2 H2 Href2.
    pose proof (call_bedrock_setting _ _ _ _ _ _ _ _ H2) as Hs2.
    pose proof (same_setting_trans _ _ _ Hs1 Hs2) as Hs.
    rewrite H2, Href2 in Hchat.
    split; [exact Hchat|]. split; [reflexivity|].
    destruct (call_model_simple_log (strip (message req))
                (normalize_language (language req)) "general" w2)
      as (r & w3 & n3 & Hrun & _ & Hlog3 & _ & _ & _ & Hone & _).
    rewrite Hchat, Hrun. cbn [snd].
    rewrite (same_setting_simple_model _ _ Hs) in Hone.
    destruct (Hone (configured_simple_model _ Hconf)) as [out3 ->].
    exists out3. rewrite <- (same_setting_simple_request _ _ _ _ _ Hs).
    now apply calls_between_app.
Qed.

Lemma refusal_escalates_witness :
  let w := Samples.world Samples.kb_env Samples.refusing in
  exists r1 w1 out rest,
    call_bedrock (strip (message Samples.question)) None "en" false "default" w
    = (Return r1, w1) /\
    looks_like_refusal (reply r1) = true /\
    calls_between w1 (snd (chat Samples.question w))
    = RetrieveAndGenerate
        (first_request w (strip (message Samples.question)) None "en" true "default")
        out :: rest.
Proof.
  cbv zeta.
  destruct (call_bedrock (strip (message Samples.question)) None "en" false "default"
              (Samples.world Samples.kb_env Samples.refusing)) as [x w1] eqn:H1.
  assert (Hx : x = Return {| res_conversationId := Some "session-2";
                             reply := "Sorry, I am unable to assist with that request." |}).
  { apply (f_equal fst) in H1. vm_compute in H1. now rewrite <- H1. }
  subst x.
  assert (Hne : strip (message Samples.question) <> "") by (vm_compute; discriminate).
  assert (Hg : is_greeting (strip (message Samples.question)) = false)
    by (vm_compute; reflexivity).
  assert (Hconf : configured (Samples.world Samples.kb_env Samples.refusing) = true)
    by (vm_compute; reflexivity).
  assert (Href : looks_like_refusal "Sorry, I am unable to assist with that request." = true)
    by (vm_compute; reflexivity).
  destruct (refusal_escalates Samples.question
              (Samples.world Samples.kb_env Samples.refusing) _ w1 Hne Hg Hconf H1 Href)
    as (_ & _ & _ & (out & rest & Hcalls) & _).
  eexists. exists w1, out, rest. split; [reflexivity|]. split; [exact Href|].
  exact Hcalls.
Defined.
(** ** Conversation ids *)

(** C1, at a greeting that carries the caller's token, and at a question
    that ends in the general fallback.  The greeting is answered without a
    conversation id, whether or not the direct model is configured,
    although the caller supplied one; the question is answered without one
    although the provider assigned a session to each retrieval attempt. *)
Theorem greeting_has_no_conversation_id :
  let req := {| message := "hello"; conversationId := Some "abc";
                language := Some "en" |} in
  fst (chat req (Samples.world Samples.no_env Samples.helpful))
  = Return {| res_conversationId := None; reply := "Hi! How can I help?" |} /\
  fst (chat req (Samples.world Samples.kb_env Samples.helpful))
  = Return {| res_conversationId := None;
              reply := "Summary: Hello, I am your guide." |} /\
  fst (chat Samples.stale_question (Samples.world Samples.kb_env Samples.refusing))
  = Return {| res_conversationId := None;
              reply := "Summary: try remapping the buttons." |}.
Proof. vm_compute. repeat split; reflexivity. Qed.
(* ===================================================================== *)
(** * Further properties of the code *)
(* ===================================================================== *)

(** ** More on strings *)

Section MoreStrings.

Lemma append_length_nil (a s b : string) : s = a ++ s ++ b -> a = "" /\ b = "".
Proof.
  intros H. apply (f_equal String.length) in H.
  rewrite !length_append in H.
  destruct a, b; simpl in H; try (split; reflexivity); lia.
Qed.

(** A trimmed text has no whitespace to drop at either end. *)
Lemma strip_fixed (p : string) : strip p = p -> lstrip p = p /\ rstrip p = p.
Proof.
  intros H. destruct (lstrip_decompose p) as (a & Ea & _).
  destruct (rstrip_decompose (lstrip p)) as (b & Eb & _).
  fold (strip p) in Eb. rewrite H in Eb.
  assert (E : p = a ++ p ++ b) by (rewrite <- Eb; exact Ea).
  apply append_length_nil in E as [-> ->].
  rewrite append_nil_r in Eb. split; [exact Eb|].
  unfold strip in H. now rewrite Eb in H.
Qed.

(** A text that is a trimmed lower-case text up to letter case is
    trimmed. *)
Lemma same_letters_trimmed (t p : string) :
  same_letters t p = true -> in_lower_case p = true -> strip p = p ->
  strip t = t.
Proof.
  intros Ht Hp Hfix.
  destruct (strip_decompose t) as (a & b & Et & Ha & Hb).
  destruct (same_letters_list_lower _ _ [] Ht Hp) as (_ & _ & Hplain & _).
  pose proof (lower_same_letters _ _ Ht Hp) as Hlow.
  remember (strip t) as s eqn:Es.
  unfold lower in Hlow. rewrite lower_from_plain in Hlow by assumption.
  rewrite Et in Hlow.
  rewrite decode_app_valid in Hlow
    by (apply Forall_space_valid; now apply decode_all_space).
  rewrite decode_app_stop in Hlow by now apply all_space_clean.
  rewrite !flat_map_app, !encode_app in Hlow.
  rewrite (flat_map_space (decode a)), (flat_map_space (decode b)) in Hlow
    by now apply decode_all_space.
  rewrite !encode_decode in Hlow.
  set (p' := encode (flat_map lower_full (decode s))) in Hlow.
  destruct (strip_fixed p Hfix) as [Hl Hr].
  assert (Ea : a = "").
  { rewrite <- Hlow in Hl. rewrite (lstrip_app_all_space _ _ Ha) in Hl.
    destruct (lstrip_decompose (p' ++ b)) as (a1 & E1 & _).
    rewrite Hl in E1. apply (f_equal String.length) in E1.
    rewrite !length_append in E1. destruct a; [reflexivity | simpl in E1; lia]. }
  assert (Eb : b = "").
  { rewrite <- Hlow in Hr. rewrite <- append_assoc in Hr.
    rewrite (rstrip_app_space _ _ Hb) in Hr.
    destruct (rstrip_decompose (a ++ p')) as (b1 & E1 & _).
    rewrite Hr in E1. apply (f_equal String.length) in E1.
    rewrite !length_append in E1. destruct b; [reflexivity | simpl in E1; lia]. }
  subst a b. simpl in Et. now rewrite append_nil_r in Et.
Qed.

Lemma phrases_trimmed :
  forallb (fun p => strip p =? p) greeting_phrases = true.
Proof. vm_compute. reflexivity. Qed.

Lemma patterns_in_lower_case : forallb in_lower_case refusal_patterns = true.
Proof. vm_compute. reflexivity. Qed.

End MoreStrings.

(** ** The refusal detector *)

(** X1.  [looks_like_refusal] answers true exactly when the lower-cased
    text contains one of the listed phrases; so a phrase in any letter
    case, accented capital included, is found inside arbitrary surrounding
    text. *)
Theorem looks_like_refusal_phrases (text : string) :
  (looks_like_refusal text = true <->
   exists p, In p refusal_patterns /\ has_part p (lower text)) /\
  (forall p q pre post,
     In p refusal_patterns -> same_letters q p = true ->
     text = pre ++ q ++ post ->
     looks_like_refusal text = true).
Proof.
  assert (Hiff : looks_like_refusal text = true <->
                 exists p, In p refusal_patterns /\ has_part p (lower text)).
  { unfold looks_like_refusal. cbv zeta. rewrite existsb_exists.
    split; intros (p & Hin & H); exists p; (split; [exact Hin|]);
      now apply contains_has_part. }
  split; [exact Hiff|].
  intros p q pre post Hin Hq ->. apply Hiff. exists p. split; [exact Hin|].
  apply lower_has_part; [exact Hq|].
  pose proof patterns_in_lower_case as H. rewrite forallb_forall in H. now apply H.
Qed.

Lemma looks_like_refusal_phrases_witness :
  looks_like_refusal "Lo siento: NO TENGO INFORMACIÓN sobre eso." = true.
Proof.
  apply (proj2 (looks_like_refusal_phrases "Lo siento: NO TENGO INFORMACIÓN sobre eso.")
           "no tengo información" "NO TENGO INFORMACIÓN" "Lo siento: " " sobre eso.").
  - simpl. tauto.
  - vm_compute. reflexivity.
  - reflexivity.
Defined.

(** ** The classifier *)

(** X2.  [is_greeting] does not depend on surrounding whitespace, of any
    kind Python trims, nor on the case of the letters: a listed phrase in
    any letter case is a greeting. *)
Theorem is_greeting_insensitive (m : string) :
  is_greeting (strip m) = is_greeting m /\
  (forall a b, all_space a = true -> all_space b = true ->
     is_greeting (a ++ m ++ b) = is_greeting m) /\
  (forall p, In p greeting_phrases -> same_letters m p = true ->
     is_greeting m = true).
Proof.
  split; [|split].
  - unfold is_greeting. now rewrite strip_idem.
  - intros a b Ha Hb. unfold is_greeting. now rewrite strip_padding.
  - intros p Hin Hm. apply is_greeting_letters. exists p. split; [exact Hin|].
    pose proof phrases_in_lower_case as Hl. rewrite forallb_forall in Hl.
    pose proof phrases_trimmed as Ht. rewrite forallb_forall in Ht.
    rewrite (same_letters_trimmed m p Hm (Hl _ Hin)); [exact Hm|].
    apply String.eqb_eq. now apply Ht.
Qed.

Lemma is_greeting_insensitive_witness :
  is_greeting (nbsp ++ "Buenos Dias" ++ em_space) = is_greeting "Buenos Dias" /\
  is_greeting "Buenos Dias" = true.
Proof.
  split.
  - apply (proj1 (proj2 (is_greeting_insensitive "Buenos Dias")) nbsp em_space);
      vm_compute; reflexivity.
  - apply (proj2 (proj2 (is_greeting_insensitive "Buenos Dias")) "buenos dias").
    + simpl. tauto.
    + vm_compute. reflexivity.
Defined.

(** ** The event stream *)

(** X3.  The stream has one event per word plus the meta and done events;
    every delta payload is a non-empty whitespace-free word followed by one
    space; a reply of whitespace only gives just the meta and done
    events. *)
Theorem stream_reply_events (reply : string) (conversation_id : option string) :
  List.length (stream_reply reply conversation_id)
  = List.length (split reply) + 2 /\
  Forall (fun t => exists w, is_word w = true /\ t = w ++ " ")
         (payloads (stream_reply reply conversation_id)) /\
  (all_space reply = true ->
   stream_reply reply conversation_id = [meta conversation_id; done]).
Proof.
  split; [|split].
  - unfold stream_reply. cbn [List.length]. rewrite length_app, length_map.
    simpl. lia.
  - unfold stream_reply. cbn [payloads]. rewrite payloads_deltas. simpl.
    rewrite app_nil_r. apply Forall_forall. intros t Ht.
    apply in_map_iff in Ht as (w & <- & Hw). exists w. split; [|reflexivity].
    pose proof (split_words reply) as H. rewrite forallb_forall in H. now apply H.
  - intros H. unfold stream_reply. now rewrite (split_all_space _ H).
Qed.

Lemma stream_reply_events_witness :
  stream_reply (" " ++ nbsp ++ nl ++ em_space) (Some "s-1")
  = [meta (Some "s-1"); done].
Proof.
  apply (proj2 (proj2 (stream_reply_events (" " ++ nbsp ++ nl ++ em_space)
                         (Some "s-1")))).
  vm_compute. reflexivity.
Defined.

(** X4.  Streaming the text rebuilt from the words gives the same events:
    the stream depends on the reply only through its words. *)
Theorem stream_reply_normalized (reply : string) (conversation_id : option string) :
  split (join " " (split reply)) = split reply /\
  stream_reply (join " " (split reply)) conversation_id
  = stream_reply reply conversation_id.
Proof.
  assert (H : split (join " " (split reply)) = split reply)
    by apply split_join, split_words.
  split; [exact H|]. unfold stream_reply. now rewrite H.
Qed.

(** ** The prompts *)

Section Prompts.

Lemma has_part_refl (p : string) : has_part p p.
Proof. exists "", "". simpl. now rewrite append_nil_r. Qed.

Lemma inserted_here (p : string) : inserted p "" p.
Proof. exists "", "". split; [reflexivity|]. simpl. now rewrite append_nil_r. Qed.

Lemma inserted_app_r (p x a b : string) :
  inserted p a b -> inserted p (x ++ a) (x ++ b).
Proof.
  intros (pre & post & -> & ->). exists (x ++ pre), post.
  now rewrite !append_assoc.
Qed.

Lemma inserted_app_l (p a b y : string) :
  inserted p a b -> inserted p (a ++ y) (b ++ y).
Proof.
  intros (pre & post & -> & ->). exists pre, (post ++ y).
  now rewrite !append_assoc.
Qed.

Lemma extra_policy_inserted (l : string) :
  inserted (force_line l ++ nl) (extra_policy l false) (extra_policy l true).
Proof.
  unfold extra_policy. do 3 apply inserted_app_r. apply inserted_here.
Qed.

End Prompts.

(** Finds [part] in a right-nested concatenation. *)
Ltac find_part :=
  first [ apply has_part_here
        | apply has_part_refl
        | apply has_part_app_l; first [apply has_part_refl | apply has_part_app_r; apply has_part_refl]
        | apply has_part_app_r; find_part ].

(** X5.  The escalated prompt is the default prompt with one more line,
    the stronger directive; and every mode other than "greeting" gives the
    prompt of the default mode. *)
Theorem build_prompt_escalated (m l mode : string) :
  inserted (force_line l ++ nl)
           (build_prompt m l false mode) (build_prompt m l true mode) /\
  (mode <> "greeting" ->
   forall fh, build_prompt m l fh mode = build_prompt m l fh "default").
Proof.
  split.
  - unfold build_prompt, unlines.
    destruct (l =? "es"); cbn [join];
      do 14 apply inserted_app_r; apply inserted_app_l, extra_policy_inserted.
  - intros Hmode fh. unfold build_prompt.
    apply String.eqb_neq in Hmode. rewrite Hmode. reflexivity.
Qed.

Lemma build_prompt_escalated_witness :
  build_prompt "which pad?" "en" true "general"
  = build_prompt "which pad?" "en" true "default".
Proof.
  apply (proj2 (build_prompt_escalated "which pad?" "en" "general")).
  discriminate.
Defined.

(** X6.  Every prompt carries the user's message verbatim and the three
    section headings of its language. *)
Theorem prompts_carry_message (m l : string) (fh : bool) (mode : string) :
  (has_part m (build_prompt m l fh mode) /\
   Forall (fun h => has_part h (build_prompt m l fh mode)) (headings l)) /\
  (has_part m (build_greeting_prompt m l) /\
   Forall (fun h => has_part h (build_greeting_prompt m l)) (headings l)) /\
  (has_part m (build_general_fallback_prompt m l) /\
   Forall (fun h => has_part h (build_general_fallback_prompt m l)) (headings l)).
Proof.
  unfold build_prompt, build_greeting_prompt, build_general_fallback_prompt,
    headings, unlines.
  destruct (l =? "es"); cbn [join];
    repeat match goal with
           | |- _ /\ _ => split
           | |- Forall _ _ => constructor
           end; find_part.
Qed.

(** ** Blank messages *)

(** X7.  A message of whitespace only is rejected with status 400 before
    anything else happens: no provider call, no minted id.  No other
    request is answered with an HTTP error. *)
Theorem chat_rejects_blank (req : ChatRequest) (w : World) :
  (all_space (message req) = true ->
   chat req w = (Raise (HTTPException 400 "`message` is required."), w)) /\
  (forall c d w', chat req w = (Raise (HTTPException c d), w') ->
     all_space (message req) = true /\ c = 400 /\ w' = w).
Proof.
  assert (Hblank : all_space (message req) = true ->
                   chat req w = (Raise (HTTPException 400 "`message` is required."), w)).
  { intros H. apply strip_nil_iff in H. unfold chat, truthy. now rewrite H. }
  split; [exact Hblank|].
  intros c d w' Hrun.
  pose proof (chat_never_raises_http_on_message _ _ _ _ _ Hrun) as H.
  apply strip_nil_iff in H. rewrite (Hblank H) in Hrun.
  injection Hrun as <- _ <-. auto.
Qed.

Lemma chat_rejects_blank_witness :
  chat {| message := "   "; conversationId := None; language := None |}
       (Samples.world Samples.kb_env Samples.helpful)
  = (Raise (HTTPException 400 "`message` is required."),
     Samples.world Samples.kb_env Samples.helpful).
Proof.
  apply (proj1 (chat_rejects_blank
                  {| message := "   "; conversationId := None; language := None |}
                  (Samples.world Samples.kb_env Samples.helpful))).
  reflexivity.
Defined.

(** ** What is sent to the provider *)

Lemma call_bedrock_requests m cid l fh mode w x w' :
  call_bedrock m cid l fh mode w = (x, w') ->
  exists new,
    log w' = (log w ++ new)%list /\
    Forall (fun i => exists out,
              i = RetrieveAndGenerate (first_request w m cid l fh mode) out \/
              i = RetrieveAndGenerate (first_request w m None l fh mode) out) new.
Proof.
  intros H. run_bedrock H.
  all: eexists; split;
    [settle_logs; rewrite <- ?app_assoc;
     first [reflexivity | symmetry; apply app_nil_r]|].
  all: repeat constructor; eexists;
    first [left; reflexivity | right; reflexivity].
Qed.

Lemma call_model_simple_requests m l mode w x w' :
  call_model_simple m l mode w = (x, w') ->
  exists new,
    log w' = (log w ++ new)%list /\
    Forall (fun i => exists out, i = InvokeModel (simple_request w m l mode) out /\
                                 truthy (simple_model w) = true) new.
Proof.
  intros H.
  destruct (call_model_simple_log m l mode w)
    as (r & w0 & new & Hrun & _ & Hlog & _ & _ & _ & Hsome & Hnone & _).
  rewrite Hrun in H. injection H as <- <-.
  exists new. split; [exact Hlog|].
  destruct (truthy (simple_model w)) eqn:E.
  - destruct (Hsome eq_refl) as [out ->]. repeat constructor. eauto.
  - destruct (Hnone eq_refl) as [-> _]. constructor.
Qed.

Lemma same_setting_refl (w : World) : same_setting w w.
Proof. unfold same_setting. auto. Qed.

Lemma Forall_chat_request_bedrock req w w1 c fh new :
  is_greeting (strip (message req)) = false ->
  same_setting w w1 ->
  (c = conversationId req /\ fh = false \/ c = None) ->
  Forall (fun i => exists out,
            i = RetrieveAndGenerate
                  (first_request w1 (strip (message req)) c
                     (normalize_language (language req)) fh "default") out \/
            i = RetrieveAndGenerate
                  (first_request w1 (strip (message req)) None
                     (normalize_language (language req)) fh "default") out) new ->
  Forall (chat_request req w) new.
Proof.
  intros Hg Hs Hc H. apply Forall_forall. intros i Hi.
  rewrite Forall_forall in H. destruct (H i Hi) as [out Hout].
  rewrite !(same_setting_first_request _ _ _ _ _ _ _ Hs) in Hout.
  unfold chat_request. cbv zeta.
  destruct Hout as [-> | ->]; (split; [exact Hg|]).
  - destruct Hc as [[-> ->] | ->]; [now left|].
    destruct fh; [now right; right | now right; left].
  - destruct Hc as [[-> ->] | ->]; [now right; left|].
    destruct fh; [now right; right | now right; left].
Qed.

Lemma Forall_chat_request_simple req w w1 mode new :
  same_setting w w1 ->
  (is_greeting (strip (message req)) = true /\ mode = "greeting" \/
   is_greeting (strip (message req)) = false /\ mode = "general") ->
  Forall (fun i => exists out,
            i = InvokeModel (simple_request w1 (strip (message req))
                               (normalize_language (language req)) mode) out /\
            truthy (simple_model w1) = true) new ->
  Forall (chat_request req w) new.
Proof.
  intros Hs Hm H. apply Forall_forall. intros i Hi.
  rewrite Forall_forall in H. destruct (H i Hi) as (out & -> & _).
  rewrite (same_setting_simple_request _ _ _ _ _ Hs).
  unfold chat_request. cbv zeta.
  destruct Hm as [[Hg ->] | [Hg ->]]; [left | right]; auto.
Qed.

(** X8.  Whatever the provider answers, [chat] sends only these requests:
    for a greeting, the greeting prompt to the direct model; otherwise
    retrieval requests for the default-mode prompt of the trimmed message
    (plain or escalated), whose session id is the caller's token or absent,
    and the general-fallback prompt to the direct model.  A minted id is
    never sent as a session id. *)
Theorem chat_requests (req : ChatRequest) (w : World) x w'
    (Hrun : chat req w = (x, w')) :
  Forall (chat_request req w) (calls_between w w') /\
  (forall r out, In (RetrieveAndGenerate r out) (calls_between w w') ->
     knowledgeBaseId r = env_get w "BEDROCK_KB_ID" "" /\
     (sessionId r = None \/ sessionId r = opt_truthy (conversationId req)) /\
     exists fh, input_text r
                = build_prompt (strip (message req))
                    (normalize_language (language req)) fh "default").
Proof.
  assert (H : Forall (chat_request req w) (calls_between w w')).
  { apply chat_run_complete in Hrun.
    destruct Hrun as [Hne | x w' Hne Hg H | e w' Hne Hg H1 | r1 w' Hne Hg H1 Hr1
                     | r1 w1 e w' Hne Hg H1 Hr1 H2 | r1 w1 r2 w' Hne Hg H1 Hr1 H2 Hr2
                     | r1 w1 r2 w2 x w' Hne Hg H1 Hr1 H2 Hr2 H3].
    - unfold calls_between. rewrite skipn_all. constructor.
    - apply call_model_simple_requests in H as (new & Hlog & Hall).
      rewrite (calls_between_app _ _ _ Hlog).
      apply Forall_chat_request_simple with (w1 := w) (mode := "greeting");
        [apply same_setting_refl | left; auto | exact Hall].
    - apply call_bedrock_requests in H1 as (new & Hlog & Hall).
      rewrite (calls_between_app _ _ _ Hlog).
      apply Forall_chat_request_bedrock
        with (w1 := w) (c := conversationId req) (fh := false);
        [exact Hg | apply same_setting_refl | left; auto | exact Hall].
    - apply call_bedrock_requests in H1 as (new & Hlog & Hall).
      rewrite (calls_between_app _ _ _ Hlog).
      apply Forall_chat_request_bedrock
        with (w1 := w) (c := conversationId req) (fh := false);
        [exact Hg | apply same_setting_refl | left; auto | exact Hall].
    - pose proof (call_bedrock_setting _ _ _ _ _ _ _ _ H1) as Hs1.
      apply call_bedrock_requests in H1 as (n1 & Hlog1 & Hall1).
      apply call_bedrock_requests in H2 as (n2 & Hlog2 & Hall2).
      rewrite (calls_between_app w w' (n1 ++ n2))
        by (rewrite Hlog2, Hlog1; now rewrite <- app_assoc).
      apply Forall_app. split.
      + apply Forall_chat_request_bedrock
          with (w1 := w) (c := conversationId req) (fh := false);
          [exact Hg | apply same_setting_refl | left; auto | exact Hall1].
      + apply Forall_chat_request_bedrock with (w1 := w1) (c := None) (fh := true);
          [exact Hg | exact Hs1 | right; reflexivity | exact Hall2].
    - pose proof (call_bedrock_setting _ _ _ _ _ _ _ _ H1) as Hs1.
      apply call_bedrock_requests in H1 as (n1 & Hlog1 & Hall1).
      apply call_bedrock_requests in H2 as (n2 & Hlog2 & Hall2).
      rewrite (calls_between_app w w' (n1 ++ n2))
        by (rewrite Hlog2, Hlog1; now rewrite <- app_assoc).
      apply Forall_app. split.
      + apply Forall_chat_request_bedrock
          with (w1 := w) (c := conversationId req) (fh := false);
          [exact Hg | apply same_setting_refl | left; auto | exact Hall1].
      + apply Forall_chat_request_bedrock with (w1 := w1) (c := None) (fh := true);
          [exact Hg | exact Hs1 | right; reflexivity | exact Hall2].
    - pose proof (call_bedrock_setting _ _ _ _ _ _ _ _ H1) as Hs1.
      pose proof (call_bedrock_setting _ _ _ _ _ _ _ _ H2) as Hs2.
      pose proof (same_setting_trans _ _ _ Hs1 Hs2) as Hs.
      apply call_bedrock_requests in H1 as (n1 & Hlog1 & Hall1).
      apply call_bedrock_requests in H2 as (n2 & Hlog2 & Hall2).
      apply call_model_simple_requests in H3 as (n3 & Hlog3 & Hall3).
      rewrite (calls_between_app w w' (n1 ++ n2 ++ n3))
        by (rewrite Hlog3, Hlog2, Hlog1; now rewrite <- !app_assoc).
      apply Forall_app. split; [|apply Forall_app; split].
      + apply Forall_chat_request_bedrock
          with (w1 := w) (c := conversationId req) (fh := false);
          [exact Hg | apply same_setting_refl | left; auto | exact Hall1].
      + apply Forall_chat_request_bedrock with (w1 := w1) (c := None) (fh := true);
          [exact Hg | exact Hs1 | right; reflexivity | exact Hall2].
      + apply Forall_chat_request_simple with (w1 := w2) (mode := "general");
          [exact Hs | right; auto | exact Hall3]. }
  split; [exact H|].
  intros r out Hin. rewrite Forall_forall in H. apply H in Hin.
  destruct Hin as [_ [-> | [-> | ->]]];
    (split; [reflexivity|]); (split; [|eexists; reflexivity]); auto.
Qed.

Lemma chat_requests_witness :
  let w := Samples.world Samples.kb_env Samples.refusing in
  Forall (chat_request Samples.stale_question w)
         (calls_between w (snd (chat Samples.stale_question w))).
Proof.
  cbv zeta.
  refine (proj1 (chat_requests Samples.stale_question
                   (Samples.world Samples.kb_env Samples.refusing)
                   (fst (chat Samples.stale_question
                           (Samples.world Samples.kb_env Samples.refusing)))
                   (snd (chat Samples.stale_question
                           (Samples.world Samples.kb_env Samples.refusing))) _)).
  vm_compute. reflexivity.
Defined.

(** ** Nothing configured *)

Lemma simple_model_unset_unconfigured (w : World) :
  truthy (simple_model w) = false -> configured w = false.
Proof.
  unfold simple_model, configured, or_str. intros H.
  destruct (truthy (env_get w "BEDROCK_MODEL_ARN" "")) eqn:E; [congruence|].
  rewrite H. apply andb_false_r.
Qed.

(** X9.  With neither model identifier nor model ARN set, [chat] never
    calls the provider and always answers a message: a greeting, and any
    message whose echo looks like a refusal, gets the canned greeting
    without conversation id; every other message gets its echo with the
    caller's token or a minted one. *)
Theorem chat_without_model (req : ChatRequest) (w : World)
    (Hne : strip (message req) <> "")
    (Hmodel : truthy (simple_model w) = false) :
  let msg := strip (message req) in
  let lang := normalize_language (language req) in
  exists r w',
    chat req w = (Return r, w') /\ log w' = log w /\
    (if is_greeting msg || looks_like_refusal (echo_reply msg lang)
     then r = {| res_conversationId := None; reply := canned_greeting lang |}
     else r = {| res_conversationId := Some (fst (minted (conversationId req) w));
                 reply := echo_reply msg lang |}).
Proof.
  cbv zeta.
  pose proof (simple_model_unset_unconfigured _ Hmodel) as Hconf.
  destruct (is_greeting (strip (message req))) eqn:Hg; cbn [orb].
  - exists {| res_conversationId := None;
              reply := canned_greeting (normalize_language (language req)) |}, w.
    split; [|auto]. apply chat_run_sound. apply run_greeting; try assumption.
    now rewrite call_model_simple_run, Hmodel.
  - destruct (looks_like_refusal
                (echo_reply (strip (message req)) (normalize_language (language req))))
      eqn:Hr.
    + set (w1 := snd (minted (conversationId req) w)).
      set (w2 := snd (minted None w1)).
      assert (Hs1 : same_setting w w1) by apply minted_setting.
      assert (Hs2 : same_setting w1 w2) by apply minted_setting.
      exists {| res_conversationId := None;
                reply := canned_greeting (normalize_language (language req)) |}, w2.
      split; [|split; [|reflexivity]].
      * apply chat_run_sound.
        eapply run_general with
          (r1 := {| res_conversationId := Some (fst (minted (conversationId req) w));
                    reply := echo_reply (strip (message req))
                               (normalize_language (language req)) |})
          (w1 := w1)
          (r2 := {| res_conversationId := Some (fst (minted None w1));
                    reply := echo_reply (strip (message req))
                               (normalize_language (language req)) |})
          (w2 := w2); try assumption.
        -- now rewrite call_bedrock_unconfigured, echo_result_run.
        -- rewrite call_bedrock_unconfigured, echo_result_run; [reflexivity|].
           now rewrite (same_setting_configured _ _ Hs1).
        -- rewrite call_model_simple_run.
           rewrite (same_setting_simple_model _ _ (same_setting_trans _ _ _ Hs1 Hs2)).
           now rewrite Hmodel.
      * unfold w2, w1.
        rewrite (proj2 (minted_setting None _)).
        apply minted_setting.
    + destruct (echo_fallback_plain req w Hne Hg Hconf Hr) as [Hrun Hlog].
      eexists. eexists. split; [exact Hrun|]. split; [exact Hlog | reflexivity].
Qed.

Lemma chat_without_model_witness :
  exists r w',
    chat Samples.cannot_help_question (Samples.world Samples.no_env Samples.helpful)
    = (Return r, w') /\
    log w' = [] /\
    r = {| res_conversationId := None; reply := "Hi! How can I help?" |}.
Proof.
  assert (Hne : strip (message Samples.cannot_help_question) <> "")
    by (vm_compute; discriminate).
  assert (Hm : truthy (simple_model (Samples.world Samples.no_env Samples.helpful))
               = false) by reflexivity.
  destruct (chat_without_model Samples.cannot_help_question
              (Samples.world Samples.no_env Samples.helpful) Hne Hm)
    as (r & w' & Hrun & Hlog & Hr).
  exists r, w'. split; [exact Hrun|]. split; [exact Hlog|].
  vm_compute in Hr. exact Hr.
Defined.

(** ** Session ids after a retry, and the first answer *)

(** X10.  When the retry after an invalid-session rejection succeeds but
    its response carries no session id, [call_bedrock] answers with the
    very token the provider has just rejected. *)
Theorem rejected_token_returned (m tok l : string) (fh : bool) (mode : string)
    (w : World) (msg : string) (res : RGResponse)
    (Hconf : configured w = true)
    (Htok : tok <> "")
    (Hrej : retrieve_and_generate_oracle (provider w) (log w)
              (first_request w m (Some tok) l fh mode) = RGClientError msg)
    (Hsig : invalid_session msg = true)
    (Hretry : retrieve_and_generate_oracle (provider w)
                (log w ++ [RetrieveAndGenerate
                             (first_request w m (Some tok) l fh mode)
                             (RGClientError msg)])%list
                (first_request w m None l fh mode) = RGOk res)
    (Hnone : opt_truthy (res_sessionId res) = None) :
  exists r w',
    call_bedrock m (Some tok) l fh mode w = (Return r, w') /\
    res_conversationId r = Some tok /\
    draws w' = draws w.
Proof.
  rewrite (call_bedrock_configured _ _ _ _ _ _ Hconf). cbv zeta.
  rewrite Hrej, Hsig. cbn [provider log_call log].
  change (pop_sessionId (first_request w m (Some tok) l fh mode))
    with (first_request w m None l fh mode).
  rewrite Hretry. cbn [after_retry]. rewrite bedrock_result_run.
  eexists. eexists. split; [reflexivity|].
  unfold result_world, minted. rewrite Hnone. cbn [opt_truthy].
  apply truthy_true in Htok. rewrite Htok. split; reflexivity.
Qed.

Lemma rejected_token_returned_witness :
  exists r w',
    call_bedrock "How do I set up an adaptive controller?" (Some "stale-session")
                 "en" false "default"
                 (Samples.world Samples.kb_env MoreSamples.forgetful)
    = (Return r, w') /\
    res_conversationId r = Some "stale-session".
Proof.
  destruct (rejected_token_returned
              "How do I set up an adaptive controller?" "stale-session" "en"
              false "default" (Samples.world Samples.kb_env MoreSamples.forgetful)
              ("An error occurred (ValidationException) when calling the "
               ++ "RetrieveAndGenerate operation: Session with Id stale-session "
               ++ "is not valid. Please check and try again.")
              {| output_text := Some "Summary: use a one-handed controller.";
                 res_sessionId := None |})
    as (r & w' & Hrun & Hid & _);
    try (vm_compute; reflexivity); [discriminate|].
  exists r, w'. split; [exact Hrun | exact Hid].
Defined.

(** X11.  When retrieval is configured and the provider's first answer to
    a substantive request does not look like a refusal, [chat] makes that
    one call only and returns the answer, with the provider's session id
    when the response carries one. *)
Theorem first_answer_returned (req : ChatRequest) (w : World) (res : RGResponse)
    (Hne : strip (message req) <> "")
    (Hg : is_greeting (strip (message req)) = false)
    (Hconf : configured w = true)
    (Hout : retrieve_and_generate_oracle (provider w) (log w)
              (first_request w (strip (message req)) (conversationId req)
                 (normalize_language (language req)) false "default")
            = RGOk res)
    (Hans : looks_like_refusal
              (match opt_truthy (output_text res) with
               | Some t => t
               | None => no_answer (normalize_language (language req))
               end) = false) :
  let first := first_request w (strip (message req)) (conversationId req)
                 (normalize_language (language req)) false "default" in
  exists r w',
    chat req w = (Return r, w') /\
    calls_between w w' = [RetrieveAndGenerate first (RGOk res)] /\
    reply r = match opt_truthy (output_text res) with
              | Some t => t
              | None => no_answer (normalize_language (language req))
              end /\
    (forall s, opt_truthy (res_sessionId res) = Some s ->
               res_conversationId r = Some s).
Proof.
  cbv zeta. eexists. eexists. split; [|split; [|split]].
  - apply chat_run_sound. apply run_first_answer; try assumption.
    + rewrite (call_bedrock_configured _ _ _ _ _ _ Hconf). cbv zeta.
      rewrite Hout, bedrock_result_run. reflexivity.
    + exact Hans.
  - apply calls_between_app. settle_logs. reflexivity.
  - reflexivity.
  - intros s Hs. cbn [res_conversationId]. now rewrite Hs.
Qed.

Lemma first_answer_returned_witness :
  let w := Samples.world Samples.kb_env Samples.helpful in
  exists r w',
    chat Samples.question w = (Return r, w') /\
    List.length (calls_between w w') = 1 /\
    res_conversationId r = Some "session-1".
Proof.
  cbv zeta.
  assert (Hne : strip (message Samples.question) <> "") by (vm_compute; discriminate).
  destruct (first_answer_returned Samples.question
              (Samples.world Samples.kb_env Samples.helpful)
              {| output_text := Some "Summary: use a one-handed controller.";
                 res_sessionId := Some "session-1" |} Hne)
    as (r & w' & Hrun & Hcalls & _ & Hsid);
    try (vm_compute; reflexivity).
  exists r, w'. split; [exact Hrun|]. split; [now rewrite Hcalls|].
  apply Hsid. reflexivity.
Defined.

(** ** The direct-model wrapper *)

Lemma strip_canned_greeting (l : string) :
  strip (canned_greeting l) = canned_greeting l.
Proof. unfold canned_greeting. destruct (l =? "es"); vm_compute; reflexivity. Qed.

(** X12.  [call_model_simple] never answers with a conversation id.
    Without a model it answers the canned greeting and calls nothing.
    With a model it makes one call, and answers the trimmed text of the
    first block of the response or, when that is empty, the canned
    greeting: a reply that is non-empty and trimmed; an exception of the
    call gives the canned greeting. *)
Theorem call_model_simple_answers (m l mode : string) (w : World) :
  let req := simple_request w m l mode in
  (truthy (simple_model w) = false ->
   call_model_simple m l mode w
   = (Return {| res_conversationId := None; reply := canned_greeting l |}, w)) /\
  (forall content,
     truthy (simple_model w) = true ->
     invoke_model_oracle (provider w) (log w) req = IMOk content ->
     exists r,
       call_model_simple m l mode w
       = (Return r, log_call (InvokeModel req (IMOk content)) w) /\
       res_conversationId r = None /\
       reply r <> "" /\
       strip (reply r) = reply r /\
       reply r = (if truthy (strip (first_text content))
                  then strip (first_text content)
                  else canned_greeting l)) /\
  (forall e,
     truthy (simple_model w) = true ->
     invoke_model_oracle (provider w) (log w) req = IMError e ->
     call_model_simple m l mode w
     = (Return {| res_conversationId := None; reply := canned_greeting l |},
        log_call (InvokeModel req (IMError e)) w)).
Proof.
  cbv zeta. rewrite call_model_simple_run. split; [|split].
  - intros E. now rewrite E.
  - intros content E Hout. rewrite E. cbn [negb]. cbv zeta. rewrite Hout.
    eexists. split; [reflexivity|]. cbn [res_conversationId reply].
    split; [reflexivity|].
    split; [apply or_str_not_nil, canned_greeting_not_nil|].
    split; [|reflexivity].
    unfold or_str. destruct (truthy (strip (first_text content))).
    + apply strip_idem.
    + apply strip_canned_greeting.
  - intros e E Hout. rewrite E. cbn [negb]. cbv zeta. now rewrite Hout.
Qed.

Lemma call_model_simple_answers_witness :
  let w := Samples.world Samples.kb_env Samples.helpful in
  exists r,
    call_model_simple "hello" "en" "greeting" w
    = (Return r, log_call (InvokeModel (simple_request w "hello" "en" "greeting")
                             (IMOk [Some "Summary: Hello, I am your guide."])) w) /\
    reply r = "Summary: Hello, I am your guide.".
Proof.
  cbv zeta.
  destruct (proj1 (proj2 (call_model_simple_answers "hello" "en" "greeting"
                            (Samples.world Samples.kb_env Samples.helpful)))
              [Some "Summary: Hello, I am your guide."] eq_refl eq_refl)
    as (r & Hrun & _ & _ & _ & Hr).
  exists r. split; [exact Hrun|]. rewrite Hr. vm_compute. reflexivity.
Defined.

(** ** Blank answers *)

Lemma list_ascii_app (a b : string) :
  list_ascii_of_string (a ++ b)
  = (list_ascii_of_string a ++ list_ascii_of_string b)%list.
Proof. induction a as [|c a IH]; simpl; congruence. Qed.

(** Whitespace is made of the bytes of whitespace code points. *)
Lemma all_space_bytes (t : string) :
  all_space t = true -> Forall (fun a => ws_byte a = true) (list_ascii_of_string t).
Proof.
  induction t as [t H | t k H IH] using ws_ind; intros Ht.
  - rewrite (all_space_zero _ H Ht). constructor.
  - rewrite (all_space_pos _ _ H) in Ht. specialize (IH Ht).
    apply ws_len_pos in H as (c & s & -> & Hk & Hsp).
    cbn [drop] in IH. rewrite <- (head_cp_encode c s), Hk, list_ascii_app.
    apply Forall_app. split; [|exact IH].
    apply Forall_forall. intros a Ha. unfold ws_byte.
    apply existsb_exists. exists (fst (head_cp (byte c) s)).
    split; [now apply isspace_cases|].
    apply existsb_exists. exists a. split; [exact Ha | apply Ascii.eqb_refl].
Qed.

Lemma blank_not_refusal (t : string) :
  all_space t = true -> looks_like_refusal t = false.
Proof.
  intros Ht. destruct (looks_like_refusal t) eqn:E; [|reflexivity].
  exfalso. unfold looks_like_refusal in E. cbv zeta in E.
  apply existsb_exists in E as (p & Hin & Hc).
  rewrite (lower_all_space _ Ht) in Hc.
  apply contains_has_part in Hc as (pre & post & Hl).
  apply all_space_bytes in Ht. rewrite Hl, !list_ascii_app in Ht.
  apply Forall_app in Ht as [_ Ht]. apply Forall_app in Ht as [Ht _].
  unfold refusal_patterns in Hin. simpl in Hin.
  repeat (destruct Hin as [<- | Hin];
          [inversion Ht as [|a rest Ha _]; vm_compute in Ha; discriminate Ha|]).
  contradiction.
Qed.

(** X13.  A provider answer made of whitespace only is not replaced: when
    it is the first answer to a substantive request, [chat] returns it as
    the reply and [chat_stream] emits the meta and done events with no
    delta event between them. *)
Theorem blank_answer_streams_nothing (req : ChatRequest) (w : World)
    (res : RGResponse) (t : string)
    (Hne : strip (message req) <> "")
    (Hg : is_greeting (strip (message req)) = false)
    (Hconf : configured w = true)
    (Hout : retrieve_and_generate_oracle (provider w) (log w)
              (first_request w (strip (message req)) (conversationId req)
                 (normalize_language (language req)) false "default")
            = RGOk res)
    (Ht : output_text res = Some t)
    (Hnn : t <> "")
    (Hblank : all_space t = true) :
  exists cid w',
    chat req w = (Return {| res_conversationId := cid; reply := t |}, w') /\
    chat_stream req w = (Return [meta cid; done], w').
Proof.
  assert (Hopt : opt_truthy (output_text res) = Some t).
  { rewrite Ht. simpl. apply truthy_true in Hnn. now rewrite Hnn. }
  assert (Hrun : chat req w
                 = (Return {| res_conversationId :=
                                Some (match opt_truthy (res_sessionId res) with
                                      | Some s => s
                                      | None =>
                                          fst (minted (conversationId req)
                                                 (log_call
                                                    (RetrieveAndGenerate
                                                       (first_request w
                                                          (strip (message req))
                                                          (conversationId req)
                                                          (normalize_language (language req))
                                                          false "default")
                                                       (RGOk res)) w))
                                      end);
                              reply := t |},
                    result_world res (conversationId req)
                      (log_call
                         (RetrieveAndGenerate
                            (first_request w (strip (message req))
                               (conversationId req)
                               (normalize_language (language req)) false "default")
                            (RGOk res)) w))).
  { apply chat_run_sound. apply run_first_answer; try assumption.
    - rewrite (call_bedrock_configured _ _ _ _ _ _ Hconf). cbv zeta.
      rewrite Hout, bedrock_result_run, Hopt. reflexivity.
    - now apply blank_not_refusal. }
  eexists. eexists. split; [exact Hrun|].
  unfold chat_stream, bind, ret. rewrite Hrun. cbn [reply res_conversationId].
  unfold stream_reply. now rewrite (split_all_space _ Hblank).
Qed.

Lemma blank_answer_streams_nothing_witness :
  exists cid w',
    chat_stream Samples.question (Samples.world Samples.kb_env MoreSamples.blank)
    = (Return [meta cid; done], w').
Proof.
  assert (Hne : strip (message Samples.question) <> "") by (vm_compute; discriminate).
  destruct (blank_answer_streams_nothing Samples.question
              (Samples.world Samples.kb_env MoreSamples.blank)
              {| output_text := Some ("  " ++ nl); res_sessionId := Some "session-3" |}
              ("  " ++ nl) Hne)
    as (cid & w' & _ & Hs);
    try (vm_compute; reflexivity); [discriminate|].
  exists cid, w'. exact Hs.
Defined.

(** ** Minted conversation ids *)

Section Uuid.

Lemma get_skip (a b : string) (n m : nat) :
  m = String.length a + n -> get m (a ++ b) = get n b.
Proof.
  intros ->. rewrite Nat.add_comm. symmetry. apply append_correct2.
Qed.

Lemma get_first_hex (k : nat) (v : N) :
  get 0 (hex_of (S k) v) = Some (hex_digit ((v / 16 ^ N.of_nat k) mod 16)).
Proof.
  revert v. induction k as [|k IH]; intros v.
  - cbn [hex_of append get]. simpl N.of_nat. rewrite N.pow_0_r, N.div_1_r.
    reflexivity.
  - change (hex_of (S (S k)) v)
      with (hex_of (S k) (v / 16) ++ String (hex_digit (v mod 16)) "").
    rewrite <- append_correct1 by (rewrite length_hex_of; lia).
    rewrite IH. rewrite N.Div0.div_div.
    rewrite Nat2N.inj_succ, N.pow_succ_r'. reflexivity.
Qed.

Lemma version_nibble (i : N) :
  (((N.lor (N.ldiff i (N.shiftl 61440 64)) (N.shiftl 4 76) / 2 ^ 64) mod 2 ^ 16
    / 16 ^ 3) mod 16 = 4)%N.
Proof.
  change (16 ^ 3)%N with (2 ^ 12)%N. change 16%N with (2 ^ 4)%N.
  apply N.bits_inj. intros n.
  destruct (N.lt_ge_cases n 4) as [Hn|Hn].
  - rewrite N.mod_pow2_bits_low by assumption.
    rewrite N.div_pow2_bits.
    rewrite N.mod_pow2_bits_low by lia.
    rewrite N.div_pow2_bits.
    rewrite N.lor_spec, N.ldiff_spec.
    rewrite !N.shiftl_spec_high' by lia.
    replace (n + 12 + 64 - 64)%N with (n + 12)%N by lia.
    replace (n + 12 + 64 - 76)%N with n by lia.
    assert (Hc : (n = 0 \/ n = 1 \/ n = 2 \/ n = 3)%N) by lia.
    destruct Hc as [ -> | [ -> | [ -> | -> ]]]; cbn [N.add Pos.add Pos.succ];
      change (N.testbit 61440 _) with true;
      cbn [negb]; now rewrite andb_false_r.
  - rewrite N.mod_pow2_bits_high by assumption.
    symmetry. apply (N.bits_above_log2 4 n). simpl. lia.
Qed.

End Uuid.

(** X14.  A minted conversation id has the shape of a version-4 UUID: 36
    characters, dashes at positions 8, 13, 18 and 23, and the digit 4 at
    position 14. *)
Theorem new_conversation_id_shape (w : World) :
  exists tok,
    new_conversation_id w = (Return tok, draw w) /\
    String.length tok = 36 /\
    get 8 tok = Some "-"%char /\ get 13 tok = Some "-"%char /\
    get 18 tok = Some "-"%char /\ get 23 tok = Some "-"%char /\
    get 14 tok = Some "4"%char.
Proof.
  exists (next_uuid w). split; [reflexivity|].
  split; [apply length_uuid_str|].
  unfold next_uuid, uuid_str.
  set (u := uuid4 (entropy w (draws w))).
  repeat split.
  rewrite (get_skip _ _ 6) by (rewrite length_hex_of; reflexivity). cbn [append get].
  rewrite (get_skip _ _ 1) by (rewrite length_hex_of; reflexivity). cbn [append get].
  rewrite <- append_correct1 by (rewrite length_hex_of; lia).
  rewrite get_first_hex. unfold u, uuid4. cbv zeta.
  change (N.of_nat 3) with 3%N. rewrite version_nibble. reflexivity.
Qed.
(** ** The conversation id of a retrieval attempt *)

Section Tokens.

Lemma minted_log_call (cid : option string) (i : Interaction) (w : World) :
  fst (minted cid (log_call i w)) = fst (minted cid w).
Proof. unfold minted. destruct (opt_truthy cid); reflexivity. Qed.

(** The token [call_bedrock] answers with: the session id of its last
    response, else the token handed in, else a minted one. *)
Lemma call_bedrock_token m cid l fh mode w r w' :
  call_bedrock m cid l fh mode w = (Return r, w') ->
  res_conversationId r
  = Some (match provider_session (calls_between w w') with
          | Some s => s
          | None => fst (minted cid w)
          end).
Proof.
  intros H. run_bedrock H; cbn [res_conversationId].
  - rewrite (calls_between_app _ _ [RetrieveAndGenerate
               (first_request w m cid l fh mode) (RGOk res)])
      by (settle_logs; reflexivity).
    unfold provider_session. cbn [last].
    destruct (opt_truthy (res_sessionId res)); [reflexivity|].
    now rewrite minted_log_call.
  - rewrite (calls_between_app _ _
               [RetrieveAndGenerate (first_request w m cid l fh mode)
                  (RGClientError msg);
                RetrieveAndGenerate
                  (pop_sessionId (first_request w m cid l fh mode)) (RGOk res)])
      by (settle_logs; rewrite <- app_assoc; reflexivity).
    unfold provider_session. cbn [last].
    destruct (opt_truthy (res_sessionId res)); [reflexivity|].
    now rewrite !minted_log_call.
  - rewrite (calls_between_app _ _ [RetrieveAndGenerate
               (first_request w m cid l fh mode) (RGOtherError msg)])
      by (settle_logs; reflexivity).
    unfold provider_session. cbn [last]. now rewrite minted_log_call.
  - rewrite (calls_between_app _ _ []) by (settle_logs; now rewrite app_nil_r).
    reflexivity.
Qed.

End Tokens.

(** X25.  The conversation id of a substantive request answered by a
    retrieval attempt.  It is the session id of the attempt's last
    response when that names one.  Otherwise the first attempt answers
    with the caller's token, or a minted id when there is none; the
    escalated attempt answers with a minted id, never with the caller's
    token nor with the session of the first attempt. *)
Theorem chat_session_token (req : ChatRequest) (w : World)
    (res : ChatResult) (w' : World)
    (Hrun : chat req w = (Return res, w'))
    (Hg : is_greeting (strip (message req)) = false) :
  let msg := strip (message req) in
  let lang := normalize_language (language req) in
  fell_back req w \/
  (call_bedrock msg (conversationId req) lang false "default" w = (Return res, w') /\
   looks_like_refusal (reply res) = false /\
   res_conversationId res
   = Some (match provider_session (calls_between w w') with
           | Some s => s
           | None => fst (minted (conversationId req) w)
           end)) \/
  (exists r1 w1,
     call_bedrock msg (conversationId req) lang false "default" w = (Return r1, w1) /\
     looks_like_refusal (reply r1) = true /\
     call_bedrock msg None lang true "default" w1 = (Return res, w') /\
     looks_like_refusal (reply res) = false /\
     res_conversationId res
     = Some (match provider_session (calls_between w1 w') with
             | Some s => s
             | None => next_uuid w1
             end)).
Proof.
  cbv zeta. apply chat_run_complete in Hrun.
  inversion Hrun as [Hne | x v Hne Hg' H | e v Hne Hg' H1 | r1 v Hne Hg' H1 Hr1
                    | r1 w1 e v Hne Hg' H1 Hr1 H2 | r1 w1 r2 v Hne Hg' H1 Hr1 H2 Hr2
                    | r1 w1 r2 w2 x v Hne Hg' H1 Hr1 H2 Hr2 H3]; subst;
    try congruence.
  - right. left. split; [exact H1|]. split; [exact Hr1|].
    now apply call_bedrock_token in H1.
  - right. right. exists r1, w1. split; [exact H1|]. split; [exact Hr1|].
    split; [exact H2|]. split; [exact Hr2|].
    now apply call_bedrock_token in H2.
  - left. exists r1, w1, r2, w2. auto.
Qed.

Lemma chat_session_token_witness :
  let w := Samples.world Samples.kb_env MoreSamples.reluctant in
  let req := {| message := "How do I set up an adaptive controller?";
                conversationId := Some "abc"; language := Some "en" |} in
  let res := {| res_conversationId := Some (next_uuid w);
                reply := "Summary: use a one-handed controller." |} in
  let w' := snd (chat req w) in
  let msg := strip (message req) in
  let lang := normalize_language (language req) in
  chat req w = (Return res, w') /\
  next_uuid w <> "abc" /\ next_uuid w <> "session-1" /\
  (fell_back req w \/
   (call_bedrock msg (conversationId req) lang false "default" w = (Return res, w') /\
    looks_like_refusal (reply res) = false /\
    res_conversationId res
    = Some (match provider_session (calls_between w w') with
            | Some s => s
            | None => fst (minted (conversationId req) w)
            end)) \/
   (exists r1 w1,
      call_bedrock msg (conversationId req) lang false "default" w = (Return r1, w1) /\
      looks_like_refusal (reply r1) = true /\
      call_bedrock msg None lang true "default" w1 = (Return res, w') /\
      looks_like_refusal (reply res) = false /\
      res_conversationId res
      = Some (match provider_session (calls_between w1 w') with
              | Some s => s
              | None => next_uuid w1
              end))).
Proof.
  cbv zeta. split; [vm_compute; reflexivity|].
  split; [vm_compute; discriminate|].
  split; [vm_compute; discriminate|].
  apply chat_session_token; vm_compute; reflexivity.
Defined.

(* ===================================================================== *)
(** * The lambda handler *)
(* ===================================================================== *)

(** ** Model ARNs *)

(** X15.  [get_model_arn] returns a non-empty override as it is.  Without
    one, a model id that is not an inference profile gets the
    foundation-model ARN that main.py's [call_bedrock] sends as well; for
    an inference profile ("us." or "global." prefix) the lambda's ARN
    names the profile within the account and is never the ARN main.py
    sends. *)
Theorem lambda_model_arn (model_id region account_id model_arn_override : string)
    (kb message : string) (cid : option string) (language : string)
    (fh : bool) (mode : string) :
  let main_arn :=
    modelArn (bedrock_request kb model_id model_arn_override region
                              message cid language fh mode) in
  (model_arn_override <> "" ->
   LambdaHandler.get_model_arn model_id region account_id model_arn_override
   = model_arn_override) /\
  (is_inference_profile model_id = false ->
   LambdaHandler.get_model_arn model_id region account_id model_arn_override
   = main_arn) /\
  (model_arn_override = "" -> is_inference_profile model_id = true ->
   LambdaHandler.get_model_arn model_id region account_id model_arn_override
   = "arn:aws:bedrock:" ++ region ++ ":" ++ account_id
     ++ ":inference-profile/" ++ model_id /\
   LambdaHandler.get_model_arn model_id region account_id model_arn_override
   <> main_arn).
Proof.
  cbv zeta. unfold LambdaHandler.get_model_arn, bedrock_request. cbn [modelArn].
  fold (is_inference_profile model_id). unfold or_str.
  split; [|split].
  - intros H. apply truthy_true in H. now rewrite H.
  - intros ->. reflexivity.
  - intros -> ->. cbn [truthy String.eqb negb]. split; [reflexivity|].
    intros H. apply (f_equal String.length) in H.
    repeat rewrite length_append in H. simpl in H. lia.
Qed.

Lemma lambda_model_arn_witness :
  LambdaHandler.get_model_arn "us.anthropic.claude-3-5-haiku-20241022-v1:0"
    "us-east-1" "123456789012" ""
  <> modelArn (bedrock_request "KB12345678"
                 "us.anthropic.claude-3-5-haiku-20241022-v1:0" "" "us-east-1"
                 "which pad?" None "en" false "default").
Proof.
  apply (proj2 (proj2 (proj2
           (lambda_model_arn "us.anthropic.claude-3-5-haiku-20241022-v1:0"
              "us-east-1" "123456789012" "" "KB12345678" "which pad?" None "en"
              false "default")) eq_refl eq_refl)).
Defined.

(** ** The account id *)

Section AccountId.

Lemma split_on_from_field (f cur rest : string) :
  colon_free f = true ->
  LambdaHandler.split_on_from ":" cur (f ++ rest)
  = LambdaHandler.split_on_from ":" (cur ++ f) rest.
Proof.
  revert cur. induction f as [|c f IH]; intros cur Hf.
  - now rewrite append_nil_r.
  - simpl in Hf. apply andb_true_iff in Hf as [Hc Hf].
    apply negb_true_iff in Hc. simpl. rewrite Hc.
    rewrite IH by assumption. now rewrite append_assoc.
Qed.

(** Splitting on colons undoes joining colon-free fields. *)
Lemma split_on_join (fields : list string) :
  fields <> [] -> forallb colon_free fields = true ->
  LambdaHandler.split_on ":" (join ":" fields) = fields.
Proof.
  unfold LambdaHandler.split_on.
  induction fields as [|f fields IH]; [congruence|].
  intros _ H. simpl in H. apply andb_true_iff in H as [Hf Hfs].
  destruct fields as [|g fields].
  - simpl. rewrite <- (append_nil_r f) at 1.
    now rewrite split_on_from_field.
  - change (join ":" (f :: g :: fields)) with (f ++ ":" ++ join ":" (g :: fields)).
    rewrite split_on_from_field by assumption.
    change ("" ++ f) with f.
    change (":" ++ join ":" (g :: fields))
      with (String ":"%char (join ":" (g :: fields))).
    cbn [LambdaHandler.split_on_from]. change (Ascii.eqb ":" ":") with true. cbn iota.
    rewrite IH; [reflexivity | discriminate | assumption].
Qed.

End AccountId.

(** X16.  [get_account_id] never touches the provider world.  Once it has
    returned a non-empty account id, every later call returns that id and
    leaves the state alone, whatever the context.  It raises only with a
    cold cache on a context whose function ARN has fewer than five
    colon-separated fields. *)
Theorem lambda_account_id_cached (context : option LambdaHandler.Context)
    (st : LambdaHandler.State) x st'
    (Hrun : LambdaHandler.get_account_id context st = (x, st')) :
  LambdaHandler.world st' = LambdaHandler.world st /\
  LambdaHandler.sts_account st' = LambdaHandler.sts_account st /\
  (forall acc, x = Return acc -> acc <> "" ->
     forall context', LambdaHandler.get_account_id context' st' = (Return acc, st')) /\
  (forall e, x = Raise e ->
     opt_truthy (LambdaHandler.account_id_cache st) = None /\
     exists arn, context = Some {| LambdaHandler.invoked_function_arn := Some arn |} /\
                 List.length (LambdaHandler.split_on ":" arn) < 5).
Proof.
  unfold LambdaHandler.get_account_id in Hrun.
  assert (Hwarm : forall acc st0, acc <> "" ->
            forall context',
              LambdaHandler.get_account_id context' (LambdaHandler.set_cache acc st0)
              = (Return acc, LambdaHandler.set_cache acc st0)).
  { intros acc st0 Hacc context'. unfold LambdaHandler.get_account_id.
    cbn [LambdaHandler.set_cache LambdaHandler.account_id_cache opt_truthy].
    apply truthy_true in Hacc. now rewrite Hacc. }
  destruct (opt_truthy (LambdaHandler.account_id_cache st)) as [cached|] eqn:Hc.
  - injection Hrun as <- <-.
    split; [reflexivity|]. split; [reflexivity|]. split; [|discriminate].
    intros acc [= <-] _ context'. unfold LambdaHandler.get_account_id.
    now rewrite Hc.
  - destruct context as [[[arn|]]|].
    + destruct (nth_error (LambdaHandler.split_on ":" arn) 4) as [acc|] eqn:Hn;
        injection Hrun as <- <-;
        (split; [reflexivity|]); (split; [reflexivity|]); split.
      * intros a [= <-] Ha. now apply Hwarm.
      * discriminate.
      * discriminate.
      * intros err _. split; [reflexivity|]. exists arn. split; [reflexivity|].
        apply nth_error_None in Hn. lia.
    + destruct (LambdaHandler.sts_account st) as [acc|] eqn:Hsts;
        injection Hrun as <- <-;
        (split; [reflexivity|]); (split; [simpl; congruence|]); split;
        try discriminate.
      * intros a [= <-] Ha. now apply Hwarm.
      * intros a [= <-] Ha. congruence.
    + destruct (LambdaHandler.sts_account st) as [acc|] eqn:Hsts;
        injection Hrun as <- <-;
        (split; [reflexivity|]); (split; [simpl; congruence|]); split;
        try discriminate.
      * intros a [= <-] Ha. now apply Hwarm.
      * intros a [= <-] Ha. congruence.
Qed.

Lemma lambda_account_id_cached_witness :
  let ctx := Some {| LambdaHandler.invoked_function_arn :=
                       Some LambdaSamples.function_arn |} in
  let st := LambdaSamples.cold (Samples.world Samples.kb_env Samples.helpful) in
  LambdaHandler.get_account_id None
    (snd (LambdaHandler.get_account_id ctx st))
  = (Return "123456789012", snd (LambdaHandler.get_account_id ctx st)).
Proof.
  cbv zeta.
  refine (proj1 (proj2 (proj2
            (lambda_account_id_cached
               (Some {| LambdaHandler.invoked_function_arn :=
                          Some LambdaSamples.function_arn |})
               (LambdaSamples.cold (Samples.world Samples.kb_env Samples.helpful))
               (Return "123456789012") _ _))) "123456789012" eq_refl _ None).
  - vm_compute. reflexivity.
  - discriminate.
Defined.

(** X17.  With a cold cache, the account id read from a function ARN made
    of colon-free fields joined by colons is its fifth field, and it is
    cached. *)
Theorem lambda_account_id_from_arn (fields : list string) (acc : string)
    (st : LambdaHandler.State)
    (Hcold : opt_truthy (LambdaHandler.account_id_cache st) = None)
    (Hfields : forallb colon_free fields = true)
    (Hfifth : nth_error fields 4 = Some acc) :
  LambdaHandler.get_account_id
    (Some {| LambdaHandler.invoked_function_arn := Some (join ":" fields) |}) st
  = (Return acc, LambdaHandler.set_cache acc st).
Proof.
  unfold LambdaHandler.get_account_id. rewrite Hcold.
  rewrite split_on_join; [now rewrite Hfifth | | assumption].
  intros ->. discriminate.
Qed.

Lemma lambda_account_id_from_arn_witness :
  LambdaHandler.get_account_id
    (Some {| LambdaHandler.invoked_function_arn := Some LambdaSamples.function_arn |})
    (LambdaSamples.cold (Samples.world Samples.kb_env Samples.helpful))
  = (Return "123456789012",
     LambdaHandler.set_cache "123456789012"
       (LambdaSamples.cold (Samples.world Samples.kb_env Samples.helpful))).
Proof.
  apply (lambda_account_id_from_arn
           ["arn"; "aws"; "lambda"; "us-east-1"; "123456789012"; "function"; "ai-agent"]);
    reflexivity.
Defined.

(** ** The retrieval blocks *)

Section LambdaRetrieval.

Lemma answer_run (res : RGResponse) (cid : option string) (l : string) (w : World) :
  LambdaHandler.answer res cid l w
  = (Return (match opt_truthy (res_sessionId res) with
             | Some s => s
             | None => fst (minted cid w)
             end,
             match opt_truthy (output_text res) with
             | Some t => t
             | None => no_answer l
             end),
     result_world res cid w).
Proof.
  unfold LambdaHandler.answer, result_world, bind.
  destruct (opt_truthy (res_sessionId res)); [reflexivity|].
  now rewrite or_new_run.
Qed.

Lemma retrieve_run prompt kb arn cid l w :
  LambdaHandler.retrieve prompt kb arn cid l w
  = retrieve_cases json_chat LambdaHandler.bedrock_failed prompt kb arn cid l w.
Proof.
  unfold LambdaHandler.retrieve, retrieve_cases, catch, bind,
    retrieve_and_generate, ret. cbv zeta.
  destruct (retrieve_and_generate_oracle (provider w) (log w) _) as [res|msg|msg].
  - now rewrite answer_run.
  - destruct (LambdaHandler.is_validation_exception msg); [|reflexivity].
    destruct (invalid_session msg); [|reflexivity]. cbn [andb].
    destruct (retrieve_and_generate_oracle _ _ (LambdaHandler.request_params _ _ _ None))
      as [res|m2|m2]; try reflexivity.
    now rewrite answer_run.
  - reflexivity.
Qed.

Lemma retrieve_stream_run prompt kb arn cid l w :
  LambdaHandler.retrieve_stream prompt kb arn cid l w
  = retrieve_cases LambdaHandler.stream_ok LambdaHandler.streaming_failed
                   prompt kb arn cid l w.
Proof.
  unfold LambdaHandler.retrieve_stream, retrieve_cases, catch, bind,
    retrieve_and_generate, ret. cbv zeta.
  destruct (retrieve_and_generate_oracle (provider w) (log w) _) as [res|msg|msg].
  - now rewrite answer_run.
  - destruct (LambdaHandler.is_validation_exception msg); [|reflexivity].
    destruct (invalid_session msg); [|reflexivity]. cbn [andb].
    destruct (retrieve_and_generate_oracle _ _ (LambdaHandler.request_params _ _ _ None))
      as [res|m2|m2]; try reflexivity.
    now rewrite answer_run.
  - reflexivity.
Qed.

(** The retrieval blocks always return: an answer or the failure
    response. *)
Lemma retrieve_cases_returns ok failed prompt kb arn cid l w :
  exists r w',
    retrieve_cases ok failed prompt kb arn cid l w = (Return r, w') /\
    ((exists c t, r = ok c t) \/ r = failed).
Proof.
  unfold retrieve_cases. cbv zeta.
  destruct (retrieve_and_generate_oracle (provider w) (log w) _) as [res|msg|msg].
  - eexists. eexists. split; [reflexivity|]. left. eauto.
  - destruct (LambdaHandler.is_validation_exception msg && invalid_session msg).
    + destruct (retrieve_and_generate_oracle _ _ (LambdaHandler.request_params _ _ _ None));
        eexists; eexists; (split; [reflexivity|]); eauto.
    + eexists. eexists. split; [reflexivity|]. now right.
  - eexists. eexists. split; [reflexivity|]. now right.
Qed.

Lemma retrieve_cases_streamed prompt kb arn cid l w :
  retrieve_cases LambdaHandler.stream_ok LambdaHandler.streaming_failed
                 prompt kb arn cid l w
  = match retrieve_cases json_chat LambdaHandler.bedrock_failed
            prompt kb arn cid l w with
    | (Return r, w') => (Return (streamed r), w')
    | (Raise e, w') => (Raise e, w')
    end.
Proof.
  unfold retrieve_cases. cbv zeta.
  destruct (retrieve_and_generate_oracle (provider w) (log w) _) as [res|msg|msg].
  - reflexivity.
  - destruct (LambdaHandler.is_validation_exception msg && invalid_session msg).
    + destruct (retrieve_and_generate_oracle _ _ (LambdaHandler.request_params _ _ _ None));
        reflexivity.
    + reflexivity.
  - reflexivity.
Qed.

End LambdaRetrieval.

(** X18.  In the lambda handler a rejected session is retried only when the
    error is a ValidationException with the invalid-session signature:
    then exactly one more call is made, without session id, and an answer
    carries the provider's new session id or a minted one, never the
    rejected token by default; a failing retry, and any other error, is
    answered with the fixed failure response and is not raised. *)
Theorem lambda_retry (prompt kb arn tok l : string) (w : World) (msg : string)
    (Htok : tok <> "")
    (Hrej : retrieve_and_generate_oracle (provider w) (log w)
              (LambdaHandler.request_params prompt kb arn (Some tok))
            = RGClientError msg) :
  let req := LambdaHandler.request_params prompt kb arn (Some tok) in
  let retry := LambdaHandler.request_params prompt kb arn None in
  let w1 := log_call (RetrieveAndGenerate req (RGClientError msg)) w in
  let out := retrieve_and_generate_oracle (provider w) (log w1) retry in
  sessionId req = Some tok /\ sessionId retry = None /\
  exists r w',
    LambdaHandler.retrieve prompt kb arn (Some tok) l w = (Return r, w') /\
    (LambdaHandler.is_validation_exception msg && invalid_session msg = false ->
     r = LambdaHandler.bedrock_failed /\
     calls_between w w' = [RetrieveAndGenerate req (RGClientError msg)]) /\
    (LambdaHandler.is_validation_exception msg && invalid_session msg = true ->
     calls_between w w'
     = [RetrieveAndGenerate req (RGClientError msg); RetrieveAndGenerate retry out] /\
     match out with
     | RGOk res =>
         r = json_chat
               (match opt_truthy (res_sessionId res) with
                | Some s => s
                | None => next_uuid w
                end)
               (match opt_truthy (output_text res) with
                | Some t => t
                | None => no_answer l
                end)
     | _ => r = LambdaHandler.bedrock_failed
     end).
Proof.
  cbv zeta. split; [|split; [reflexivity|]].
  { unfold LambdaHandler.request_params. cbn [sessionId opt_truthy].
    apply truthy_true in Htok. now rewrite Htok. }
  rewrite retrieve_run. unfold retrieve_cases. cbv zeta. rewrite Hrej.
  destruct (LambdaHandler.is_validation_exception msg && invalid_session msg).
  - cbn [provider log_call].
    destruct (retrieve_and_generate_oracle (provider w) _
                (LambdaHandler.request_params prompt kb arn None)) as [res|e|e];
      eexists; eexists; (split; [reflexivity|]); (split; [discriminate|]);
      intros _; (split; [apply calls_between_app; settle_logs;
                         now rewrite <- app_assoc | reflexivity]).
  - eexists. eexists. split; [reflexivity|]. split; [|discriminate].
    intros _. split; [reflexivity|]. apply calls_between_app. reflexivity.
Qed.

Lemma lambda_retry_witness :
  let w := Samples.world Samples.kb_env MoreSamples.forgetful in
  exists r w',
    LambdaHandler.retrieve "prompt" "KB12345678" "arn" (Some "stale-session") "en" w
    = (Return r, w') /\
    List.length (calls_between w w') = 2 /\
    r = json_chat (next_uuid w) "Summary: use a one-handed controller.".
Proof.
  cbv zeta.
  destruct (lambda_retry "prompt" "KB12345678" "arn" "stale-session" "en"
              (Samples.world Samples.kb_env MoreSamples.forgetful)
              ("An error occurred (ValidationException) when calling the "
               ++ "RetrieveAndGenerate operation: Session with Id stale-session "
               ++ "is not valid. Please check and try again."))
    as (_ & _ & r & w' & Hrun & _ & Hretry).
  - discriminate.
  - reflexivity.
  - destruct (Hretry eq_refl) as [Hcalls Hr].
    exists r, w'. split; [exact Hrun|]. split; [now rewrite Hcalls | exact Hr].
Defined.

(** ** The handlers *)

Section LambdaRoutes.

Lemma chat_route_conditions (e : LambdaHandler.Event) :
  is_chat_route e = true ->
  LambdaHandler.opt_eqb (LambdaHandler.rawPath e) "/api/chat/stream" = false /\
  (LambdaHandler.opt_eqb (LambdaHandler.rawPath e) "/"
   || LambdaHandler.opt_eqb (LambdaHandler.rawPath e) "") = false /\
  LambdaHandler.opt_eqb (LambdaHandler.rawPath e) "/health" = false /\
  (LambdaHandler.opt_eqb (LambdaHandler.rawPath e) "/api/chat"
   && LambdaHandler.opt_eqb (LambdaHandler.http_method e) "GET") = false.
Proof.
  unfold is_chat_route. intros H.
  apply andb_true_iff in H as [H H4]. apply andb_true_iff in H as [H H3].
  apply andb_true_iff in H as [H1 H2].
  apply negb_true_iff in H1, H2, H3, H4. auto.
Qed.

Lemma get_account_id_world ctx st x st1 :
  LambdaHandler.get_account_id ctx st = (x, st1) ->
  LambdaHandler.world st1 = LambdaHandler.world st.
Proof.
  unfold LambdaHandler.get_account_id.
  destruct (opt_truthy (LambdaHandler.account_id_cache st)); [now intros [= <- <-]|].
  destruct ctx as [[[arn|]]|];
    try destruct (nth_error _ 4); try destruct (LambdaHandler.sts_account st);
    now intros [= <- <-].
Qed.

(** [handler] on a chat route with a JSON object carrying a message: the
    part after the validation. *)
Lemma handler_chat (e : LambdaHandler.Event) ctx st p :
  is_chat_route e = true ->
  LambdaHandler.parsed_body e = LambdaHandler.object p ->
  payload_message p <> "" ->
  LambdaHandler.handler e ctx st
  = let message := payload_message p in
    let conversation_id := LambdaHandler.p_conversationId p in
    let language := normalize_language (LambdaHandler.p_language p) in
    let w := LambdaHandler.world st in
    if Lambda.is_greeting message then
      (Return (json_chat (fst (minted conversation_id w))
                 (LambdaHandler.get_greeting_response language)),
       with_world st (snd (minted conversation_id w)))
    else if configured w then
      match LambdaHandler.get_account_id ctx (with_world st w) with
      | (Return account_id, st1) =>
          match LambdaHandler.retrieve
                  (LambdaHandler.build_prompt message language)
                  (env_get w "BEDROCK_KB_ID" "")
                  (LambdaHandler.get_model_arn (env_get w "BEDROCK_MODEL_ID" "")
                     (env_get w "AWS_REGION" "us-east-1") account_id
                     (env_get w "BEDROCK_MODEL_ARN" ""))
                  conversation_id language w with
          | (x, w') => (x, with_world st1 w')
          end
      | (Raise err, st1) => (Raise err, st1)
      end
    else
      (Return (json_chat (fst (minted conversation_id w))
                 (echo_reply message language)),
       with_world st (snd (minted conversation_id w))).
Proof.
  intros Hroute Hbody Hne.
  destruct (chat_route_conditions e Hroute) as (H1 & H2 & H3 & H4).
  unfold LambdaHandler.handler. rewrite H1, H2, H3, H4, Hbody. cbv zeta.
  fold (payload_message p). apply truthy_true in Hne. rewrite Hne. cbn [negb].
  destruct (Lambda.is_greeting (payload_message p)).
  - unfold LambdaHandler.lbind, LambdaHandler.lift, LambdaHandler.lret.
    rewrite or_new_run. reflexivity.
  - unfold LambdaHandler.lbind at 1 2 3. unfold LambdaHandler.lift at 1 2 3.
    unfold getenv. cbn [LambdaHandler.world].
    fold (env_get (LambdaHandler.world st) "BEDROCK_KB_ID" "")
         (env_get (LambdaHandler.world st) "BEDROCK_MODEL_ID" "")
         (env_get (LambdaHandler.world st) "BEDROCK_MODEL_ARN" "").
    unfold configured. rewrite <- negb_andb.
    destruct (truthy (env_get (LambdaHandler.world st) "BEDROCK_KB_ID" "")
              && truthy (env_get (LambdaHandler.world st) "BEDROCK_MODEL_ID" ""));
      cbn [negb].
    + unfold LambdaHandler.lbind at 1. fold (with_world st (LambdaHandler.world st)).
      destruct (LambdaHandler.get_account_id ctx _) as [[account_id|err] st1] eqn:Hacc;
        [|reflexivity].
      apply get_account_id_world in Hacc. cbn [with_world LambdaHandler.world] in Hacc.
      unfold LambdaHandler.lbind, LambdaHandler.lift, getenv.
      cbn [LambdaHandler.world LambdaHandler.account_id_cache
           LambdaHandler.sts_account].
      rewrite Hacc. fold (env_get (LambdaHandler.world st) "AWS_REGION" "us-east-1").
      reflexivity.
    + unfold LambdaHandler.lbind, LambdaHandler.lift, LambdaHandler.lret.
      cbn [LambdaHandler.world]. rewrite or_new_run. reflexivity.
Qed.

End LambdaRoutes.

Section LambdaStreaming.

(** [handle_streaming_chat] on a JSON object carrying a message. *)
Lemma streaming_chat (e : LambdaHandler.Event) st p :
  LambdaHandler.parsed_body e = LambdaHandler.object p ->
  payload_message p <> "" ->
  LambdaHandler.handle_streaming_chat e st
  = let message := payload_message p in
    let conversation_id := LambdaHandler.p_conversationId p in
    let language := normalize_language (LambdaHandler.p_language p) in
    let w := LambdaHandler.world st in
    if Lambda.is_greeting message then
      (Return (LambdaHandler.stream_ok (fst (minted conversation_id w))
                 (LambdaHandler.get_greeting_response language)),
       with_world st (snd (minted conversation_id w)))
    else if configured w then
      match LambdaHandler.get_account_id None (with_world st w) with
      | (Return account_id, st1) =>
          match LambdaHandler.retrieve_stream
                  (LambdaHandler.build_prompt message language)
                  (env_get w "BEDROCK_KB_ID" "")
                  (LambdaHandler.get_model_arn (env_get w "BEDROCK_MODEL_ID" "")
                     (env_get w "AWS_REGION" "us-east-1") account_id "")
                  conversation_id language w with
          | (x, w') => (x, with_world st1 w')
          end
      | (Raise err, st1) => (Raise err, st1)
      end
    else
      (Return (LambdaHandler.stream_ok (fst (minted conversation_id w))
                 (echo_reply message language)),
       with_world st (snd (minted conversation_id w))).
Proof.
  intros Hbody Hne.
  unfold LambdaHandler.handle_streaming_chat. rewrite Hbody. cbv zeta.
  fold (payload_message p). apply truthy_true in Hne. rewrite Hne. cbn [negb].
  destruct (Lambda.is_greeting (payload_message p)).
  - unfold LambdaHandler.lbind, LambdaHandler.lift, LambdaHandler.lret.
    rewrite or_new_run. reflexivity.
  - unfold LambdaHandler.lbind at 1 2. unfold LambdaHandler.lift at 1 2.
    unfold getenv. cbn [LambdaHandler.world].
    fold (env_get (LambdaHandler.world st) "BEDROCK_KB_ID" "")
         (env_get (LambdaHandler.world st) "BEDROCK_MODEL_ID" "").
    unfold configured. rewrite <- negb_andb.
    destruct (truthy (env_get (LambdaHandler.world st) "BEDROCK_KB_ID" "")
              && truthy (env_get (LambdaHandler.world st) "BEDROCK_MODEL_ID" ""));
      cbn [negb].
    + unfold LambdaHandler.lbind at 1. fold (with_world st (LambdaHandler.world st)).
      destruct (LambdaHandler.get_account_id None _) as [[account_id|err] st1] eqn:Hacc;
        [|reflexivity].
      apply get_account_id_world in Hacc. cbn [with_world LambdaHandler.world] in Hacc.
      unfold LambdaHandler.lbind, LambdaHandler.lift, getenv.
      cbn [LambdaHandler.world LambdaHandler.account_id_cache
           LambdaHandler.sts_account].
      rewrite Hacc. fold (env_get (LambdaHandler.world st) "AWS_REGION" "us-east-1").
      reflexivity.
    + unfold LambdaHandler.lbind, LambdaHandler.lift, LambdaHandler.lret.
      cbn [LambdaHandler.world]. rewrite or_new_run. reflexivity.
Qed.

Lemma warm_account_id ctx st acc :
  opt_truthy (LambdaHandler.account_id_cache st) = Some acc ->
  LambdaHandler.get_account_id ctx (with_world st (LambdaHandler.world st))
  = (Return acc, with_world st (LambdaHandler.world st)).
Proof.
  intros H. unfold LambdaHandler.get_account_id.
  cbn [with_world LambdaHandler.account_id_cache]. now rewrite H.
Qed.

End LambdaStreaming.

(** X19.  The lambda handler answers a greeting, and without retrieval
    configuration every message, locally: status 200 with the welcome text
    or the echo of the message, paired with the caller's token or a minted
    id, never empty; no provider call is made, and the echo is returned
    whatever the message says.  The streaming endpoint gives the same
    reply as an event stream. *)
Theorem lambda_local_answers (e : LambdaHandler.Event)
    (ctx : option LambdaHandler.Context) (st : LambdaHandler.State)
    (p : LambdaHandler.Payload)
    (Hroute : is_chat_route e = true)
    (Hbody : LambdaHandler.parsed_body e = LambdaHandler.object p)
    (Hne : payload_message p <> "")
    (Hlocal : Lambda.is_greeting (payload_message p) = true \/
              configured (LambdaHandler.world st) = false) :
  let w := LambdaHandler.world st in
  let language := normalize_language (LambdaHandler.p_language p) in
  let text := if Lambda.is_greeting (payload_message p)
              then LambdaHandler.get_greeting_response language
              else echo_reply (payload_message p) language in
  let tok := fst (minted (LambdaHandler.p_conversationId p) w) in
  let st' := with_world st (snd (minted (LambdaHandler.p_conversationId p) w)) in
  LambdaHandler.handler e ctx st = (Return (json_chat tok text), st') /\
  LambdaHandler.handle_streaming_chat e st
  = (Return (LambdaHandler.stream_ok tok text), st') /\
  tok <> "" /\
  log (LambdaHandler.world st') = log w /\
  (forall s, opt_truthy (LambdaHandler.p_conversationId p) = Some s -> tok = s).
Proof.
  cbv zeta.
  rewrite (handler_chat e ctx st p Hroute Hbody Hne).
  rewrite (streaming_chat e st p Hbody Hne). cbv zeta.
  split; [|split; [|split; [|split]]].
  - destruct (Lambda.is_greeting (payload_message p)); [reflexivity|].
    destruct Hlocal as [H|H]; [discriminate|]. now rewrite H.
  - destruct (Lambda.is_greeting (payload_message p)); [reflexivity|].
    destruct Hlocal as [H|H]; [discriminate|]. now rewrite H.
  - apply minted_not_nil.
  - cbn [with_world LambdaHandler.world]. apply minted_setting.
  - intros s Hs. unfold minted. now rewrite Hs.
Qed.

Lemma lambda_local_answers_witness :
  let st := LambdaSamples.cold (Samples.world Samples.no_env Samples.helpful) in
  let e := LambdaSamples.post "/api/chat"
             (LambdaSamples.ask "Why do games say they cannot help me?" (Some "abc")) in
  let e' := LambdaSamples.post "/api/chat"
              (LambdaSamples.ask "¿Hola, cómo estás?" (Some "abc")) in
  (exists st',
     LambdaHandler.handler e None st
     = (Return (json_chat "abc" "You said: Why do games say they cannot help me?"),
        st')) /\
  (exists st',
     LambdaHandler.handler e' None st
     = (Return (json_chat "abc" (LambdaHandler.get_greeting_response "en")), st')).
Proof.
  cbv zeta. split; eexists.
  - refine (proj1 (lambda_local_answers
                     (LambdaSamples.post "/api/chat"
                        (LambdaSamples.ask "Why do games say they cannot help me?"
                           (Some "abc")))
                     None
                     (LambdaSamples.cold (Samples.world Samples.no_env Samples.helpful))
                     (LambdaSamples.ask "Why do games say they cannot help me?"
                        (Some "abc"))
                     _ _ _ _)).
    + reflexivity.
    + reflexivity.
    + vm_compute. discriminate.
    + right. reflexivity.
  - refine (proj1 (lambda_local_answers
                     (LambdaSamples.post "/api/chat"
                        (LambdaSamples.ask "¿Hola, cómo estás?" (Some "abc")))
                     None
                     (LambdaSamples.cold (Samples.world Samples.no_env Samples.helpful))
                     (LambdaSamples.ask "¿Hola, cómo estás?" (Some "abc"))
                     _ _ _ _)).
    + reflexivity.
    + reflexivity.
    + vm_compute. discriminate.
    + left. vm_compute. reflexivity.
Defined.

(** X20.  With a warm account-id cache and no model-ARN override, the
    streaming endpoint is the JSON endpoint seen as a stream: for the same
    body it makes the same provider calls and reaches the same state, a
    chat answer becomes meta and delta events, the provider failure
    becomes the error event, and validation errors are the same
    responses. *)
Theorem lambda_stream_agrees (e : LambdaHandler.Event)
    (ctx : option LambdaHandler.Context) (st : LambdaHandler.State) (acc : string)
    (Hroute : is_chat_route e = true)
    (Hwarm : opt_truthy (LambdaHandler.account_id_cache st) = Some acc)
    (Hover : env_get (LambdaHandler.world st) "BEDROCK_MODEL_ARN" "" = "") :
  LambdaHandler.handle_streaming_chat e st
  = streamed_run (LambdaHandler.handler e ctx st).
Proof.
  destruct (LambdaHandler.parsed_body e) as [|msg| |p] eqn:Hbody.
  - destruct (chat_route_conditions e Hroute) as (H1 & H2 & H3 & H4).
    unfold LambdaHandler.handler, LambdaHandler.handle_streaming_chat.
    now rewrite H1, H2, H3, H4, Hbody.
  - destruct (chat_route_conditions e Hroute) as (H1 & H2 & H3 & H4).
    unfold LambdaHandler.handler, LambdaHandler.handle_streaming_chat.
    now rewrite H1, H2, H3, H4, Hbody.
  - destruct (chat_route_conditions e Hroute) as (H1 & H2 & H3 & H4).
    unfold LambdaHandler.handler, LambdaHandler.handle_streaming_chat.
    now rewrite H1, H2, H3, H4, Hbody.
  - destruct (String.eqb_spec (payload_message p) "") as [Hempty|Hne].
    + destruct (chat_route_conditions e Hroute) as (H1 & H2 & H3 & H4).
      unfold LambdaHandler.handler, LambdaHandler.handle_streaming_chat.
      rewrite H1, H2, H3, H4, Hbody. cbv zeta. fold (payload_message p).
      rewrite Hempty. reflexivity.
    + rewrite (handler_chat e ctx st p Hroute Hbody Hne).
      rewrite (streaming_chat e st p Hbody Hne). cbv zeta.
      destruct (Lambda.is_greeting (payload_message p)); [reflexivity|].
      destruct (configured (LambdaHandler.world st)); [|reflexivity].
      rewrite !(warm_account_id _ st acc Hwarm), Hover.
      rewrite retrieve_run, retrieve_stream_run, retrieve_cases_streamed.
      destruct (retrieve_cases json_chat _ _ _ _ _ _ _) as [[r|err] w']; reflexivity.
Qed.

Lemma lambda_stream_agrees_witness :
  let st := LambdaSamples.warm (Samples.world Samples.kb_env Samples.refusing) in
  let e := LambdaSamples.post "/api/chat"
             (LambdaSamples.ask "How do I set up an adaptive controller?"
                (Some "stale-session")) in
  LambdaHandler.handle_streaming_chat e st
  = streamed_run (LambdaHandler.handler e None st).
Proof.
  apply (lambda_stream_agrees
           (LambdaSamples.post "/api/chat"
              (LambdaSamples.ask "How do I set up an adaptive controller?"
                 (Some "stale-session")))
           None
           (LambdaSamples.warm (Samples.world Samples.kb_env Samples.refusing))
           "123456789012"); reflexivity.
Defined.
Section LambdaOutcomes.

Lemma get_account_id_no_context st :
  exists acc st1, LambdaHandler.get_account_id None st = (Return acc, st1).
Proof.
  unfold LambdaHandler.get_account_id.
  destruct (opt_truthy (LambdaHandler.account_id_cache st)); [eauto|].
  destruct (LambdaHandler.sts_account st); eauto.
Qed.

Lemma streaming_outcomes e st r st' :
  LambdaHandler.handle_streaming_chat e st = (Return r, st') ->
  LambdaHandler.statusCode r = 200 \/
  LambdaHandler.statusCode r = 400 /\ LambdaHandler.headers r = LambdaHandler.json_headers.
Proof.
  destruct (LambdaHandler.parsed_body e) as [|msg| |p] eqn:Hbody.
  - unfold LambdaHandler.handle_streaming_chat. rewrite Hbody.
    intros [= <- <-]. right. auto.
  - unfold LambdaHandler.handle_streaming_chat. rewrite Hbody. discriminate.
  - unfold LambdaHandler.handle_streaming_chat. rewrite Hbody. discriminate.
  - destruct (String.eqb_spec (payload_message p) "") as [Hempty|Hne].
    + unfold LambdaHandler.handle_streaming_chat. rewrite Hbody. cbv zeta.
      fold (payload_message p). rewrite Hempty.
      intros [= <- <-]. right. auto.
    + rewrite (streaming_chat e st p Hbody Hne). cbv zeta.
      destruct (Lambda.is_greeting (payload_message p)).
      { intros [= <- <-]. now left. }
      destruct (configured (LambdaHandler.world st)).
      2:{ intros [= <- <-]. now left. }
      destruct (get_account_id_no_context (with_world st (LambdaHandler.world st)))
        as (acc & st1 & ->).
      rewrite retrieve_stream_run.
      destruct (retrieve_cases_returns LambdaHandler.stream_ok
                  LambdaHandler.streaming_failed
                  (LambdaHandler.build_prompt (payload_message p)
                     (normalize_language (LambdaHandler.p_language p)))
                  (env_get (LambdaHandler.world st) "BEDROCK_KB_ID" "")
                  (LambdaHandler.get_model_arn
                     (env_get (LambdaHandler.world st) "BEDROCK_MODEL_ID" "")
                     (env_get (LambdaHandler.world st) "AWS_REGION" "us-east-1") acc "")
                  (LambdaHandler.p_conversationId p)
                  (normalize_language (LambdaHandler.p_language p))
                  (LambdaHandler.world st))
        as (r0 & w' & -> & Hr).
      intros [= <- <-]. left. destruct Hr as [(c & t & ->) | ->]; reflexivity.
Qed.

Lemma chat_route_outcomes e ctx st r st' :
  is_chat_route e = true ->
  LambdaHandler.handler e ctx st = (Return r, st') ->
  (LambdaHandler.statusCode r = 200 \/ LambdaHandler.statusCode r = 400 \/
   r = LambdaHandler.bedrock_failed) /\
  LambdaHandler.headers r = LambdaHandler.json_headers.
Proof.
  intros Hroute.
  destruct (chat_route_conditions e Hroute) as (H1 & H2 & H3 & H4).
  destruct (LambdaHandler.parsed_body e) as [|msg| |p] eqn:Hbody.
  - unfold LambdaHandler.handler. rewrite H1, H2, H3, H4, Hbody.
    intros [= <- <-]. auto.
  - unfold LambdaHandler.handler. rewrite H1, H2, H3, H4, Hbody. discriminate.
  - unfold LambdaHandler.handler. rewrite H1, H2, H3, H4, Hbody. discriminate.
  - destruct (String.eqb_spec (payload_message p) "") as [Hempty|Hne].
    + unfold LambdaHandler.handler. rewrite H1, H2, H3, H4, Hbody. cbv zeta.
      fold (payload_message p). rewrite Hempty.
      intros [= <- <-]. auto.
    + rewrite (handler_chat e ctx st p Hroute Hbody Hne). cbv zeta.
      destruct (Lambda.is_greeting (payload_message p)).
      { intros [= <- <-]. auto. }
      destruct (configured (LambdaHandler.world st)).
      2:{ intros [= <- <-]. auto. }
      destruct (LambdaHandler.get_account_id ctx _) as [[acc|err] st1] eqn:Hacc;
        [|discriminate].
      rewrite retrieve_run.
      destruct (retrieve_cases_returns json_chat LambdaHandler.bedrock_failed
                  (LambdaHandler.build_prompt (payload_message p)
                     (normalize_language (LambdaHandler.p_language p)))
                  (env_get (LambdaHandler.world st) "BEDROCK_KB_ID" "")
                  (LambdaHandler.get_model_arn
                     (env_get (LambdaHandler.world st) "BEDROCK_MODEL_ID" "")
                     (env_get (LambdaHandler.world st) "AWS_REGION" "us-east-1") acc
                     (env_get (LambdaHandler.world st) "BEDROCK_MODEL_ARN" ""))
                  (LambdaHandler.p_conversationId p)
                  (normalize_language (LambdaHandler.p_language p))
                  (LambdaHandler.world st))
        as (r0 & w' & -> & Hr).
      intros [= <- <-]. destruct Hr as [(c & t & ->) | ->]; auto.
Qed.

End LambdaOutcomes.

(** X21.  Whatever the event and the provider do, a response of [handler]
    has status 200, 400, 405 or 500; a 500 is always the one fixed failure
    document, so provider error text is never passed on; and a response of
    the streaming route has status 200, or 400 with the JSON headers. *)
Theorem lambda_handler_outcomes (e : LambdaHandler.Event)
    (ctx : option LambdaHandler.Context) (st : LambdaHandler.State)
    (r : LambdaHandler.Response) (st' : LambdaHandler.State)
    (Hrun : LambdaHandler.handler e ctx st = (Return r, st')) :
  In (LambdaHandler.statusCode r) [200; 400; 405; 500] /\
  (LambdaHandler.statusCode r = 500 -> r = LambdaHandler.bedrock_failed) /\
  (LambdaHandler.opt_eqb (LambdaHandler.rawPath e) "/api/chat/stream" = true ->
   LambdaHandler.statusCode r = 200 \/
   LambdaHandler.statusCode r = 400 /\
   LambdaHandler.headers r = LambdaHandler.json_headers).
Proof.
  destruct (is_chat_route e) eqn:Hroute.
  - destruct (chat_route_outcomes e ctx st r st' Hroute Hrun) as [[H|[H|H]] _].
    + rewrite H. split; [simpl; auto | split; [discriminate|]].
      intros Hs. destruct (chat_route_conditions e Hroute) as (H1 & _). congruence.
    + rewrite H. split; [simpl; auto | split; [discriminate|]].
      intros Hs. destruct (chat_route_conditions e Hroute) as (H1 & _). congruence.
    + subst r. split; [simpl; auto | split; [reflexivity|]].
      intros Hs. destruct (chat_route_conditions e Hroute) as (H1 & _). congruence.
  - unfold LambdaHandler.handler in Hrun.
    destruct (LambdaHandler.opt_eqb (LambdaHandler.rawPath e) "/api/chat/stream")
      eqn:H1.
    { pose proof (streaming_outcomes e st r st' Hrun) as Hret.
      split; [|split; [|intros _; exact Hret]];
        destruct Hret as [H|[H _]]; rewrite H; simpl; auto; discriminate. }
    destruct (LambdaHandler.opt_eqb (LambdaHandler.rawPath e) "/"
              || LambdaHandler.opt_eqb (LambdaHandler.rawPath e) "") eqn:H2.
    { injection Hrun as <- <-. split; [simpl; auto | split; discriminate]. }
    destruct (LambdaHandler.opt_eqb (LambdaHandler.rawPath e) "/health") eqn:H3.
    { injection Hrun as <- <-. split; [simpl; auto | split; discriminate]. }
    destruct (LambdaHandler.opt_eqb (LambdaHandler.rawPath e) "/api/chat"
              && LambdaHandler.opt_eqb (LambdaHandler.http_method e) "GET") eqn:H4.
    { injection Hrun as <- <-. split; [simpl; auto | split; discriminate]. }
    exfalso. unfold is_chat_route in Hroute. rewrite H1, H2, H3, H4 in Hroute.
    discriminate.
Qed.

Lemma lambda_handler_outcomes_witness :
  let st := LambdaSamples.cold (Samples.world Samples.kb_env Samples.throttled) in
  let e := LambdaSamples.post "/api/chat"
             (LambdaSamples.ask "How do I set up an adaptive controller?" None) in
  fst (LambdaHandler.handler e None st) = Return LambdaHandler.bedrock_failed /\
  In (LambdaHandler.statusCode LambdaHandler.bedrock_failed) [200; 400; 405; 500].
Proof.
  cbv zeta. split; [vm_compute; reflexivity|].
  refine (proj1 (lambda_handler_outcomes
                   (LambdaSamples.post "/api/chat"
                      (LambdaSamples.ask
                         "How do I set up an adaptive controller?" None))
                   None
                   (LambdaSamples.cold
                      (Samples.world Samples.kb_env Samples.throttled))
                   LambdaHandler.bedrock_failed
                   (snd (LambdaHandler.handler
                           (LambdaSamples.post "/api/chat"
                              (LambdaSamples.ask
                                 "How do I set up an adaptive controller?" None))
                           None
                           (LambdaSamples.cold
                              (Samples.world Samples.kb_env Samples.throttled))))
                   _)).
  vm_compute. reflexivity.
Defined.

(** ** The lambda prompt and classifier *)

(** X22.  The lambda's prompt carries the user's message verbatim and the
    three section headings of its language. *)
Theorem lambda_prompt_carries_message (m l : string) :
  has_part m (LambdaHandler.build_prompt m l) /\
  Forall (fun h => has_part h (LambdaHandler.build_prompt m l)) (headings l).
Proof.
  unfold LambdaHandler.build_prompt, headings, unlines.
  destruct (l =? "es"); cbn [join];
    repeat match goal with
           | |- _ /\ _ => split
           | |- Forall _ _ => constructor
           end; find_part.
Qed.

(** X23.  Every message main.py classifies as a greeting is a greeting for
    the lambda as well, except "buenas" and "buenas noches", which the
    lambda's list does not cover. *)
Theorem greeting_classifiers_compared (m : string)
    (Hg : is_greeting m = true) :
  Lambda.is_greeting m = true <->
  lower (strip m) <> "buenas" /\ lower (strip m) <> "buenas noches".
Proof.
  destruct (proj1 (is_greeting_letters m) Hg) as (p & Hin & Hp).
  pose proof phrases_in_lower_case as Hl. rewrite forallb_forall in Hl.
  specialize (Hl _ Hin).
  assert (E1 : lower (strip m) = p) by now apply lower_same_letters.
  assert (E2 : strip (lower m) = strip p).
  { destruct (strip_decompose m) as (a & b & Em & Ha & Hb).
    remember (strip m) as s eqn:Es. rewrite Em.
    rewrite (lower_padded a s b p Ha Hb Hp Hl). now apply strip_padding. }
  unfold Lambda.is_greeting. cbv zeta. rewrite E2, E1.
  clear E1 E2 Hp Hl Hg.
  unfold greeting_phrases in Hin. simpl in Hin.
  repeat (destruct Hin as [<- | Hin];
          [first [ vm_compute; split; [intros _; split; discriminate | reflexivity]
                 | vm_compute; split; [discriminate | intros [H1 H2]; congruence] ]|]).
  contradiction.
Qed.

Lemma greeting_classifiers_compared_witness :
  Lambda.is_greeting "  Good Morning " = true.
Proof.
  apply (proj2 (greeting_classifiers_compared "  Good Morning "
                  ltac:(vm_compute; reflexivity))).
  split; vm_compute; discriminate.
Defined.

(** ** Refusals reach the caller only from the last resort *)

(** X24.  A reply of a substantive request that looks like a refusal was
    produced by the general fallback: [chat] never returns a
    refusal-looking reply of either retrieval attempt. *)
Theorem refusal_only_from_fallback (req : ChatRequest) (w : World)
    (r : ChatResult) (w' : World)
    (Hrun : chat req w = (Return r, w'))
    (Hg : is_greeting (strip (message req)) = false)
    (Hr : looks_like_refusal (reply r) = true) :
  fell_back req w /\
  exists w2, call_model_simple (strip (message req))
               (normalize_language (language req)) "general" w2 = (Return r, w').
Proof.
  apply chat_run_complete in Hrun.
  inversion Hrun as [Hne | x v Hne Hg' H | e v Hne Hg' H1 | r1 v Hne Hg' H1 Hr1
                    | r1 w1 e v Hne Hg' H1 Hr1 H2 | r1 w1 r2 v Hne Hg' H1 Hr1 H2 Hr2
                    | r1 w1 r2 w2 x v Hne Hg' H1 Hr1 H2 Hr2 H3]; subst;
    try congruence.
  split; [exists r1, w1, r2, w2; auto | exists w2; exact H3].
Qed.

Lemma refusal_only_from_fallback_witness :
  let w := Samples.world Samples.kb_env Samples.refusing in
  let stubborn :=
    {| environ := environ w;
       provider :=
         {| retrieve_and_generate_oracle :=
              retrieve_and_generate_oracle Samples.refusing;
            invoke_model_oracle := fun _ _ => IMOk [Some "Sorry, I cannot help."] |};
       log := []; entropy := entropy w; draws := 0 |} in
  fell_back Samples.question stubborn.
Proof.
  cbv zeta.
  refine (proj1 (refusal_only_from_fallback Samples.question _
                   {| res_conversationId := None; reply := "Sorry, I cannot help." |}
                   _ _ _ _)).
  - vm_compute. reflexivity.
  - vm_compute. reflexivity.
  - vm_compute. reflexivity.
Defined.
